(** * The investor task engine of the isucoin benchmarker (bench/investor.go)

    A shallow embedding of [investorBase] and [RandomInvestor]: the
    reconciliation of local orders against the server's order list
    ([UpdateOrders]), the placement and cancellation tasks, the info poll,
    the per-tick scheduling ([Next]) and the rule ladder of the trading
    policy ([UpdateOrderTask]).

    Conventions of the embedding.
    - Go's [int64] is a [Z] kept in range by [wrap64]; [+], [-] and [*] wrap
      around as in Go, [/] truncates toward zero ([Z.quot]).
    - [time.Time] is a [Z] (nanoseconds counted from Go's zero time, so the
      zero value of a [time.Time] field is [0]); [Before], [After] and [Add]
      are [<], [>] and [+].
    - The slice [i.orders] of type [[]*Order] is a [list Order]; the pointer
      stored in slot [k] is identified with the index [k], so an update
      through a pointer is an update of the list in place.
    - Every task of the source is a closure; here a task is a constructor
      of [Task] and the closure's body is a function named [<Method>_body]
      taking what the closure reads from the outside world (the client's
      answer, the clock, the retired flag, the random draw) as arguments.
    - The three mutexes only serialise the bodies; each body is modelled as
      one atomic function of the investor's state.
    - A run-time panic of Go (index out of range, nil dereference,
      [rand.Int63n] on a non-positive bound) is the outcome [Panic]. *)

From Stdlib Require Import ZArith Lia Ascii.
From stdpp Require Import base list strings.

Local Open Scope Z_scope.

(** ** Machine integers *)

Definition wrap64 (z : Z) : Z := (z + 2 ^ 63) mod 2 ^ 64 - 2 ^ 63.

Definition add64 (a b : Z) : Z := wrap64 (a + b).
Definition sub64 (a b : Z) : Z := wrap64 (a - b).
Definition mul64 (a b : Z) : Z := wrap64 (a * b).
(** Go's [/] on integers truncates toward zero; the source only divides by
    positive numbers. *)
Definition div64 (a b : Z) : Z := Z.quot a b.

Definition in_int64 (z : Z) : Prop := - 2 ^ 63 <= z < 2 ^ 63.

(** ** Time *)

Definition Time : Type := Z.
Definition Duration : Type := Z.
Definition zeroTime : Time := 0.
Definition Time_Before (t u : Time) : bool := t <? u.
Definition Time_After (t u : Time) : bool := u <? t.
Definition Time_Add (t : Time) (d : Duration) : Time := t + d.

(** ** Orders *)

(** [OrderCap] of the source. *)
Definition OrderCap : nat := 5.

(** Modelled from the spec: the declarations of [TradeTypeSell] and
    [TradeTypeBuy] are not among the sources; the spec names the two sides
    of an order buy and sell, and the field [Type] is a Go string. *)
Definition TradeTypeSell : string := "sell".
Definition TradeTypeBuy : string := "buy".

(** Modelled from the spec: the struct [Trade] is declared outside the
    sources; the only field the investor reads is the settled [Price]. *)
Record Trade : Type := mkTrade { TradePrice : Z }.

(** Modelled from the spec: the struct [Order] is declared outside the
    sources; these are the fields the investor reads or writes.  The two
    pointer fields [ClosedAt] and [Trade] are options ([nil] is [None]). *)
Record Order : Type := mkOrder {
  ID : Z;
  Type_ : string;
  Amount : Z;
  Price : Z;
  ClosedAt : option Time;
  Trade_ : option Trade
}.

Definition set_ClosedAt (o : Order) (ct : option Time) : Order :=
  mkOrder (ID o) (Type_ o) (Amount o) (Price o) ct (Trade_ o).

(** Modelled from the spec: the method [Order.Removed] is declared outside
    the sources.  The spec's order lifecycle separates settled orders (a
    trade is present) from closed ones (cancelled by the investor or by the
    server); an order counts as removed when it is closed without a trade.
    The development is parametric in [Removed] (see the section below);
    this instance is used for the concrete scenarios. *)
Definition Removed_model (o : Order) : bool :=
  match ClosedAt o, Trade_ o with
  | Some _, None => true
  | _, _ => false
  end.

(** ** Errors *)

(** An error that comes back from the API client: its message and, for an
    [*ErrorWithStatus], the HTTP status code. *)
Record ClientError : Type := mkClientError {
  Error_ : string;
  StatusCode : option Z
}.

(** The two errors [UpdateOrders] builds itself with [errors.Errorf] (the
    second one formats the id of the order into its message), and the
    errors of the client passed on unchanged. *)
Inductive error : Type :=
| ErrOrdersNotReflected
| ErrSellOrderMissing (id : Z)
| ErrClient (e : ClientError).

(** The errors of the consistency class (spec, error taxonomy (b)). *)
Definition is_consistency_violation (e : error) : bool :=
  match e with
  | ErrOrdersNotReflected | ErrSellOrderMissing _ => true
  | ErrClient _ => false
  end.

(** [strings.Index]: the byte index of the first occurrence of [substr] in
    [s], or [-1]. *)
Fixpoint strings_Index_from (pos : Z) (s substr : string) : Z :=
  if String.prefix substr s then pos
  else match s with
       | EmptyString => -1
       | String _ s' => strings_Index_from (pos + 1) s' substr
       end.

Definition strings_Index (s substr : string) : Z := strings_Index_from 0 s substr.

(** What a body can end in: a value, a Go error, or a run-time panic. *)
Inductive outcome (A : Type) : Type :=
| Return (a : A)
| Failure (e : error)
| Panic.
Arguments Return {A} a.
Arguments Failure {A} e.
Arguments Panic {A}.

(** ** Tasks *)

(** The closures the investor hands to the task worker, defunctionalised.
    [RemoveOrderTask] carries the pointer the closure captured: the index
    of the order in [i.orders], or [None] for a nil pointer.  [SerialTask]
    is the composite built by [taskworker.NewSerialTask] and [Add]. *)
#[warnings="-register-all"]
Inductive Task : Type :=
| TopTask
| SignupTask
| SigninTask
| InfoTask
| UpdateOrdersTask
| AddOrderTask (ot : string) (amount price : Z)
| RemoveOrderTask (order : option nat)
| FixNextTaskT
| SerialTask (cap : nat) (tasks : list Task).

(** Modelled from the spec: the package [taskworker] is not among the
    sources.  A Serial Composite of capacity [cap] holds its tasks in the
    order added; [Add] appends. *)
Definition NewSerialTask (cap : nat) : Task := SerialTask cap [].

Definition SerialTask_Add (t : Task) (x : Task) : Task :=
  match t with
  | SerialTask cap ts => SerialTask cap (ts ++ [x])
  | _ => t
  end.

(** Modelled from the spec: what running one task yields, a score or a
    failure (or a panic of the body). *)
Inductive TaskResult : Type :=
| Scored (score : Z)
| Failed (e : error)
| Panicked.

(** Modelled from the spec: [taskworker.NewExecTask f score] is a task with
    a fixed score, earned when [f] returns no error. *)
Definition ExecTask_result (r : outcome unit) (score : Z) : TaskResult :=
  match r with
  | Return _ => Scored score
  | Failure e => Failed e
  | Panic => Panicked
  end.

(** Modelled from the spec: [taskworker.NewScoreTask f] is a task whose
    score is computed by [f]. *)
Definition ScoreTask_result (r : outcome Z) : TaskResult :=
  match r with
  | Return s => Scored s
  | Failure e => Failed e
  | Panic => Panicked
  end.

(** ** Investor state *)

Record investorBase : Type := mkInvestorBase {
  defcredit : Z;
  credit : Z;
  resvedCredit : Z;
  defisu : Z;
  isu : Z;
  resvedIsu : Z;
  orders : list Order;
  lowestSellPrice : Z;
  highestBuyPrice : Z;
  latestTradePrice : Z;
  isSignin : bool;
  isStarted : bool;
  lastCursor : Z;
  pollingTime : Time;
  lastOrder : Time;
  taskStack : list Task;
  timeoutCount : Z
}.

Definition newInvestorBase (credit isu : Z) : investorBase :=
  {| defcredit := credit; credit := credit; resvedCredit := 0;
     defisu := isu; isu := isu; resvedIsu := 0;
     orders := [];
     lowestSellPrice := 0; highestBuyPrice := 0; latestTradePrice := 0;
     isSignin := false; isStarted := false;
     lastCursor := 0; pollingTime := zeroTime; lastOrder := zeroTime;
     taskStack := []; timeoutCount := 0 |}.

Definition LatestTradePrice (i : investorBase) : Z := latestTradePrice i.

Definition set_taskStack (i : investorBase) (ts : list Task) : investorBase :=
  mkInvestorBase (defcredit i) (credit i) (resvedCredit i) (defisu i) (isu i)
    (resvedIsu i) (orders i) (lowestSellPrice i) (highestBuyPrice i)
    (latestTradePrice i) (isSignin i) (isStarted i) (lastCursor i)
    (pollingTime i) (lastOrder i) ts (timeoutCount i).

Definition set_orders (i : investorBase) (os : list Order) : investorBase :=
  mkInvestorBase (defcredit i) (credit i) (resvedCredit i) (defisu i) (isu i)
    (resvedIsu i) os (lowestSellPrice i) (highestBuyPrice i)
    (latestTradePrice i) (isSignin i) (isStarted i) (lastCursor i)
    (pollingTime i) (lastOrder i) (taskStack i) (timeoutCount i).

Definition pushNextTask (i : investorBase) (task : Task) : investorBase :=
  set_taskStack i (taskStack i ++ [task]).

Definition set_pollingTime (i : investorBase) (t : Time) : investorBase :=
  mkInvestorBase (defcredit i) (credit i) (resvedCredit i) (defisu i) (isu i)
    (resvedIsu i) (orders i) (lowestSellPrice i) (highestBuyPrice i)
    (latestTradePrice i) (isSignin i) (isStarted i) (lastCursor i)
    t (lastOrder i) (taskStack i) (timeoutCount i).

Definition set_market (i : investorBase) (lowest highest cursor : Z) : investorBase :=
  mkInvestorBase (defcredit i) (credit i) (resvedCredit i) (defisu i) (isu i)
    (resvedIsu i) (orders i) lowest highest
    (latestTradePrice i) (isSignin i) (isStarted i) cursor
    (pollingTime i) (lastOrder i) (taskStack i) (timeoutCount i).

Definition set_latestTradePrice (i : investorBase) (p : Z) : investorBase :=
  mkInvestorBase (defcredit i) (credit i) (resvedCredit i) (defisu i) (isu i)
    (resvedIsu i) (orders i) (lowestSellPrice i) (highestBuyPrice i)
    p (isSignin i) (isStarted i) (lastCursor i)
    (pollingTime i) (lastOrder i) (taskStack i) (timeoutCount i).

Definition set_lastOrder (i : investorBase) (t : Time) : investorBase :=
  mkInvestorBase (defcredit i) (credit i) (resvedCredit i) (defisu i) (isu i)
    (resvedIsu i) (orders i) (lowestSellPrice i) (highestBuyPrice i)
    (latestTradePrice i) (isSignin i) (isStarted i) (lastCursor i)
    (pollingTime i) t (taskStack i) (timeoutCount i).

Definition set_isStarted (i : investorBase) (b : bool) : investorBase :=
  mkInvestorBase (defcredit i) (credit i) (resvedCredit i) (defisu i) (isu i)
    (resvedIsu i) (orders i) (lowestSellPrice i) (highestBuyPrice i)
    (latestTradePrice i) (isSignin i) b (lastCursor i)
    (pollingTime i) (lastOrder i) (taskStack i) (timeoutCount i).

(** The four assignments that end a successful reconciliation. *)
Definition set_balances (i : investorBase) (rIsu rCredit cred is_ : Z) : investorBase :=
  mkInvestorBase (defcredit i) cred rCredit (defisu i) is_
    rIsu (orders i) (lowestSellPrice i) (highestBuyPrice i)
    (latestTradePrice i) (isSignin i) (isStarted i) (lastCursor i)
    (pollingTime i) (lastOrder i) (taskStack i) (timeoutCount i).

(** Modelled from the spec: the response of [Client.Info] is declared
    outside the sources; these are the fields [Info] reads.  A nil slice
    and an empty slice are both the empty list. *)
Record CandlestickData : Type := mkCandle { Close : Z }.

Record InfoResponse : Type := mkInfoResponse {
  LowestSellPrice : Z;
  HighestBuyPrice : Z;
  Cursor : Z;
  ChartByHour : list CandlestickData;
  TradedOrders : list Order
}.

(** Modelled from the spec: the scoring constants and the two intervals are
    declared outside the sources (the spec calls them external, tunable
    configuration). *)
Record Config : Type := mkConfig {
  GetTopScore : Z;
  SignupScore : Z;
  SigninScore : Z;
  GetInfoScore : Z;
  GetOrdersScore : Z;
  PostOrdersScore : Z;
  DeleteOrdersScore : Z;
  PollingInterval : Duration;
  OrderUpdateInterval : Duration
}.

(** The running totals of the reconciliation loop. *)
Record Tally : Type := mkTally {
  t_resvedCredit : Z;
  t_resvedIsu : Z;
  t_tradedIsu : Z;
  t_tradedCredit : Z
}.

Definition Tally0 : Tally := mkTally 0 0 0 0.

(** The [switch] at the end of the loop body of [UpdateOrders]. *)
Definition tally_order (order : Order) (a : Tally) : Tally :=
  match Trade_ order with
  | Some tr =>
      if String.eqb (Type_ order) TradeTypeSell then
        mkTally (t_resvedCredit a) (t_resvedIsu a)
          (sub64 (t_tradedIsu a) (Amount order))
          (add64 (t_tradedCredit a) (mul64 (Amount order) (TradePrice tr)))
      else if String.eqb (Type_ order) TradeTypeBuy then
        mkTally (t_resvedCredit a) (t_resvedIsu a)
          (add64 (t_tradedIsu a) (Amount order))
          (sub64 (t_tradedCredit a) (mul64 (Amount order) (TradePrice tr)))
      else a
  | None =>
      if String.eqb (Type_ order) TradeTypeSell then
        mkTally (t_resvedCredit a) (add64 (t_resvedIsu a) (Amount order))
          (t_tradedIsu a) (t_tradedCredit a)
      else if String.eqb (Type_ order) TradeTypeBuy then
        mkTally (add64 (t_resvedCredit a) (mul64 (Amount order) (Price order)))
          (t_resvedIsu a) (t_tradedIsu a) (t_tradedCredit a)
      else a
  end.

(** The inner loop of [UpdateOrders]: the first server order with the id
    of [o]. *)
Definition find_order (srv : list Order) (o : Order) : option Order :=
  List.find (fun ro => ID ro =? ID o) srv.

(** The check on the most recent local order that precedes the merge.
    [orders[len(orders)-1]] on an empty server list is Go's index out of
    range. *)
Definition check_last_order (local srv : list Order) : outcome unit :=
  match last local with
  | None => Return tt
  | Some lo =>
      if String.eqb (Type_ lo) TradeTypeSell then
        match last srv with
        | None => Panic
        | Some glo =>
            if negb (ID lo =? ID glo) then Failure ErrOrdersNotReflected
            else Return tt
        end
      else Return tt
  end.

Section Investor.

Variable cfg : Config.
Variable Removed : Order -> bool.

(** The merge loop of [UpdateOrders] over the local orders.  [clock k] is
    what the [k]-th call of [time.Now] inside the loop returns, [n] counts
    the calls made so far.  The orders are updated in place, so the list is
    returned also when the loop stops with an error: the orders before the
    failing one have been merged, the rest is untouched. *)
Fixpoint reconcile (srv : list Order) (clock : nat -> Time) (n : nat)
    (local : list Order) (a : Tally) : list Order * outcome Tally :=
  match local with
  | [] => ([], Return a)
  | o :: rest =>
      if Removed o then
        let '(rest', r) := reconcile srv clock n rest a in (o :: rest', r)
      else
        match find_order srv o with
        | None =>
            if String.eqb (Type_ o) TradeTypeSell then
              (o :: rest, Failure (ErrSellOrderMissing (ID o)))
            else
              let '(rest', r) := reconcile srv clock (S n) rest a in
              (set_ClosedAt o (Some (clock n)) :: rest', r)
        | Some order =>
            let '(rest', r) := reconcile srv clock n rest (tally_order order a) in
            (order :: rest', r)
        end
  end.

(** The body of the task returned by [investorBase.UpdateOrders].  [resp]
    is the answer of [Client.GetOrders]. *)
Definition UpdateOrders_body (resp : ClientError + list Order)
    (clock : nat -> Time) (i : investorBase) : outcome unit * investorBase :=
  match resp with
  | inl err => (Failure (ErrClient err), i)
  | inr srv =>
      match check_last_order (orders i) srv with
      | Failure e => (Failure e, i)
      | Panic => (Panic, i)
      | Return _ =>
          match reconcile srv clock 0 (orders i) Tally0 with
          | (os, Failure e) => (Failure e, set_orders i os)
          | (os, Panic) => (Panic, set_orders i os)
          | (os, Return a) =>
              (Return tt,
               set_balances (set_orders i os)
                 (t_resvedIsu a) (t_resvedCredit a)
                 (add64 (defcredit i) (t_tradedCredit a))
                 (add64 (defisu i) (t_tradedIsu a)))
          end
      end
  end.

Definition UpdateOrders_task (resp : ClientError + list Order)
    (clock : nat -> Time) (i : investorBase) : TaskResult * investorBase :=
  let '(r, i') := UpdateOrders_body resp clock i in
  (ExecTask_result r (GetOrdersScore cfg), i').

(** The message [AddOrder] recognises as the insufficient-balance business
    error. *)
Definition insufficient_balance_msg : string := "銀行残高が足りません".

(** The body of the task returned by [investorBase.AddOrder].  [resp] is the
    answer of [Client.AddOrder], [now] what [time.Now] returns. *)
Definition AddOrder_body (resp : ClientError + Order) (now : Time)
    (i : investorBase) : outcome unit * investorBase :=
  match resp with
  | inl err =>
      if -1 <? strings_Index (Error_ err) insufficient_balance_msg
      then (Return tt, i)
      else (Failure (ErrClient err), i)
  | inr order =>
      (Return tt, set_lastOrder (set_orders i (orders i ++ [order])) now)
  end.

Definition AddOrder_task (resp : ClientError + Order) (now : Time)
    (i : investorBase) : TaskResult * investorBase :=
  let '(r, i') := AddOrder_body resp now i in
  (ExecTask_result r (PostOrdersScore cfg), i').

(** The loop of [RemoveOrder] that closes the first local order with the
    given id; the flag tells whether one was found. *)
Fixpoint close_by_id (id : Z) (ct : Time) (os : list Order) : list Order * bool :=
  match os with
  | [] => ([], false)
  | o :: rest =>
      if ID o =? id then (set_ClosedAt o (Some ct) :: rest, true)
      else let '(rest', found) := close_by_id id ct rest in (o :: rest', found)
  end.

(** The body of the task returned by [investorBase.RemoveOrder].  [order]
    is the captured pointer, [resp] the answer of [Client.DeleteOrders]
    ([None] is a nil error).  Calling [Removed] through a nil pointer
    panics; an index outside [i.orders] cannot arise, since the slice only
    grows, and is given the same outcome. *)
Definition RemoveOrder_body (order : option nat) (resp : option ClientError)
    (now : Time) (i : investorBase) : outcome Z * investorBase :=
  match order with
  | None => (Panic, i)
  | Some k =>
      match orders i !! k with
      | None => (Panic, i)
      | Some o =>
          if Removed o then (Return 0, i)
          else
            match resp with
            | Some err =>
                match StatusCode err with
                | Some code =>
                    if code =? 404 then (Return 0, i)
                    else (Failure (ErrClient err), i)
                | None => (Failure (ErrClient err), i)
                end
            | None =>
                (Return (DeleteOrdersScore cfg),
                 set_orders i (fst (close_by_id (ID o) now (orders i))))
            end
      end
  end.

(** The body of the task returned by [investorBase.Info].  [now] and [now2]
    are the two readings of [time.Now], [resp] the answer of [Client.Info]. *)
Definition Info_body (retired : bool) (now : Time)
    (resp : ClientError + InfoResponse) (now2 : Time)
    (i : investorBase) : outcome Z * investorBase :=
  if retired then (Return 0, i)
  else if Time_Before now (pollingTime i) then (Return 0, i)
  else
    match resp with
    | inl err => (Failure (ErrClient err), i)
    | inr info =>
        let i1 := set_pollingTime i (Time_Add now2 (PollingInterval cfg)) in
        let i2 := set_market i1 (LowestSellPrice info) (HighestBuyPrice info)
                    (Cursor info) in
        let i3 := match last (ChartByHour info) with
                  | Some c => set_latestTradePrice i2 (Close c)
                  | None => i2
                  end in
        let i4 := if (0 <? length (TradedOrders info))%nat
                  then pushNextTask i3 UpdateOrdersTask else i3 in
        (Return (GetInfoScore cfg), i4)
    end.

Definition Info_task (retired : bool) (now : Time)
    (resp : ClientError + InfoResponse) (now2 : Time)
    (i : investorBase) : TaskResult * investorBase :=
  let '(r, i') := Info_body retired now resp now2 i in
  (ScoreTask_result r, i').

(** [investorBase.Start] and [investorBase.Next]. *)
Definition investorBase_Start (i : investorBase) : Task * investorBase :=
  let task := NewSerialTask 6 in
  let task := SerialTask_Add task TopTask in
  let task := SerialTask_Add task InfoTask in
  let task := SerialTask_Add task SignupTask in
  let task := SerialTask_Add task SigninTask in
  let task := SerialTask_Add task UpdateOrdersTask in
  (task, set_isStarted i true).

Definition investorBase_Next (retired : bool) (i : investorBase)
    : option Task * investorBase :=
  if retired then (None, i)
  else
    let task := NewSerialTask (2 + length (taskStack i)) in
    let task := SerialTask_Add task InfoTask in
    let task := fold_left SerialTask_Add (taskStack i) task in
    (Some task, set_taskStack i []).

End Investor.

(** ** The random investor *)

Record RandomInvestor : Type := mkRandomInvestor {
  base : investorBase;
  unitamount : Z;
  unitprice : Z
}.

Definition NewRandomInvestor (credit isu unitamount unitprice : Z) : RandomInvestor :=
  mkRandomInvestor (newInvestorBase credit isu) unitamount unitprice.

Definition set_base (i : RandomInvestor) (b : investorBase) : RandomInvestor :=
  mkRandomInvestor b (unitamount i) (unitprice i).

Definition set_unitprice (i : RandomInvestor) (p : Z) : RandomInvestor :=
  mkRandomInvestor (base i) (unitamount i) p.

(** [rand.Int63n n] on the raw draw [r]: a panic when [n <= 0], otherwise a
    value from [0] up to [n - 1]. *)
Definition rand_Int63n (r : Z) (n : Z) : option Z :=
  if n <=? 0 then None else Some (r mod n).

(** The balances the policy works with. *)
Definition logicalCredit (i : investorBase) : Z := sub64 (credit i) (resvedCredit i).
Definition logicalIsu (i : investorBase) : Z := sub64 (isu i) (resvedIsu i).

(** The margin [mdiff] of an order against the best opposing price. *)
Definition mdiff (i : investorBase) (order : Order) : Z :=
  if String.eqb (Type_ order) TradeTypeSell
  then sub64 (Price order) (highestBuyPrice i)
  else sub64 (lowestSellPrice i) (Price order).

(** The loop of the first rung of the ladder.  [k] is the index of the
    head of [os] in [i.orders]; [o] and [df] are the loop's variables, [o]
    being [None] while the pointer is nil. *)
Fixpoint pick_release (i : investorBase) (k : nat) (os : list Order)
    (o : option nat) (df : Z) : option nat * Z :=
  match os with
  | [] => (o, df)
  | order :: rest =>
      let m := mdiff i order in
      if match o with None => true | Some _ => false end || (df <? m)
      then pick_release i (S k) rest (Some k) m
      else pick_release i (S k) rest o df
  end.

(** The amount drawn by the randomised rungs: [rand.Int63n(n) + 1], capped
    at [unitamount] where the source caps it. *)
Definition cap_amount (unit amount : Z) : Z :=
  if unit <? amount then unit else amount.

Section Policy.

Variable cfg : Config.

(** [RandomInvestor.UpdateOrderTask].  The result is the task the policy
    proposes ([None] is Go's nil) and the investor, whose reference price
    the last rung may have changed. *)
Definition UpdateOrderTask (retired : bool) (now : Time) (r : Z)
    (i : RandomInvestor) : outcome (option Task) * RandomInvestor :=
  let b := base i in
  if retired then (Return None, i)
  else
    let update := (length (orders b) =? 0)%nat
                  || Time_After (Time_Add (lastOrder b) (OrderUpdateInterval cfg)) now in
    if negb update then (Return None, i)
    else
      let lCredit := logicalCredit b in
      let lIsu := logicalIsu b in
      if (OrderCap <=? length (orders b))%nat then
        let '(o, _) := pick_release b 0 (orders b) None 0 in
        (Return (Some (RemoveOrderTask o)), i)
      else if (length (orders b) =? 0)%nat && (unitamount i <? lIsu) then
        (Return (Some (AddOrderTask TradeTypeSell (unitamount i) (unitprice i))), i)
      else if (length (orders b) =? 0)%nat then
        (Return (Some (AddOrderTask TradeTypeBuy (unitamount i) (unitprice i))), i)
      else if (0 <? lowestSellPrice b) && (lowestSellPrice b <? unitprice i)
              && (lowestSellPrice b <=? lCredit) then
        match rand_Int63n r (div64 lCredit (lowestSellPrice b)) with
        | None => (Panic, i)
        | Some x =>
            let amount := cap_amount (unitamount i) (add64 x 1) in
            (Return (Some (AddOrderTask TradeTypeBuy amount (lowestSellPrice b))), i)
        end
      else if (0 <? highestBuyPrice b) && (unitprice i <? highestBuyPrice b)
              && (0 <? lIsu) then
        match rand_Int63n r lIsu with
        | None => (Panic, i)
        | Some x =>
            let amount := cap_amount (unitamount i) (add64 x 1) in
            (Return (Some (AddOrderTask TradeTypeSell amount (highestBuyPrice b))), i)
        end
      else if unitamount i <? lIsu then
        let price := if lowestSellPrice b =? 0 then unitprice i
                     else div64 (add64 (lowestSellPrice b) (unitprice i)) 2 in
        match rand_Int63n r (unitamount i) with
        | None => (Panic, i)
        | Some x =>
            (Return (Some (AddOrderTask TradeTypeSell (add64 x 1) price)), i)
        end
      else if div64 (add64 (highestBuyPrice b) (unitprice i)) 2 <? lCredit then
        let price := if highestBuyPrice b =? 0 then unitprice i
                     else div64 (add64 (highestBuyPrice b) (unitprice i)) 2 in
        match rand_Int63n r (unitamount i) with
        | None => (Panic, i)
        | Some x =>
            (Return (Some (AddOrderTask TradeTypeBuy (add64 x 1) price)), i)
        end
      else
        let latestPrice := LatestTradePrice b in
        if 0 <? latestPrice
        then (Return None, set_unitprice i (div64 (add64 latestPrice (unitprice i)) 2))
        else (Return None, i).

(** The body of the task returned by [RandomInvestor.FixNextTask]. *)
Definition FixNextTask_body (retired : bool) (now : Time) (r : Z)
    (i : RandomInvestor) : outcome unit * RandomInvestor :=
  match UpdateOrderTask retired now r i with
  | (Return (Some task), i') =>
      (Return tt,
       set_base i' (pushNextTask (pushNextTask (base i') task) UpdateOrdersTask))
  | (Return None, i') => (Return tt, i')
  | (Failure e, i') => (Failure e, i')
  | (Panic, i') => (Panic, i')
  end.

(** [RandomInvestor.Start] and [RandomInvestor.Next].  The type assertion
    to a pointer to [taskworker.SerialTask] succeeds exactly on a composite.  The
    retired flag is read twice by [Next], outside and inside
    [investorBase.Next]; the two readings are separate arguments. *)
Definition RandomInvestor_Start (i : RandomInvestor) : Task * RandomInvestor :=
  let '(task, b) := investorBase_Start (base i) in
  match task with
  | SerialTask _ _ => (SerialTask_Add task FixNextTaskT, set_base i b)
  | _ => (task, set_base i b)
  end.

Definition RandomInvestor_Next (retired retired' : bool) (i : RandomInvestor)
    : option Task * RandomInvestor :=
  if retired then (None, i)
  else
    let '(task, b) := investorBase_Next retired' (base i) in
    match task with
    | Some (SerialTask cap ts) =>
        (Some (SerialTask_Add (SerialTask cap ts) FixNextTaskT), set_base i b)
    | _ => (task, set_base i b)
    end.

End Policy.

(** ** The remaining tasks of [Start] *)

Definition set_isSignin (i : investorBase) (b : bool) : investorBase :=
  mkInvestorBase (defcredit i) (credit i) (resvedCredit i) (defisu i) (isu i)
    (resvedIsu i) (orders i) (lowestSellPrice i) (highestBuyPrice i)
    (latestTradePrice i) b (isStarted i) (lastCursor i)
    (pollingTime i) (lastOrder i) (taskStack i) (timeoutCount i).

Definition Top_body (resp : option ClientError) : outcome unit :=
  match resp with
  | Some err => Failure (ErrClient err)
  | None => Return tt
  end.

Definition Signup_body (cfg : Config) (resp : option ClientError)
    (i : investorBase) : outcome Z :=
  if isSignin i then Return 0
  else
    match resp with
    | Some err =>
        if -1 <? strings_Index (Error_ err) "bank_id already exists"
        then Return (SignupScore cfg)
        else Failure (ErrClient err)
    | None => Return (SignupScore cfg)
    end.

Definition Signin_body (resp : option ClientError) (i : investorBase)
    : outcome unit * investorBase :=
  match resp with
  | Some err => (Failure (ErrClient err), i)
  | None => (Return tt, set_isSignin i true)
  end.

(** ** Running tasks *)

(** What one task reads from the outside world while it runs: the retired
    flag of the client, the clock, the random source and the answer of the
    API call it makes. *)
Record Env : Type := mkEnv {
  e_retired : bool;
  e_retired' : bool;
  e_now : Time;
  e_now' : Time;
  e_clock : nat -> Time;
  e_rand : Z;
  e_top : option ClientError;
  e_signup : option ClientError;
  e_signin : option ClientError;
  e_info : ClientError + InfoResponse;
  e_orders : ClientError + list Order;
  e_add : ClientError + Order;
  e_delete : option ClientError
}.

(** Modelled from the spec: running the tasks of a Serial Composite, in the
    order added, from the environment number [n] on; the run stops at the
    first task that does not succeed and returns its failure.  The score
    of a run that succeeds is the sum of the tasks' scores (the spec leaves
    the score of a failed composite open). *)
Section RunAll.

Variable run_one : Task -> nat -> RandomInvestor -> TaskResult * RandomInvestor * nat.

Fixpoint run_all (ts : list Task) (n : nat) (i : RandomInvestor) (score : Z)
    : TaskResult * RandomInvestor * nat :=
  match ts with
  | [] => (Scored score, i, n)
  | x :: rest =>
      match run_one x n i with
      | (Scored s, i', n') => run_all rest n' i' (score + s)
      | other => other
      end
  end.

End RunAll.

Section Run.

Variable cfg : Config.
Variable Removed : Order -> bool.

(** Running a task.  A leaf task runs its body in the environment [envs n]
    and uses up that environment; a Serial Composite runs its tasks with
    [run_all]. *)
Fixpoint run_task (t : Task) (envs : nat -> Env) (n : nat) (i : RandomInvestor)
    : TaskResult * RandomInvestor * nat :=
  let e := envs n in
  match t with
  | TopTask => (ExecTask_result (Top_body (e_top e)) (GetTopScore cfg), i, S n)
  | SignupTask => (ScoreTask_result (Signup_body cfg (e_signup e) (base i)), i, S n)
  | SigninTask =>
      let '(r, b) := Signin_body (e_signin e) (base i) in
      (ExecTask_result r (SigninScore cfg), set_base i b, S n)
  | InfoTask =>
      let '(r, b) := Info_task cfg (e_retired e) (e_now e) (e_info e) (e_now' e) (base i) in
      (r, set_base i b, S n)
  | UpdateOrdersTask =>
      let '(r, b) := UpdateOrders_task cfg Removed (e_orders e) (e_clock e) (base i) in
      (r, set_base i b, S n)
  | AddOrderTask _ _ _ =>
      let '(r, b) := AddOrder_task cfg (e_add e) (e_now e) (base i) in
      (r, set_base i b, S n)
  | RemoveOrderTask o =>
      let '(r, b) := RemoveOrder_body cfg Removed o (e_delete e) (e_now e) (base i) in
      (ScoreTask_result r, set_base i b, S n)
  | FixNextTaskT =>
      let '(r, i') := FixNextTask_body cfg (e_retired e) (e_now e) (e_rand e) i in
      (ExecTask_result r 0, i', S n)
  | SerialTask _ ts => run_all (fun x => run_task x envs) ts n i 0
  end.

(** The scheduler's loop for one investor: [m] ticks, each one a call of
    [Next] followed by the run of the composite it returned.  The result
    lists the composites issued. *)
Fixpoint run_ticks (m : nat) (envs : nat -> Env) (n : nat) (i : RandomInvestor)
    : list Task * RandomInvestor * nat :=
  match m with
  | O => ([], i, n)
  | S m' =>
      let e := envs n in
      match RandomInvestor_Next (e_retired e) (e_retired' e) i with
      | (None, i1) => run_ticks m' envs (S n) i1
      | (Some t, i1) =>
          let '(_, i2, n2) := run_task t envs (S n) i1 in
          let '(ts, i3, n3) := run_ticks m' envs n2 i2 in
          (t :: ts, i3, n3)
      end
  end.

End Run.

(** Whether a task is, or contains, an order placement. *)
Fixpoint places_order (t : Task) : bool :=
  match t with
  | AddOrderTask _ _ _ => true
  | SerialTask _ ts => existsb places_order ts
  | _ => false
  end.

(** ** The accounting the spec describes *)

Definition is_sell (o : Order) : bool := String.eqb (Type_ o) TradeTypeSell.
Definition is_buy (o : Order) : bool := String.eqb (Type_ o) TradeTypeBuy.
Definition settled (o : Order) : bool :=
  match Trade_ o with Some _ => true | None => false end.

(** An order is open while it has neither a close time nor a trade. *)
Definition is_open (o : Order) : bool :=
  match ClosedAt o, Trade_ o with
  | None, None => true
  | _, _ => false
  end.

Definition open_count (os : list Order) : nat := length (List.filter is_open os).

Definition sumZ (l : list Z) : Z := foldr Z.add 0 l.

(** The orders a reconciliation accounts for: the local orders that are
    open (not removed) when it starts and that the server still lists, each
    as the server reports it. *)
Definition reported (Removed : Order -> bool) (srv local : list Order) : list Order :=
  omap (fun o => if Removed o then None else find_order srv o) local.

(** Sum of the notional (amount × price) of the unsettled buy orders. *)
Definition reserved_credit (os : list Order) : Z :=
  sumZ (map (fun o => Amount o * Price o)
          (List.filter (fun o => negb (settled o) && is_buy o) os)).

(** Sum of the amounts of the unsettled sell orders. *)
Definition reserved_isu (os : list Order) : Z :=
  sumZ (map Amount (List.filter (fun o => negb (settled o) && is_sell o) os)).

(** What one order adds to the two reserved totals. *)
Definition reserved_credit_of (o : Order) : Z :=
  if negb (settled o) && is_buy o then Amount o * Price o else 0.

Definition reserved_isu_of (o : Order) : Z :=
  if negb (settled o) && is_sell o then Amount o else 0.

(** The effect of one order on the cash balance: a settled sell brings in
    amount × trade price, a settled buy costs it, anything else nothing. *)
Definition credit_effect (o : Order) : Z :=
  match Trade_ o with
  | Some tr =>
      if is_sell o then Amount o * TradePrice tr
      else if is_buy o then - (Amount o * TradePrice tr)
      else 0
  | None => 0
  end.

(** The effect of one order on the inventory: a settled sell takes its
    amount out, a settled buy brings it in. *)
Definition isu_effect (o : Order) : Z :=
  match Trade_ o with
  | Some _ =>
      if is_sell o then - Amount o
      else if is_buy o then Amount o
      else 0
  | None => 0
  end.

Definition settled_credit (os : list Order) : Z := sumZ (map credit_effect os).
Definition settled_isu (os : list Order) : Z := sumZ (map isu_effect os).

(** The reserved totals read off a list of orders: the notional of the
    open buy orders and the amounts of the open sell orders. *)
Definition open_buy_notional (os : list Order) : Z :=
  sumZ (map (fun o => Amount o * Price o)
          (List.filter (fun o => is_open o && is_buy o) os)).

Definition open_sell_amount (os : list Order) : Z :=
  sumZ (map Amount (List.filter (fun o => is_open o && is_sell o) os)).

(** ** Predicates of the statements *)

(** The running totals all fit in an [int64]. *)
Definition Tally_in_range (a : Tally) : Prop :=
  in_int64 (t_resvedCredit a) /\ in_int64 (t_resvedIsu a)
  /\ in_int64 (t_tradedIsu a) /\ in_int64 (t_tradedCredit a).

(** The same investor with another starting endowment. *)
Definition with_endowment (i : investorBase) (c s : Z) : investorBase :=
  mkInvestorBase c (credit i) (resvedCredit i) s (isu i)
    (resvedIsu i) (orders i) (lowestSellPrice i) (highestBuyPrice i)
    (latestTradePrice i) (isSignin i) (isStarted i) (lastCursor i)
    (pollingTime i) (lastOrder i) (taskStack i) (timeoutCount i).

(** What the release loop has established after the orders [pre]: nothing
    while the pointer is nil, otherwise the pointer is the first order of
    [pre] whose margin is maximal, and [df] is that margin. *)
Definition release_inv (b : investorBase) (pre : list Order)
    (o : option nat) (df : Z) : Prop :=
  match o with
  | None => pre = []
  | Some k =>
      exists ok, pre !! k = Some ok /\ df = mdiff b ok
        /\ (forall j oj, pre !! j = Some oj -> mdiff b oj <= df)
        /\ (forall j oj, (j < k)%nat -> pre !! j = Some oj -> mdiff b oj < df)
  end.

(** A local order that is open and has no server order with its id. *)
Definition vanished (Removed : Order -> bool) (srv : list Order) (o : Order) : Prop :=
  Removed o = false /\ find_order srv o = None.

(** What a task other than a placement leaves alone: the number of
    recorded orders and the time of the last placement. *)
Definition same_placements (b b' : investorBase) : Prop :=
  length (orders b') = length (orders b) /\ lastOrder b' = lastOrder b.

(** An investor that has recorded [len] orders, at least one, the last of
    them placed at time [t], which is [OrderUpdateInterval] or more before
    [now0], and that has no placement waiting in its queue. *)
Definition idle (cfg : Config) (now0 : Time) (len : nat) (t : Time)
    (i : RandomInvestor) : Prop :=
  length (orders (base i)) = len
  /\ (0 < len)%nat
  /\ lastOrder (base i) = t
  /\ t + OrderUpdateInterval cfg <= now0
  /\ Forall (fun x => places_order x = false) (taskStack (base i)).

(** The clock never reads less than [now0]. *)
Definition not_before (now0 : Time) (envs : nat -> Env) : Prop :=
  forall k, now0 <= e_now (envs k).

(** ** Sample data for the concrete scenarios *)

Definition sample_cfg : Config :=
  {| GetTopScore := 1; SignupScore := 3; SigninScore := 3; GetInfoScore := 1;
     GetOrdersScore := 1; PostOrdersScore := 5; DeleteOrdersScore := 5;
     PollingInterval := 500; OrderUpdateInterval := 2000 |}.

Definition open_order (id : Z) (ot : string) (amount price : Z) : Order :=
  mkOrder id ot amount price None None.

Definition settled_order (id : Z) (ot : string) (amount price tprice : Z)
    (at_ : Time) : Order :=
  mkOrder id ot amount price (Some at_) (Some (mkTrade tprice)).

(** Successful placements, one after the other: the server's answers
    [os] arrive at the times [t], [t + 1], ... *)
Fixpoint place_all (os : list Order) (t : Time) (i : investorBase) : investorBase :=
  match os with
  | [] => i
  | o :: rest => place_all rest (t + 1) (snd (AddOrder_body (inr o) t i))
  end.

(** The server's answer to a placement it refuses for lack of funds. *)
Definition insufficient_balance_error : ClientError :=
  mkClientError "銀行残高が足りません" (Some 400).

(** An investor whose only order is a sell it has just placed. *)
Definition investor_after_sell : investorBase :=
  snd (AddOrder_body (inr (open_order 1 TradeTypeSell 5 100)) 1000
         (newInvestorBase 10000 10)).

(** The investor of the spec's scenario: credit 10000, no inventory, unit
    amount 5, reference price 100, after its first order, the buy of 5 at
    100 that the policy proposes, has been accepted with id 1. *)
Definition investor_after_first_buy : investorBase :=
  snd (AddOrder_body (inr (open_order 1 TradeTypeBuy 5 100)) 1000
         (base (NewRandomInvestor 10000 0 5 100))).

Definition investor_one_order : RandomInvestor :=
  set_base (NewRandomInvestor 10000 0 5 100) investor_after_first_buy.

(** An investor with five resting buy orders, the last one placed at time
    [1004]. *)
Definition investor_with_five_orders : RandomInvestor :=
  set_base (NewRandomInvestor 10000 0 5 100)
    (place_all [open_order 1 TradeTypeBuy 1 100; open_order 2 TradeTypeBuy 1 99;
                open_order 3 TradeTypeBuy 1 98; open_order 4 TradeTypeBuy 1 97;
                open_order 5 TradeTypeBuy 1 96] 1000
       (newInvestorBase 10000 0)).

(** An investor with six recorded orders: the first, a buy far below the
    market, has been cancelled by the investor at time 1500; the other
    five are resting. *)
Definition investor_with_cancelled_order : RandomInvestor :=
  let b := place_all [open_order 1 TradeTypeBuy 1 10;
                      open_order 2 TradeTypeBuy 1 99; open_order 3 TradeTypeBuy 1 98;
                      open_order 4 TradeTypeBuy 1 97; open_order 5 TradeTypeBuy 1 96;
                      open_order 6 TradeTypeBuy 1 95] 1000
             (newInvestorBase 10000 0) in
  set_base (NewRandomInvestor 10000 0 5 100)
    (snd (RemoveOrder_body sample_cfg Removed_model (Some 0%nat) None 1500 b)).

(** An investor that started with 20 units, sold 5 of them at 100 (the
    order is settled, so none of its orders is open) and has then seen a
    best ask of 50. *)
Definition investor_after_settled_sell : RandomInvestor :=
  let i0 := NewRandomInvestor 1000 20 5 100 in
  let b1 := snd (AddOrder_body (inr (open_order 1 TradeTypeSell 5 100)) 1000 (base i0)) in
  let b2 := snd (UpdateOrders_body Removed_model
                   (inr [settled_order 1 TradeTypeSell 5 100 100 1500])
                   (fun _ => 1600) b1) in
  let b3 := snd (Info_body sample_cfg false 1700
                   (inr (mkInfoResponse 50 0 3 [] [])) 1701 b2) in
  set_base i0 b3.

(** The three resting buy orders of 5 units at 100 that an investor with a
    credit of 1150 has placed; the server checks each placement against the
    bank balance alone, so it accepts all three. *)
Definition three_buys : list Order :=
  [open_order 1 TradeTypeBuy 5 100; open_order 2 TradeTypeBuy 5 100;
   open_order 3 TradeTypeBuy 5 100].

Definition investor_overcommitted : investorBase :=
  place_all three_buys 1000 (newInvestorBase 1150 0).

(** An investor with a resting sell (id 1) and a resting buy (id 2), and a
    server list on which the sell has settled at 110. *)
Definition investor_sell_and_buy : investorBase :=
  place_all [open_order 1 TradeTypeSell 5 100; open_order 2 TradeTypeBuy 3 90]
    1000 (newInvestorBase 10000 20).

Definition server_sell_settled : list Order :=
  [settled_order 1 TradeTypeSell 5 100 110 1500; open_order 2 TradeTypeBuy 3 90].

(** A world in which the clock stands at 5000 and every call succeeds: the
    server lists the resting order and reports a best ask of 90. *)
Definition calm_env : Env :=
  {| e_retired := false; e_retired' := false;
     e_now := 5000; e_now' := 5000; e_clock := fun _ => 5000;
     e_rand := 0;
     e_top := None; e_signup := None; e_signin := None;
     e_info := inr (mkInfoResponse 90 0 1 [mkCandle 95] []);
     e_orders := inr [open_order 1 TradeTypeBuy 5 100];
     e_add := inr (open_order 2 TradeTypeBuy 5 90);
     e_delete := None |}.


(** ** Further sample data and predicates *)

(** An investor with little credit whose first buy is resting and that has
    seen a last trade price of 95 but no best ask and no best bid. *)
Definition investor_repricing : RandomInvestor :=
  let i0 := NewRandomInvestor 40 0 5 100 in
  let b1 := snd (AddOrder_body (inr (open_order 1 TradeTypeBuy 5 100)) 1000 (base i0)) in
  let b2 := snd (Info_body sample_cfg false 1100
                   (inr (mkInfoResponse 0 0 3 [mkCandle 95] [])) 1101 b1) in
  set_base i0 b2.

(** Several calls of [pushNextTask] in a row. *)
Definition push_all (ts : list Task) (i : investorBase) : investorBase :=
  fold_left pushNextTask ts i.

(** The ids of the recorded orders, in the order of the list. *)
Definition order_ids (i : investorBase) : list Z := map ID (orders i).


(** A task whose captured order pointers, if any, point into a list of [n]
    orders. *)
Fixpoint task_ptr_ok (n : nat) (t : Task) : bool :=
  match t with
  | RemoveOrderTask (Some k) => (k <? n)%nat
  | RemoveOrderTask None => false
  | SerialTask _ ts => forallb (task_ptr_ok n) ts
  | _ => true
  end.

(** Every pointer held by a queued task points into the investor's list. *)
Definition ptrs_ok (i : RandomInvestor) : Prop :=
  Forall (fun t => task_ptr_ok (length (orders (base i))) t = true)
    (taskStack (base i)).


(** * The order handlers of the exchange (webapp controller/handler.go)

    The handlers [AddOrders] and [DeleteOrders] with the helpers they use.
    What a handler obtains from the session, the form, the database, the
    bank and the logger is an argument (a record of answers); what it does
    to the outside is the list of [event]s it returns, in the order of the
    calls, next to the HTTP response it writes. *)

Module Handler.

(** The errors that come from outside the package: [sql.ErrNoRows],
    [isubank.ErrCreditInsufficient], the [*strconv.NumError] of a failed
    [strconv.ParseInt] (with its input), and any other error of the
    database, the bank or the logger. *)
Inductive ext_error : Type :=
| ErrNoRows
| ErrCreditInsufficient
| ErrNum (num : string)
| ErrOther (msg : string).

(** An argument of a format string or a field of a log entry: an integer,
    a string, or the text of an error. *)
Inductive arg : Type :=
| AInt (z : Z)
| AStr (s : string)
| AErr (e : ext_error).

(** The error values the handlers build: an outside error passed on,
    [errors.New] and [errors.Errorf] (format string and arguments),
    [errors.Wrap] and [errors.Wrapf] around a cause, and the package's own
    [errWithCode]. *)
Inductive herror : Type :=
| ErrExt (e : ext_error)
| ErrNew (fmt : string) (args : list arg)
| ErrWrap (cause : herror) (fmt : string) (args : list arg)
| ErrWithCode (StatusCode : Z) (Err : herror).

(** [err == sql.ErrNoRows] and [err == isubank.ErrCreditInsufficient]: the
    comparison of an error value with a sentinel. *)
Definition is_ErrNoRows (e : herror) : bool :=
  match e with ErrExt ErrNoRows => true | _ => false end.

Definition is_ErrCreditInsufficient (e : herror) : bool :=
  match e with ErrExt ErrCreditInsufficient => true | _ => false end.

Definition errcodeWrap (err : option herror) (code : Z) : option herror :=
  match err with
  | None => None
  | Some e => Some (ErrWithCode code e)
  end.

Definition errcode (err : string) (code : Z) : option herror :=
  errcodeWrap (Some (ErrNew err [])) code.

(** What a handler writes: the status code and either the error the JSON
    body reports or the data of a success. *)
Inductive body : Type :=
| BodyErr (code : Z) (err : herror)
| BodyId (id : Z).

Record Response : Type := mkResponse { status : Z; rbody : body }.

Definition handleSuccess (data : body) : Response := mkResponse 200 data.

Definition handleError (err : herror) (code : Z) : Response :=
  match err with
  | ErrWithCode c e => mkResponse c (BodyErr c e)
  | _ => mkResponse code (BodyErr code err)
  end.

(** [strconv.ParseInt(s, 10, 64)]: an optional sign followed by at least
    one decimal digit, the value within the range of an [int64]. *)
Definition digit_of (c : Ascii.ascii) : option Z :=
  let n := Z.of_nat (Ascii.nat_of_ascii c) in
  if (48 <=? n) && (n <=? 57) then Some (n - 48) else None.

Fixpoint parse_digits (s : string) (acc : Z) : option Z :=
  match s with
  | EmptyString => Some acc
  | String c s' =>
      match digit_of c with
      | Some d => parse_digits s' (10 * acc + d)
      | None => None
      end
  end.

Definition strconv_ParseInt (s : string) : option Z :=
  match s with
  | EmptyString => None
  | String c rest =>
      let '(neg, digits) :=
        if Ascii.eqb c "+"%char then (false, rest)
        else if Ascii.eqb c "-"%char then (true, rest)
        else (false, s) in
      match digits with
      | EmptyString => None
      | _ =>
          match parse_digits digits 0 with
          | None => None
          | Some un =>
              let v := if neg : bool then - un else un in
              if (- 2 ^ 63 <=? v) && (v <? 2 ^ 63) then Some v else None
          end
      end
  end.

(** [formvalInt64]; [v] is [r.FormValue(key)]. *)
Definition formvalInt64 (v : string) (key : string) : herror + Z :=
  if String.eqb v "" then inl (ErrNew "%s is required" [AStr key])
  else
    match strconv_ParseInt v with
    | None => inl (ErrNew "%s can't parse to int64" [AStr key])
    | Some i => inr i
    end.

(** The calls that change or report something outside the handler. *)
Inductive event : Type :=
| EvLog (tag : string) (fields : list (string * arg))
| EvInsertOrder (ot : string) (user_id amount price : Z)
| EvCloseOrder (order_id : Z)
| EvCommit
| EvRollback
| EvRunTrade.

(** What the function run inside a transaction ends in. *)
Inductive tx_outcome : Type :=
| TxReturn (err : option herror)
| TxPanic.

(** [txScorp].  [begin] is the error of [db.Begin], [f] the run of the
    function on the transaction, [commit] the error of [tx.Commit]. *)
Definition txScorp (begin : option ext_error)
    (f : list event * tx_outcome) (commit : option ext_error)
    : list event * option herror :=
  match begin with
  | Some e => ([], Some (ErrWrap (ErrExt e) "begin transaction failed" []))
  | None =>
      match f with
      | (evs, TxPanic) =>
          (evs ++ [EvRollback], Some (ErrNew "panic in transaction: %s" []))
      | (evs, TxReturn (Some err)) => (evs ++ [EvRollback], Some err)
      | (evs, TxReturn None) => (evs ++ [EvCommit], ErrExt <$> commit)
      end
  end.

Record User : Type := mkUser { UserID : Z; BankID : string }.

(** [userByRequest]: [session] is the [user_id] of the request context,
    [lookup] the answer of [model.GetUserByID]. *)
Definition userByRequest (session : option Z) (lookup : ext_error + User)
    : herror + User :=
  match session with
  | Some _ =>
      match lookup with
      | inl e => inl (ErrExt e)
      | inr u => inr u
      end
  | None => inl (ErrNew "Not authenticated" [])
  end.

(** Modelled from the spec: [model.OrderTypeBuy] and [model.OrderTypeSell]
    are declared outside the sources; the two sides of an order are buy and
    sell (see also the handler's message "type must be sell or buy"). *)
Definition OrderTypeBuy : string := "buy".
Definition OrderTypeSell : string := "sell".

(** What [AddOrders] is given: the session and the user record, the three
    form values, and the answers of the database, the bank ([check] is the
    answer of [bank.Check] for a total) and the trade engine. *)
Record AddOrdersWorld : Type := mkAddOrdersWorld {
  a_session : option Z;
  a_lookup : ext_error + User;
  a_begin : option ext_error;
  a_lock : option ext_error;
  a_logger : option ext_error;
  a_bank : option ext_error;
  a_amount : string;
  a_price : string;
  a_type : string;
  a_check : Z -> option ext_error;
  a_insert : option ext_error;
  a_lastid : ext_error + Z;
  a_commit : option ext_error;
  a_chance : ext_error + bool
}.

(** The function [AddOrders] runs inside the transaction; the third
    component is the captured variable [id]. *)
Definition AddOrders_tx (w : AddOrdersWorld) (user : User)
    : list event * option herror * Z :=
  match a_lock w with
  | Some e =>
      ([], Some (ErrWrap (ErrExt e) "model.GetUserByIDWithLock failed. id:%d"
                   [AInt (UserID user)]), 0)
  | None =>
  match a_logger w with
  | Some e => ([], Some (ErrWrap (ErrExt e) "newLogger failed" []), 0)
  | None =>
  match a_bank w with
  | Some e => ([], Some (ErrWrap (ErrExt e) "newIsubank failed" []), 0)
  | None =>
  match formvalInt64 (a_amount w) "amount" with
  | inl err =>
      ([], errcodeWrap (Some (ErrWrap err "formvalInt64 failed. amount" [])) 400, 0)
  | inr amount =>
  if amount <=? 0 then
    ([], errcodeWrap (Some (ErrNew "amount is must be greater 0. [%d]" [AInt amount]))
           400, 0)
  else
  match formvalInt64 (a_price w) "price" with
  | inl err =>
      ([], errcodeWrap (Some (ErrWrap err "formvalInt64 failed. price" [])) 400, 0)
  | inr price =>
  if price <=? 0 then
    ([], errcodeWrap (Some (ErrNew "price is must be greater 0. [%d]" [AInt price]))
           400, 0)
  else
  let ot := a_type w in
  let insert (evs : list event) : list event * option herror * Z :=
    match a_insert w with
    | Some e => (evs, Some (ErrWrap (ErrExt e) "insert order failed" []), 0)
    | None =>
        let evs := evs ++ [EvInsertOrder ot (UserID user) amount price] in
        match a_lastid w with
        | inl e => (evs, Some (ErrWrap (ErrExt e) "get order_id failed" []), 0)
        | inr id =>
            (evs ++ [EvLog (ot ++ ".order")
                       [("order_id", AInt id); ("user_id", AInt (UserID user));
                        ("amount", AInt amount); ("price", AInt price)]],
             None, id)
        end
    end in
  if String.eqb ot OrderTypeBuy then
    let totalPrice := mul64 price amount in
    match a_check w totalPrice with
    | Some e =>
        let evs := [EvLog "buy.error"
                      [("error", AErr e); ("user_id", AInt (UserID user));
                       ("amount", AInt amount); ("price", AInt price)]] in
        if is_ErrCreditInsufficient (ErrExt e)
        then (evs, errcode "銀行残高が足りません" 400, 0)
        else (evs, Some (ErrWrap (ErrExt e) "isubank check failed" []), 0)
    | None => insert []
    end
  else if String.eqb ot OrderTypeSell then insert []
  else ([], errcode "type must be sell or buy" 400, 0)
  end end end end end.

(** The handler [AddOrders]. *)
Definition AddOrders (w : AddOrdersWorld) : list event * Response :=
  match userByRequest (a_session w) (a_lookup w) with
  | inl err => ([], handleError err 401)
  | inr user =>
      let '(evs, ferr, id) := AddOrders_tx w user in
      let '(evs, err) := txScorp (a_begin w) (evs, TxReturn ferr) (a_commit w) in
      match err with
      | Some e => (evs, handleError e 500)
      | None =>
          match a_chance w with
          | inl e => (evs, handleError (ErrExt e) 500)
          | inr tradeChance =>
              (evs ++ (if tradeChance then [EvRunTrade] else []),
               handleSuccess (BodyId id))
          end
      end
  end.

(** The order record [DeleteOrders] reads. *)
Record SOrder : Type := mkSOrder {
  s_ID : Z;
  s_UserID : Z;
  s_Type : string;
  s_ClosedAt : option Time
}.

Record DeleteOrdersWorld : Type := mkDeleteOrdersWorld {
  d_session : option Z;
  d_lookup : ext_error + User;
  d_begin : option ext_error;
  d_lock : option ext_error;
  d_logger : option ext_error;
  d_id : string;
  d_order : ext_error + SOrder;
  d_update : option ext_error;
  d_commit : option ext_error
}.

(** The function [DeleteOrders] runs inside the transaction. *)
Definition DeleteOrders_tx (w : DeleteOrdersWorld) (user : User)
    : list event * option herror * Z :=
  match d_lock w with
  | Some e =>
      ([], Some (ErrWrap (ErrExt e) "model.GetUserByIDWithLock failed. id:%d"
                   [AInt (UserID user)]), 0)
  | None =>
  match d_logger w with
  | Some e => ([], Some (ErrWrap (ErrExt e) "newLogger failed" []), 0)
  | None =>
  if String.eqb (d_id w) "" then
    ([], errcodeWrap (Some (ErrNew "id is required" [])) 400, 0)
  else
  match strconv_ParseInt (d_id w) with
  | None =>
      ([], errcodeWrap (Some (ErrWrap (ErrExt (ErrNum (d_id w)))
                                "id parse failed" [])) 400, 0)
  | Some id =>
  match d_order w with
  | inl e =>
      let err := ErrWrap (ErrExt e) "model.GetOrderByIDWithLock failed. id" [] in
      if is_ErrNoRows err then ([], errcodeWrap (Some err) 404, id)
      else ([], Some err, id)
  | inr order =>
  if negb (s_UserID order =? UserID user) then
    ([], errcodeWrap (Some (ErrNew "not found" [])) 404, id)
  else
  match s_ClosedAt order with
  | Some _ => ([], errcodeWrap (Some (ErrNew "already closed" [])) 404, id)
  | None =>
  match d_update w with
  | Some e => ([], Some (ErrWrap (ErrExt e) "update orders for cancel" []), id)
  | None =>
      ([EvCloseOrder (s_ID order);
        EvLog (s_Type order ++ ".delete")
          [("order_id", AInt (s_ID order)); ("user_id", AInt (s_UserID order));
           ("reason", AStr "canceled")]],
       None, id)
  end end end end end end.

(** The handler [DeleteOrders]. *)
Definition DeleteOrders (w : DeleteOrdersWorld) : list event * Response :=
  match userByRequest (d_session w) (d_lookup w) with
  | inl err => ([], handleError err 401)
  | inr user =>
      let '(evs, ferr, id) := DeleteOrders_tx w user in
      let '(evs, err) := txScorp (d_begin w) (evs, TxReturn ferr) (d_commit w) in
      match err with
      | Some e => (evs, handleError e 500)
      | None => (evs, handleSuccess (BodyId id))
      end
  end.

End Handler.


(** ** Sample requests *)

Definition sample_user : Handler.User := Handler.mkUser 7 "bank-7".

(** A bank that accepts a check exactly when the total does not exceed the
    balance. *)
Definition check_balance (balance : Z) (total : Z) : option Handler.ext_error :=
  if total <=? balance then None else Some Handler.ErrCreditInsufficient.

(** A request to [AddOrders] by a signed-in user for which the database
    and the logger work; the bank holds a balance of 1000. *)
Definition order_request (ot amount price : string) : Handler.AddOrdersWorld :=
  {| Handler.a_session := Some 7;
     Handler.a_lookup := inr sample_user;
     Handler.a_begin := None; Handler.a_lock := None;
     Handler.a_logger := None; Handler.a_bank := None;
     Handler.a_amount := amount; Handler.a_price := price;
     Handler.a_type := ot;
     Handler.a_check := check_balance 1000;
     Handler.a_insert := None; Handler.a_lastid := inr 42;
     Handler.a_commit := None; Handler.a_chance := inr false |}.

(** A request to [DeleteOrders] by the same user, for which the lookup of
    the order answers [order]. *)
Definition delete_request (id : string)
    (order : Handler.ext_error + Handler.SOrder) : Handler.DeleteOrdersWorld :=
  {| Handler.d_session := Some 7;
     Handler.d_lookup := inr sample_user;
     Handler.d_begin := None; Handler.d_lock := None;
     Handler.d_logger := None;
     Handler.d_id := id;
     Handler.d_order := order;
     Handler.d_update := None; Handler.d_commit := None |}.


(** The events of a request that was turned down: at most a log entry,
    then the rollback. *)
Definition no_effect (evs : list Handler.event) : Prop :=
  last evs = Some Handler.EvRollback
  /\ Forall (fun ev => match ev with
                       | Handler.EvLog _ _ | Handler.EvRollback => True
                       | _ => False
                       end) evs.


(** ** A placement queued before the investor falls idle *)

(** The world of [calm_env] earlier on, with the clock at 2900. *)
Definition early_env : Env :=
  {| e_retired := false; e_retired' := false;
     e_now := 2900; e_now' := 2900; e_clock := fun _ => 2900;
     e_rand := 0;
     e_top := None; e_signup := None; e_signin := None;
     e_info := inr (mkInfoResponse 90 0 1 [mkCandle 95] []);
     e_orders := inr [open_order 1 TradeTypeBuy 5 100];
     e_add := inr (open_order 2 TradeTypeBuy 1 90);
     e_delete := None |}.

(** The same world with the clock at 5000; the server accepts a buy of 1
    at 90 as order 2 and lists both orders. *)
Definition late_env : Env :=
  {| e_retired := false; e_retired' := false;
     e_now := 5000; e_now' := 5000; e_clock := fun _ => 5000;
     e_rand := 0;
     e_top := None; e_signup := None; e_signin := None;
     e_info := inr (mkInfoResponse 90 0 1 [mkCandle 95] []);
     e_orders := inr [open_order 1 TradeTypeBuy 5 100; open_order 2 TradeTypeBuy 1 90];
     e_add := inr (open_order 2 TradeTypeBuy 1 90);
     e_delete := None |}.

(** The investor whose first buy was placed at time 1000, after one tick at
    time 2900: the guard of the policy was still open, and the policy has
    queued a buy at the best ask and a reconciliation for the next tick. *)
Definition investor_with_queued_placement : RandomInvestor :=
  snd (fst (run_ticks sample_cfg Removed_model 1 (fun _ => early_env) 0
              investor_one_order)).

(** * Properties *)

(** ** Arithmetic of [wrap64] *)

Lemma wrap64_small (z : Z) : in_int64 z -> wrap64 z = z.
Proof. unfold in_int64, wrap64. intros H. rewrite Z.mod_small; lia. Qed.

Lemma wrap64_range (z : Z) : in_int64 (wrap64 z).
Proof.
  unfold in_int64, wrap64.
  pose proof (Z.mod_pos_bound (z + 2 ^ 63) (2 ^ 64)). lia.
Qed.

Lemma wrap64_add_l (a b : Z) : wrap64 (wrap64 a + b) = wrap64 (a + b).
Proof.
  unfold wrap64. f_equal.
  replace ((a + 2 ^ 63) mod 2 ^ 64 - 2 ^ 63 + b + 2 ^ 63)
    with ((a + 2 ^ 63) mod 2 ^ 64 + b) by lia.
  rewrite Zplus_mod_idemp_l. f_equal. lia.
Qed.

Lemma wrap64_add_r (a b : Z) : wrap64 (a + wrap64 b) = wrap64 (a + b).
Proof. rewrite Z.add_comm, wrap64_add_l. f_equal; lia. Qed.

Lemma wrap64_opp (a : Z) : wrap64 (- wrap64 a) = wrap64 (- a).
Proof.
  unfold wrap64. f_equal.
  replace (- ((a + 2 ^ 63) mod 2 ^ 64 - 2 ^ 63) + 2 ^ 63)
    with (2 ^ 64 - (a + 2 ^ 63) mod 2 ^ 64) by lia.
  rewrite Zminus_mod_idemp_r. f_equal. lia.
Qed.

Lemma wrap64_sub_l (a b : Z) : wrap64 (wrap64 a - b) = wrap64 (a - b).
Proof. unfold Z.sub. apply wrap64_add_l. Qed.

Lemma wrap64_sub_r (a b : Z) : wrap64 (a - wrap64 b) = wrap64 (a - b).
Proof.
  unfold Z.sub. rewrite <- wrap64_add_r, wrap64_opp, wrap64_add_r. reflexivity.
Qed.

(** ** Records *)

Lemma set_base_base (i : RandomInvestor) : set_base i (base i) = i.
Proof. destruct i; reflexivity. Qed.

(** ** Composites *)

Lemma fold_SerialTask_Add (ts : list Task) (cap : nat) (l : list Task) :
  fold_left SerialTask_Add ts (SerialTask cap l) = SerialTask cap (l ++ ts).
Proof.
  revert l. induction ts as [|t ts IH]; intros l; simpl.
  - now rewrite app_nil_r.
  - rewrite IH, <- app_assoc. reflexivity.
Qed.

(** ** Polling before [pollingTime] (C7) *)

(** C7. A poll made at a time strictly before the investor's next-poll
    timestamp returns score 0 and no error, and leaves the whole investor
    state as it was: the market view ([lowestSellPrice], [highestBuyPrice],
    [latestTradePrice]), the cursor and the deferred-task queue included. *)
Theorem Info_before_pollingTime_is_noop
    (cfg : Config) (retired : bool) (now now2 : Time)
    (resp : ClientError + InfoResponse) (i : investorBase) :
  now < pollingTime i ->
  Info_body cfg retired now resp now2 i = (Return 0, i)
  /\ Info_task cfg retired now resp now2 i = (Scored 0, i)
  /\ forall i', snd (Info_task cfg retired now resp now2 i) = i' ->
       lowestSellPrice i' = lowestSellPrice i
       /\ highestBuyPrice i' = highestBuyPrice i
       /\ latestTradePrice i' = latestTradePrice i
       /\ lastCursor i' = lastCursor i
       /\ taskStack i' = taskStack i.
Proof.
  intros Hlt.
  assert (Hb : Info_body cfg retired now resp now2 i = (Return 0, i)).
  { unfold Info_body, Time_Before.
    destruct retired; [reflexivity|].
    destruct (Z.ltb_spec now (pollingTime i)); [reflexivity | lia]. }
  assert (Ht : Info_task cfg retired now resp now2 i = (Scored 0, i)).
  { unfold Info_task. rewrite Hb. reflexivity. }
  split; [exact Hb|]. split; [exact Ht|].
  intros i' <-. rewrite Ht. simpl. repeat split.
Qed.

Lemma Info_before_pollingTime_witness :
  let i := set_pollingTime (newInvestorBase 10000 0) 700 in
  let resp : ClientError + InfoResponse :=
    inr (mkInfoResponse 90 80 7 [mkCandle 85] [open_order 1 TradeTypeBuy 5 100]) in
  Info_task sample_cfg false 600 resp 601 i = (Scored 0, i).
Proof.
  intros i resp.
  apply (Info_before_pollingTime_is_noop sample_cfg false 600 601 resp i).
  unfold i; simpl; lia.
Defined.

(** ** [Next] (C8) *)

Lemma RandomInvestor_Next_retired (retired retired' : bool) (i : RandomInvestor) :
  retired || retired' = true ->
  RandomInvestor_Next retired retired' i = (None, i).
Proof.
  unfold RandomInvestor_Next, investorBase_Next.
  destruct retired; [reflexivity|]. destruct retired'; [|discriminate].
  now rewrite set_base_base.
Qed.

Lemma RandomInvestor_Next_live (i : RandomInvestor) :
  RandomInvestor_Next false false i
  = (Some (SerialTask (2 + length (taskStack (base i)))
             (InfoTask :: taskStack (base i) ++ [FixNextTaskT])),
     set_base i (set_taskStack (base i) [])).
Proof.
  unfold RandomInvestor_Next, investorBase_Next, NewSerialTask.
  cbn [SerialTask_Add app]. rewrite fold_SerialTask_Add.
  cbn [SerialTask_Add app]. reflexivity.
Qed.

(** C8. [Next] on a retired investor returns no task (whichever of its two
    readings of the retired flag is set) and changes nothing; on an
    investor that is not retired it returns the Serial Composite made of a
    fresh info poll, then the queued deferred tasks in the order they were
    queued, then the policy-decision task, and leaves the queue empty. *)
Theorem Next_composite (retired' : bool) (i : RandomInvestor) :
  RandomInvestor_Next true retired' i = (None, i)
  /\ RandomInvestor_Next false true i = (None, i)
  /\ RandomInvestor_Next false false i
     = (Some (SerialTask (2 + length (taskStack (base i)))
                (InfoTask :: taskStack (base i) ++ [FixNextTaskT])),
        set_base i (set_taskStack (base i) []))
  /\ taskStack (base (snd (RandomInvestor_Next false false i))) = [].
Proof.
  split; [now apply RandomInvestor_Next_retired|].
  split; [now apply RandomInvestor_Next_retired|].
  split; [apply RandomInvestor_Next_live|].
  rewrite RandomInvestor_Next_live. reflexivity.
Qed.

(** Tasks are queued at the back ([pushNextTask] appends), so the order in
    which [Next] lists them is the order in which they were queued. *)
Lemma pushNextTask_fifo (i : investorBase) (t u : Task) :
  taskStack (pushNextTask (pushNextTask i t) u) = taskStack i ++ [t; u].
Proof. unfold pushNextTask. simpl. now rewrite <- app_assoc. Qed.

(** ** Placement refused for lack of funds (C6) *)

(** C6, as stated, fails: with a reward of 5 per placement, the task of a
    placement that the server refuses with the insufficient-balance message
    completes with score 5, not 0. *)
Lemma AddOrder_insufficient_balance_score_not_zero :
  -1 < strings_Index (Error_ insufficient_balance_error) insufficient_balance_msg
  /\ fst (AddOrder_task sample_cfg (inl insufficient_balance_error) 1000
            (newInvestorBase 10000 0)) = Scored 5
  /\ fst (AddOrder_task sample_cfg (inl insufficient_balance_error) 1000
            (newInvestorBase 10000 0)) <> Scored 0.
Proof.
  vm_compute. split; [reflexivity|]. split; [reflexivity | discriminate].
Qed.

(** C6, amended. When [Client.AddOrder] fails with the insufficient-balance
    message, the body of the placement task returns no error and leaves the
    investor unchanged (no order is recorded, [lastOrder] is not touched);
    the task, built with a fixed score, completes successfully and earns
    the placement reward [PostOrdersScore] like any other placement. *)
Theorem AddOrder_insufficient_balance_is_success
    (cfg : Config) (err : ClientError) (now : Time) (i : investorBase) :
  -1 < strings_Index (Error_ err) insufficient_balance_msg ->
  AddOrder_body (inl err) now i = (Return tt, i)
  /\ AddOrder_task cfg (inl err) now i = (Scored (PostOrdersScore cfg), i)
  /\ orders (snd (AddOrder_task cfg (inl err) now i)) = orders i.
Proof.
  intros H.
  assert (Hb : AddOrder_body (inl err) now i = (Return tt, i)).
  { unfold AddOrder_body.
    destruct (Z.ltb_spec (-1) (strings_Index (Error_ err) insufficient_balance_msg));
      [reflexivity | lia]. }
  unfold AddOrder_task. rewrite Hb. simpl. repeat split.
Qed.

Lemma AddOrder_insufficient_balance_witness :
  AddOrder_task sample_cfg (inl insufficient_balance_error) 1000
    (newInvestorBase 10000 0)
  = (Scored 5, newInvestorBase 10000 0).
Proof.
  apply (AddOrder_insufficient_balance_is_success sample_cfg
           insufficient_balance_error 1000 (newInvestorBase 10000 0)).
  vm_compute. reflexivity.
Defined.

(** ** The check on the most recent order (C9) *)

(** C9. In a state whose most recent local order is a sell, a
    reconciliation for which [GetOrders] succeeds with an empty list reads
    the last element of that empty list: the pre-merge check has no value
    (Go panics with index out of range), the task ends in that panic with
    the investor untouched, and no consistency error is returned. *)
Theorem UpdateOrders_panics_on_empty_server_list
    (Removed : Order -> bool) (clock : nat -> Time) (i : investorBase)
    (lo : Order) :
  last (orders i) = Some lo ->
  Type_ lo = TradeTypeSell ->
  check_last_order (orders i) [] = Panic
  /\ UpdateOrders_body Removed (inr []) clock i = (Panic, i)
  /\ forall e, fst (UpdateOrders_body Removed (inr []) clock i) <> Failure e.
Proof.
  intros Hlast Hsell.
  assert (Hc : check_last_order (orders i) [] = Panic).
  { unfold check_last_order. rewrite Hlast, Hsell. reflexivity. }
  assert (Hb : UpdateOrders_body Removed (inr []) clock i = (Panic, i)).
  { unfold UpdateOrders_body. rewrite Hc. reflexivity. }
  split; [exact Hc|]. split; [exact Hb|].
  intros e. rewrite Hb. discriminate.
Qed.

(** The state of C9 is reached from a fresh investor by one successful
    placement of a sell order. *)
Lemma UpdateOrders_panics_witness :
  UpdateOrders_body Removed_model (inr []) (fun _ => 2000) investor_after_sell
  = (Panic, investor_after_sell).
Proof.
  apply (UpdateOrders_panics_on_empty_server_list Removed_model (fun _ => 2000)
           investor_after_sell (open_order 1 TradeTypeSell 5 100));
    reflexivity.
Defined.

(** ** The rule ladder: releasing an order (C4) *)

Lemma pick_release_inv (b : investorBase) (os pre : list Order)
    (o : option nat) (df : Z) :
  release_inv b pre o df ->
  release_inv b (pre ++ os)
    (fst (pick_release b (length pre) os o df))
    (snd (pick_release b (length pre) os o df)).
Proof.
  revert pre o df. induction os as [|order rest IH]; intros pre o df Hinv.
  - simpl. now rewrite app_nil_r.
  - cbn [pick_release].
    replace (pre ++ order :: rest) with ((pre ++ [order]) ++ rest)
      by now rewrite <- app_assoc.
    replace (S (length pre)) with (length (pre ++ [order]))
      by (rewrite length_app; simpl; lia).
    destruct o as [k|].
    + destruct Hinv as (ok & Hk & Hdf & Hmax & Hfirst).
      cbn [orb]. destruct (Z.ltb_spec df (mdiff b order)) as [Hlt|Hge].
      * apply IH. exists order. split.
        { rewrite lookup_app_r by lia. now rewrite Nat.sub_diag. }
        split; [reflexivity|]. split.
        -- intros j oj Hj. destruct (decide (j < length pre)%nat) as [Hl|Hl].
           ++ rewrite lookup_app_l in Hj by lia. specialize (Hmax j oj Hj). lia.
           ++ rewrite lookup_app_r in Hj by lia.
              destruct (j - length pre)%nat; simpl in Hj; [|discriminate].
              injection Hj as <-. lia.
        -- intros j oj Hj Hjo. rewrite lookup_app_l in Hjo by lia.
           specialize (Hmax j oj Hjo). lia.
      * apply IH. exists ok. split.
        { apply lookup_lt_Some in Hk as Hlen. now rewrite lookup_app_l by lia. }
        split; [exact Hdf|]. split.
        -- intros j oj Hj. destruct (decide (j < length pre)%nat) as [Hl|Hl].
           ++ rewrite lookup_app_l in Hj by lia. exact (Hmax j oj Hj).
           ++ rewrite lookup_app_r in Hj by lia.
              destruct (j - length pre)%nat; simpl in Hj; [|discriminate].
              injection Hj as <-. lia.
        -- intros j oj Hj Hjo. apply lookup_lt_Some in Hk as Hlen.
           rewrite lookup_app_l in Hjo by lia. exact (Hfirst j oj Hj Hjo).
    + simpl in Hinv. subst pre. cbn [orb]. apply IH.
      exists order. split; [reflexivity|]. split; [reflexivity|]. split.
      * intros j oj Hj. destruct j; simpl in Hj; [|discriminate].
        injection Hj as <-. lia.
      * intros j oj Hj. simpl in Hj. lia.
Qed.

(** The open orders are among the recorded ones, so an investor with
    [OrderCap] open orders has at least [OrderCap] orders in its list. *)
Lemma open_count_le_length (os : list Order) :
  (open_count os <= length os)%nat.
Proof.
  unfold open_count. induction os as [|o os IH]; [reflexivity|].
  cbn [List.filter]. destruct (is_open o); simpl; lia.
Qed.

(** C4, as stated, fails: an investor with exactly [OrderCap] open orders
    whose last placement is older than [OrderUpdateInterval] gets no
    proposal at all, hence no cancellation. *)
Lemma UpdateOrderTask_full_but_idle_proposes_nothing :
  open_count (orders (base investor_with_five_orders)) = OrderCap
  /\ UpdateOrderTask sample_cfg false 5000 0 investor_with_five_orders
     = (Return None, investor_with_five_orders).
Proof. split; reflexivity. Qed.

(** C4, amended. For an investor that is not retired, whose local order
    list holds at least [OrderCap] orders (open or not) and whose last
    placement is less than [OrderUpdateInterval] old, the policy proposes a
    cancellation, never a placement, and leaves the investor unchanged.
    The order to cancel is, among all the orders of the local list, the
    first one whose margin is maximal: no order has a larger margin and
    every earlier order has a strictly smaller one.  The margin [mdiff] of
    a sell order is its price minus [highestBuyPrice], that of any other
    order is [lowestSellPrice] minus its price (in [int64] arithmetic). *)
Theorem UpdateOrderTask_releases_first_widest_order
    (cfg : Config) (now : Time) (r : Z) (i : RandomInvestor) :
  (OrderCap <= length (orders (base i)))%nat ->
  now < lastOrder (base i) + OrderUpdateInterval cfg ->
  exists k ok,
    UpdateOrderTask cfg false now r i = (Return (Some (RemoveOrderTask (Some k))), i)
    /\ orders (base i) !! k = Some ok
    /\ (forall j oj, orders (base i) !! j = Some oj ->
          mdiff (base i) oj <= mdiff (base i) ok)
    /\ (forall j oj, (j < k)%nat -> orders (base i) !! j = Some oj ->
          mdiff (base i) oj < mdiff (base i) ok)
    /\ (forall o, mdiff (base i) o =
          if String.eqb (Type_ o) TradeTypeSell
          then wrap64 (Price o - highestBuyPrice (base i))
          else wrap64 (lowestSellPrice (base i) - Price o)).
Proof.
  intros Hcap Hfresh.
  pose proof (pick_release_inv (base i) (orders (base i)) [] None 0 eq_refl) as Hinv.
  cbn [app length] in Hinv.
  unfold UpdateOrderTask. cbn [negb].
  assert (Hupd : Time_After (Time_Add (lastOrder (base i)) (OrderUpdateInterval cfg)) now = true).
  { unfold Time_After, Time_Add. apply Z.ltb_lt. lia. }
  rewrite Hupd, orb_true_r. cbn [negb].
  assert (Hc : (OrderCap <=? length (orders (base i)))%nat = true)
    by now apply Nat.leb_le.
  rewrite Hc.
  destruct (pick_release (base i) 0 (orders (base i)) None 0) as [o df].
  cbn [fst snd] in Hinv. destruct o as [k|].
  - destruct Hinv as (ok & Hk & Hdf & Hmax & Hfirst). subst df.
    exists k, ok. repeat split; try assumption.
  - simpl in Hinv. rewrite Hinv in Hcap. unfold OrderCap in Hcap. simpl in Hcap. lia.
Qed.

(** Of five resting buys at 100, 99, 98, 97 and 96, with no ask known, the
    last one (slot 4) has the largest margin. *)
Lemma UpdateOrderTask_releases_witness :
  UpdateOrderTask sample_cfg false 2000 0 investor_with_five_orders
  = (Return (Some (RemoveOrderTask (Some 4%nat))), investor_with_five_orders).
Proof.
  destruct (UpdateOrderTask_releases_first_widest_order sample_cfg 2000 0
              investor_with_five_orders) as (k & ok & H1 & _).
  - vm_compute. lia.
  - vm_compute. reflexivity.
  - rewrite H1. vm_compute in H1. injection H1 as <-. reflexivity.
Defined.

(** The scan of the first rung goes over every recorded order: with five
    open orders and a cancelled one whose margin is the largest, the order
    proposed for cancellation is the cancelled one (slot 0). *)
Lemma UpdateOrderTask_may_release_closed_order :
  open_count (orders (base investor_with_cancelled_order)) = OrderCap
  /\ fst (UpdateOrderTask sample_cfg false 2000 0 investor_with_cancelled_order)
     = Return (Some (RemoveOrderTask (Some 0%nat)))
  /\ (Removed_model <$> orders (base investor_with_cancelled_order) !! 0%nat)
     = Some true.
Proof. repeat split. Qed.

(** A retired investor gets no proposal, whatever its state. *)
Lemma UpdateOrderTask_retired (cfg : Config) (now : Time) (r : Z)
    (i : RandomInvestor) :
  UpdateOrderTask cfg true now r i = (Return None, i).
Proof. reflexivity. Qed.

(** ** The rule ladder: the first order (C5) *)

(** C5, as stated, fails: an investor none of whose orders is open (its
    only order, a sell, is settled) and whose available inventory, 15,
    exceeds the unit amount, 5, is offered a best ask of 50 below its
    reference price and proposes a buy. *)
Lemma UpdateOrderTask_no_open_order_yet_buys :
  open_count (orders (base investor_after_settled_sell)) = 0%nat
  /\ unitamount investor_after_settled_sell
     < logicalIsu (base investor_after_settled_sell)
  /\ UpdateOrderTask sample_cfg false 2000 0 investor_after_settled_sell
     = (Return (Some (AddOrderTask TradeTypeBuy 1 50)), investor_after_settled_sell).
Proof. split; [reflexivity|]. split; reflexivity. Qed.

(** C5, amended. For an investor that is not retired, whose local order
    list is empty (no order has been recorded at all) and whose available
    inventory exceeds the unit amount, the policy proposes the initial sell
    of the unit amount at the reference price, which is not a buy, and
    leaves the investor unchanged. *)
Theorem UpdateOrderTask_first_order_is_sell
    (cfg : Config) (now : Time) (r : Z) (i : RandomInvestor) :
  orders (base i) = [] ->
  unitamount i < logicalIsu (base i) ->
  UpdateOrderTask cfg false now r i
  = (Return (Some (AddOrderTask TradeTypeSell (unitamount i) (unitprice i))), i)
  /\ forall amount price,
       fst (UpdateOrderTask cfg false now r i)
       <> Return (Some (AddOrderTask TradeTypeBuy amount price)).
Proof.
  intros Hnil Hisu.
  assert (H : UpdateOrderTask cfg false now r i
    = (Return (Some (AddOrderTask TradeTypeSell (unitamount i) (unitprice i))), i)).
  { unfold UpdateOrderTask. rewrite Hnil. cbn.
    destruct (Z.ltb_spec (unitamount i) (logicalIsu (base i))); [reflexivity | lia]. }
  split; [exact H|]. intros amount price. rewrite H. discriminate.
Qed.

Lemma UpdateOrderTask_first_order_witness :
  UpdateOrderTask sample_cfg false 0 0 (NewRandomInvestor 1000 20 5 100)
  = (Return (Some (AddOrderTask TradeTypeSell 5 100)), NewRandomInvestor 1000 20 5 100).
Proof.
  apply (UpdateOrderTask_first_order_is_sell sample_cfg 0 0
           (NewRandomInvestor 1000 20 5 100)).
  - reflexivity.
  - vm_compute. reflexivity.
Defined.

(** ** Reconciliation: the totals (C2, C1) *)

Lemma reserved_credit_cons (o : Order) (os : list Order) :
  reserved_credit (o :: os) = reserved_credit_of o + reserved_credit os.
Proof.
  unfold reserved_credit, reserved_credit_of. simpl.
  destruct (negb (settled o) && is_buy o); reflexivity.
Qed.

Lemma reserved_isu_cons (o : Order) (os : list Order) :
  reserved_isu (o :: os) = reserved_isu_of o + reserved_isu os.
Proof.
  unfold reserved_isu, reserved_isu_of. simpl.
  destruct (negb (settled o) && is_sell o); reflexivity.
Qed.

Lemma settled_credit_cons (o : Order) (os : list Order) :
  settled_credit (o :: os) = credit_effect o + settled_credit os.
Proof. reflexivity. Qed.

Lemma settled_isu_cons (o : Order) (os : list Order) :
  settled_isu (o :: os) = isu_effect o + settled_isu os.
Proof. reflexivity. Qed.

Lemma sell_is_not_buy (o : Order) : is_sell o = true -> is_buy o = false.
Proof.
  unfold is_sell, is_buy. intros H. apply String.eqb_eq in H. now rewrite H.
Qed.

Lemma wrap64_add64 (a b x : Z) : wrap64 (add64 a b + x) = wrap64 (a + b + x).
Proof. unfold add64. apply wrap64_add_l. Qed.

Lemma wrap64_sub64 (a b x : Z) : wrap64 (sub64 a b + x) = wrap64 (a - b + x).
Proof. unfold sub64. apply wrap64_add_l. Qed.

Lemma wrap64_add_mul64 (a b c x : Z) :
  wrap64 (add64 a (mul64 b c) + x) = wrap64 (a + b * c + x).
Proof.
  rewrite wrap64_add64. unfold mul64.
  replace (a + wrap64 (b * c) + x) with (a + x + wrap64 (b * c)) by lia.
  rewrite wrap64_add_r. f_equal. lia.
Qed.

Lemma wrap64_sub_mul64 (a b c x : Z) :
  wrap64 (sub64 a (mul64 b c) + x) = wrap64 (a - b * c + x).
Proof.
  rewrite wrap64_sub64. unfold mul64.
  replace (a - wrap64 (b * c) + x) with (a + x - wrap64 (b * c)) by lia.
  rewrite wrap64_sub_r. f_equal. lia.
Qed.

(** One turn of the [switch]: each total moves by what the order adds,
    modulo [2^64]. *)
Lemma tally_order_spec (order : Order) (a : Tally) (x : Z) :
  wrap64 (t_resvedCredit (tally_order order a) + x)
    = wrap64 (t_resvedCredit a + reserved_credit_of order + x)
  /\ wrap64 (t_resvedIsu (tally_order order a) + x)
    = wrap64 (t_resvedIsu a + reserved_isu_of order + x)
  /\ wrap64 (t_tradedCredit (tally_order order a) + x)
    = wrap64 (t_tradedCredit a + credit_effect order + x)
  /\ wrap64 (t_tradedIsu (tally_order order a) + x)
    = wrap64 (t_tradedIsu a + isu_effect order + x).
Proof.
  unfold tally_order, reserved_credit_of, reserved_isu_of, credit_effect,
    isu_effect, settled.
  pose proof (sell_is_not_buy order) as Hsb. unfold is_sell, is_buy in *.
  destruct (Trade_ order) as [tr|];
    destruct (String.eqb (Type_ order) TradeTypeSell) eqn:Hs.
  - rewrite (Hsb eq_refl).
    cbn [negb andb t_resvedCredit t_resvedIsu t_tradedIsu t_tradedCredit].
    rewrite wrap64_add_mul64, wrap64_sub64, !Z.add_0_r.
    repeat split; f_equal; lia.
  - destruct (String.eqb (Type_ order) TradeTypeBuy);
      cbn [negb andb t_resvedCredit t_resvedIsu t_tradedIsu t_tradedCredit];
      rewrite ?wrap64_sub_mul64, ?wrap64_add64, !Z.add_0_r;
      repeat split; f_equal; lia.
  - rewrite (Hsb eq_refl).
    cbn [negb andb t_resvedCredit t_resvedIsu t_tradedIsu t_tradedCredit].
    rewrite wrap64_add64, !Z.add_0_r.
    repeat split; f_equal; lia.
  - destruct (String.eqb (Type_ order) TradeTypeBuy);
      cbn [negb andb t_resvedCredit t_resvedIsu t_tradedIsu t_tradedCredit];
      rewrite ?wrap64_add_mul64, !Z.add_0_r;
      repeat split; f_equal; lia.
Qed.

Lemma tally_order_in_range (order : Order) (a : Tally) :
  Tally_in_range a -> Tally_in_range (tally_order order a).
Proof.
  unfold Tally_in_range, tally_order. intros (H1 & H2 & H3 & H4).
  destruct (Trade_ order);
    destruct (String.eqb (Type_ order) TradeTypeSell);
    try destruct (String.eqb (Type_ order) TradeTypeBuy);
    cbn [t_resvedCredit t_resvedIsu t_tradedIsu t_tradedCredit];
    refine (conj _ (conj _ (conj _ _)));
    first [assumption | apply wrap64_range].
Qed.

Lemma reported_cons (Removed : Order -> bool) (srv : list Order) (o : Order)
    (rest : list Order) :
  reported Removed srv (o :: rest)
  = match (if Removed o then None else find_order srv o) with
    | Some ro => ro :: reported Removed srv rest
    | None => reported Removed srv rest
    end.
Proof. reflexivity. Qed.

(** The merge loop, when it runs to its end, has added to each running
    total the sum over the orders it accounts for, modulo [2^64]. *)
Lemma reconcile_totals (Removed : Order -> bool) (srv : list Order)
    (clock : nat -> Time) (local : list Order) :
  forall (n : nat) (a : Tally) (os : list Order) (a' : Tally),
    Tally_in_range a ->
    reconcile Removed srv clock n local a = (os, Return a') ->
    Tally_in_range a'
    /\ t_resvedCredit a'
       = wrap64 (t_resvedCredit a + reserved_credit (reported Removed srv local))
    /\ t_resvedIsu a'
       = wrap64 (t_resvedIsu a + reserved_isu (reported Removed srv local))
    /\ t_tradedCredit a'
       = wrap64 (t_tradedCredit a + settled_credit (reported Removed srv local))
    /\ t_tradedIsu a'
       = wrap64 (t_tradedIsu a + settled_isu (reported Removed srv local)).
Proof.
  induction local as [|o rest IH]; intros n a os a' Ha Hrec.
  - simpl in Hrec. injection Hrec as <- <-.
    split; [exact Ha|]. destruct Ha as (H1 & H2 & H3 & H4).
    cbn. rewrite !Z.add_0_r, !wrap64_small by assumption. repeat split.
  - cbn [reconcile] in Hrec. rewrite reported_cons.
    destruct (Removed o).
    + destruct (reconcile Removed srv clock n rest a) as [rest' r] eqn:Hr.
      injection Hrec as <- ->. exact (IH _ _ _ _ Ha Hr).
    + destruct (find_order srv o) as [order|].
      * destruct (reconcile Removed srv clock n rest (tally_order order a))
          as [rest' r] eqn:Hr.
        injection Hrec as <- ->.
        destruct (IH _ _ _ _ (tally_order_in_range order a Ha) Hr)
          as (Hin & E1 & E2 & E3 & E4).
        split; [exact Hin|].
        destruct (tally_order_spec order a
                    (reserved_credit (reported Removed srv rest))) as (T1 & _).
        destruct (tally_order_spec order a
                    (reserved_isu (reported Removed srv rest))) as (_ & T2 & _).
        destruct (tally_order_spec order a
                    (settled_credit (reported Removed srv rest))) as (_ & _ & T3 & _).
        destruct (tally_order_spec order a
                    (settled_isu (reported Removed srv rest))) as (_ & _ & _ & T4).
        rewrite E1, E2, E3, E4, T1, T2, T3, T4.
        rewrite reserved_credit_cons, reserved_isu_cons,
          settled_credit_cons, settled_isu_cons.
        repeat split; f_equal; lia.
      * destruct (String.eqb (Type_ o) TradeTypeSell); [discriminate|].
        destruct (reconcile Removed srv clock (S n) rest a) as [rest' r] eqn:Hr.
        injection Hrec as <- ->. exact (IH _ _ _ _ Ha Hr).
Qed.

Lemma Tally0_in_range : Tally_in_range Tally0.
Proof. unfold Tally_in_range, Tally0, in_int64. simpl. lia. Qed.

(** A successful reconciliation in terms of its loop. *)
Lemma UpdateOrders_body_success (Removed : Order -> bool) (srv : list Order)
    (clock : nat -> Time) (i i' : investorBase) :
  UpdateOrders_body Removed (inr srv) clock i = (Return tt, i') ->
  exists os a,
    check_last_order (orders i) srv = Return tt
    /\ reconcile Removed srv clock 0 (orders i) Tally0 = (os, Return a)
    /\ i' = set_balances (set_orders i os) (t_resvedIsu a) (t_resvedCredit a)
              (add64 (defcredit i) (t_tradedCredit a))
              (add64 (defisu i) (t_tradedIsu a)).
Proof.
  unfold UpdateOrders_body. intros H.
  destruct (check_last_order (orders i) srv) as [[]| |] eqn:Hc; try discriminate.
  destruct (reconcile Removed srv clock 0 (orders i) Tally0) as [os [a| |]] eqn:Hr;
    try discriminate.
  injection H as <-. exists os, a. repeat split.
Qed.

(** The four balances after a successful reconciliation. *)
Lemma UpdateOrders_totals (Removed : Order -> bool) (srv : list Order)
    (clock : nat -> Time) (i i' : investorBase) :
  UpdateOrders_body Removed (inr srv) clock i = (Return tt, i') ->
  resvedCredit i' = wrap64 (reserved_credit (reported Removed srv (orders i)))
  /\ resvedIsu i' = wrap64 (reserved_isu (reported Removed srv (orders i)))
  /\ credit i'
     = wrap64 (defcredit i + settled_credit (reported Removed srv (orders i)))
  /\ isu i' = wrap64 (defisu i + settled_isu (reported Removed srv (orders i)))
  /\ defcredit i' = defcredit i /\ defisu i' = defisu i.
Proof.
  intros H.
  destruct (UpdateOrders_body_success _ _ _ _ _ H) as (os' & a & _ & Hr & ->).
  destruct (reconcile_totals _ _ _ _ _ _ _ _ Tally0_in_range Hr)
    as (_ & E1 & E2 & E3 & E4).
  cbn [Tally0 t_resvedCredit t_resvedIsu t_tradedIsu t_tradedCredit] in E1, E2, E3, E4.
  rewrite Z.add_0_l in E1, E2, E3, E4.
  cbn [set_balances resvedCredit resvedIsu credit isu defcredit defisu set_orders].
  unfold add64. rewrite E1, E2, E3, E4, !wrap64_add_r. repeat split.
Qed.

(** The same totals read off the investor's own list after the
    reconciliation, for [Removed_model] and a server that lists no
    cancelled order: the reserved credit is the notional of the orders that
    are then open buys, the reserved inventory the amounts of those that
    are then open sells. *)
Lemma reconcile_open_orders (srv : list Order) (clock : nat -> Time)
    (local : list Order) :
  (forall ro, In ro srv -> Removed_model ro = false) ->
  forall (n : nat) (a : Tally) (os : list Order) (a' : Tally),
    reconcile Removed_model srv clock n local a = (os, Return a') ->
    reserved_credit (reported Removed_model srv local) = open_buy_notional os
    /\ reserved_isu (reported Removed_model srv local) = open_sell_amount os.
Proof.
  intros Hsrv. induction local as [|o rest IH]; intros n a os a' Hrec.
  - simpl in Hrec. injection Hrec as <- <-. split; reflexivity.
  - cbn [reconcile] in Hrec. rewrite reported_cons.
    destruct (Removed_model o) eqn:HR.
    + destruct (reconcile Removed_model srv clock n rest a) as [rest' r] eqn:Hr.
      injection Hrec as <- ->. destruct (IH _ _ _ _ Hr) as [E1 E2].
      unfold open_buy_notional, open_sell_amount. cbn [List.filter].
      assert (Ho : is_open o = false).
      { unfold Removed_model in HR. unfold is_open.
        destruct (ClosedAt o), (Trade_ o); try discriminate; reflexivity. }
      rewrite Ho. cbn [andb]. split; assumption.
    + destruct (find_order srv o) as [order|] eqn:Hf.
      * destruct (reconcile Removed_model srv clock n rest (tally_order order a))
          as [rest' r] eqn:Hr.
        injection Hrec as <- ->. destruct (IH _ _ _ _ Hr) as [E1 E2].
        apply find_some in Hf as [Hin _]. specialize (Hsrv order Hin).
        assert (Ho : is_open order = negb (settled order)).
        { unfold Removed_model in Hsrv. unfold is_open, settled.
          destruct (ClosedAt order), (Trade_ order); try discriminate; reflexivity. }
        rewrite reserved_credit_cons, reserved_isu_cons, E1, E2.
        unfold reserved_credit_of, reserved_isu_of, open_buy_notional,
          open_sell_amount.
        cbn [List.filter]. rewrite Ho.
        destruct (negb (settled order) && is_buy order);
          destruct (negb (settled order) && is_sell order);
          unfold sumZ; cbn [map foldr]; split; lia.
      * destruct (String.eqb (Type_ o) TradeTypeSell); [discriminate|].
        destruct (reconcile Removed_model srv clock (S n) rest a) as [rest' r] eqn:Hr.
        injection Hrec as <- ->. destruct (IH _ _ _ _ Hr) as [E1 E2].
        unfold open_buy_notional, open_sell_amount. cbn [List.filter].
        split; assumption.
Qed.

Lemma UpdateOrders_reserved_over_open_orders (srv : list Order)
    (clock : nat -> Time) (i i' : investorBase) :
  (forall ro, In ro srv -> Removed_model ro = false) ->
  UpdateOrders_body Removed_model (inr srv) clock i = (Return tt, i') ->
  resvedCredit i' = wrap64 (open_buy_notional (orders i'))
  /\ resvedIsu i' = wrap64 (open_sell_amount (orders i')).
Proof.
  intros Hsrv H.
  destruct (UpdateOrders_totals _ _ _ _ _ H) as (E1 & E2 & _).
  destruct (UpdateOrders_body_success _ _ _ _ _ H) as (os & a & _ & Hr & ->).
  destruct (reconcile_open_orders srv clock (orders i) Hsrv _ _ _ _ Hr) as [R1 R2].
  rewrite E1, E2, R1, R2. split; reflexivity.
Qed.

(** C2, as stated, fails.  The investor of the scenario, whose buy of 5 has
    been reported settled at 90, holds credit 9550 and inventory 5.  A
    second reconciliation against a server list that no longer holds the
    order succeeds (the last local order is a buy, so the list is not
    checked), closes the local order without counting it and sets credit
    and inventory back to the endowment, 10000 and 0, although the settled
    trade is still recorded in the investor's own list: the balances are
    not the endowment plus the effect of all settled trades observed so
    far. *)
Lemma UpdateOrders_forgets_settled_order_no_longer_listed :
  let b1 := snd (UpdateOrders_body Removed_model
                   (inr [settled_order 1 TradeTypeBuy 5 100 90 1500])
                   (fun _ => 1600) investor_after_first_buy) in
  let r := UpdateOrders_body Removed_model (inr []) (fun _ => 1700) b1 in
  (credit b1 = 9550 /\ isu b1 = 5)
  /\ fst r = Return tt
  /\ orders (snd r) = [settled_order 1 TradeTypeBuy 5 100 90 1700]
  /\ (credit (snd r) = 10000 /\ isu (snd r) = 0)
  /\ credit (snd r) <> defcredit (snd r) + settled_credit (orders (snd r))
  /\ isu (snd r) <> defisu (snd r) + settled_isu (orders (snd r)).
Proof. vm_compute. repeat split; discriminate. Qed.

(** The reserved totals, too, follow the server's report and not the
    openness of the orders: a resting buy of 5 at 100 that the server
    reports closed without a trade is taken over as closed, and its
    notional of 500 is nevertheless counted as reserved, while no order of
    the investor is open any more. *)
Lemma UpdateOrders_reserves_for_order_reported_closed :
  let r := UpdateOrders_body Removed_model
             (inr [mkOrder 1 TradeTypeBuy 5 100 (Some 1500) None])
             (fun _ => 1600) investor_after_first_buy in
  fst r = Return tt
  /\ open_count (orders (snd r)) = 0%nat
  /\ open_buy_notional (orders (snd r)) = 0
  /\ resvedCredit (snd r) = 500.
Proof. vm_compute. repeat split. Qed.

(** C2, amended. After a successful [UpdateOrders], over the orders the
    reconciliation accounts for (the local orders not removed when it
    starts and listed by the server in this reconciliation, as the server
    reports them, closed or not): [resvedCredit] is the sum of
    amount × price over the unsettled buy orders and [resvedIsu] the sum of
    the amounts of the unsettled sell orders, both recomputed from zero;
    [credit] and [isu] are the starting endowment plus the net effect of
    the settled trades among those orders (a settled sell takes its amount
    out of the inventory and adds amount × trade price to the credit, a
    settled buy does the inverse), so an order the server no longer lists
    is no longer counted.  The sums are taken in [int64] arithmetic, so
    the equalities are exact whenever the totals fit in an [int64].  When
    the server lists no cancelled order, the two reserved totals are the
    sums over the orders that are open in the investor's list after the
    reconciliation.  In particular the investor that starts with credit
    10000 and no inventory is proposed a buy of 5 at 100, and once that
    buy is reported settled at price 90 the reconciliation yields
    inventory 5 and credit 9550. *)
Theorem UpdateOrders_recomputes_balances :
  (forall (Removed : Order -> bool) (srv : list Order) (clock : nat -> Time)
          (i i' : investorBase),
      UpdateOrders_body Removed (inr srv) clock i = (Return tt, i') ->
      let os := reported Removed srv (orders i) in
      (resvedCredit i' = wrap64 (reserved_credit os)
       /\ resvedIsu i' = wrap64 (reserved_isu os)
       /\ credit i' = wrap64 (defcredit i + settled_credit os)
       /\ isu i' = wrap64 (defisu i + settled_isu os))
      /\ (defcredit i' = defcredit i /\ defisu i' = defisu i)
      /\ (in_int64 (reserved_credit os) -> resvedCredit i' = reserved_credit os)
      /\ (in_int64 (reserved_isu os) -> resvedIsu i' = reserved_isu os)
      /\ (in_int64 (defcredit i + settled_credit os) ->
            credit i' = defcredit i + settled_credit os)
      /\ (in_int64 (defisu i + settled_isu os) ->
            isu i' = defisu i + settled_isu os))
  /\ (forall (srv : list Order) (clock : nat -> Time) (i i' : investorBase),
        (forall ro, In ro srv -> Removed_model ro = false) ->
        UpdateOrders_body Removed_model (inr srv) clock i = (Return tt, i') ->
        resvedCredit i' = wrap64 (open_buy_notional (orders i'))
        /\ resvedIsu i' = wrap64 (open_sell_amount (orders i')))
  /\ (fst (UpdateOrderTask sample_cfg false 0 0 (NewRandomInvestor 10000 0 5 100))
        = Return (Some (AddOrderTask TradeTypeBuy 5 100))
      /\ let r := UpdateOrders_body Removed_model
                    (inr [settled_order 1 TradeTypeBuy 5 100 90 1500])
                    (fun _ => 1600) investor_after_first_buy in
         fst r = Return tt /\ isu (snd r) = 5 /\ credit (snd r) = 9550).
Proof.
  split.
  - intros Removed srv clock i i' H os.
    destruct (UpdateOrders_totals _ _ _ _ _ H) as (E1 & E2 & E3 & E4 & D1 & D2).
    fold os in E1, E2, E3, E4. rewrite E1, E2, E3, E4.
    split; [repeat split|]. split; [split; assumption|].
    repeat split; intros Hin; now apply wrap64_small.
  - split; [exact UpdateOrders_reserved_over_open_orders|].
    vm_compute. repeat split.
Qed.

Lemma UpdateOrders_recomputes_balances_witness :
  exists i',
    UpdateOrders_body Removed_model (inr server_sell_settled) (fun _ => 1600)
      investor_sell_and_buy = (Return tt, i')
    /\ resvedCredit i' = 270 /\ resvedIsu i' = 0
    /\ credit i' = 10550 /\ isu i' = 15.
Proof.
  eexists. split; [reflexivity|].
  destruct (proj1 UpdateOrders_recomputes_balances Removed_model
              server_sell_settled (fun _ => 1600) investor_sell_and_buy _ eq_refl)
    as ((E1 & E2 & E3 & E4) & _).
  rewrite E1, E2, E3, E4. vm_compute. repeat split.
Defined.

(** The outcome of a reconciliation is decided by the orders alone: the
    loop never looks at the balances. *)
Lemma UpdateOrders_outcome_ignores_endowment (Removed : Order -> bool)
    (resp : ClientError + list Order) (clock : nat -> Time)
    (i : investorBase) (c s : Z) :
  fst (UpdateOrders_body Removed resp clock (with_endowment i c s))
  = fst (UpdateOrders_body Removed resp clock i).
Proof.
  unfold UpdateOrders_body. destruct resp as [err|srv]; [reflexivity|].
  cbn [with_endowment orders].
  destruct (check_last_order (orders i) srv) as [[]| |]; try reflexivity.
  destruct (reconcile Removed srv clock 0 (orders i) Tally0) as [os [a| |]];
    reflexivity.
Qed.

(** C1, as stated, fails: the investor with a credit of 1150 and three
    resting buys of 5 at 100 reconciles successfully against a server that
    lists the three orders, and is left with an available credit of -350;
    no error is reported. *)
Lemma UpdateOrders_success_with_negative_available_credit :
  let r := UpdateOrders_body Removed_model (inr three_buys) (fun _ => 2000)
             investor_overcommitted in
  fst r = Return tt
  /\ logicalCredit (snd r) = -350
  /\ ~ (0 <= logicalCredit (snd r) /\ 0 <= logicalIsu (snd r)).
Proof.
  split; [reflexivity|]. split; [reflexivity|].
  vm_compute. intros [H _]. apply H. reflexivity.
Qed.

(** C1, amended. After a successful [UpdateOrders] the available credit is
    the starting credit plus the net proceeds of the settled trades minus
    the reserved credit, and the available inventory is the starting
    inventory plus the net units of the settled trades minus the reserved
    inventory, both in [int64] arithmetic and never clamped.  The
    reconciliation makes no check on their sign (whether it succeeds does
    not depend on the endowment at all), so, the exact values fitting in an
    [int64], each is non-negative exactly when the reservation does not
    exceed the recomputed balance. *)
Theorem UpdateOrders_available_balances
    (Removed : Order -> bool) (srv : list Order) (clock : nat -> Time)
    (i i' : investorBase) :
  UpdateOrders_body Removed (inr srv) clock i = (Return tt, i') ->
  let os := reported Removed srv (orders i) in
  logicalCredit i'
    = wrap64 (defcredit i + settled_credit os - reserved_credit os)
  /\ logicalIsu i' = wrap64 (defisu i + settled_isu os - reserved_isu os)
  /\ (in_int64 (defcredit i + settled_credit os - reserved_credit os) ->
        (0 <= logicalCredit i'
         <-> reserved_credit os <= defcredit i + settled_credit os))
  /\ (in_int64 (defisu i + settled_isu os - reserved_isu os) ->
        (0 <= logicalIsu i' <-> reserved_isu os <= defisu i + settled_isu os))
  /\ (forall c s,
        fst (UpdateOrders_body Removed (inr srv) clock (with_endowment i c s))
        = Return tt).
Proof.
  intros H os.
  destruct (UpdateOrders_totals _ _ _ _ _ H) as (E1 & E2 & E3 & E4 & _).
  fold os in E1, E2, E3, E4.
  assert (Hc : logicalCredit i'
               = wrap64 (defcredit i + settled_credit os - reserved_credit os)).
  { unfold logicalCredit, sub64. rewrite E1, E3, wrap64_sub_l, wrap64_sub_r.
    reflexivity. }
  assert (Hi : logicalIsu i'
               = wrap64 (defisu i + settled_isu os - reserved_isu os)).
  { unfold logicalIsu, sub64. rewrite E2, E4, wrap64_sub_l, wrap64_sub_r.
    reflexivity. }
  split; [exact Hc|]. split; [exact Hi|].
  split; [|split].
  - intros Hin. rewrite Hc, (wrap64_small _ Hin). lia.
  - intros Hin. rewrite Hi, (wrap64_small _ Hin). lia.
  - intros c s. rewrite UpdateOrders_outcome_ignores_endowment, H. reflexivity.
Qed.

Lemma UpdateOrders_available_balances_witness :
  exists i',
    UpdateOrders_body Removed_model (inr server_sell_settled) (fun _ => 1600)
      investor_sell_and_buy = (Return tt, i')
    /\ logicalCredit i' = 10280 /\ logicalIsu i' = 15.
Proof.
  eexists. split; [reflexivity|].
  destruct (UpdateOrders_available_balances Removed_model server_sell_settled
              (fun _ => 1600) investor_sell_and_buy _ eq_refl)
    as (E1 & E2 & _).
  rewrite E1, E2. vm_compute. split; reflexivity.
Defined.

(** ** Reconciliation: orders the server no longer lists (C3) *)

(** The merge loop stops with the consistency error as soon as it meets a
    vanished sell order. *)
Lemma reconcile_vanished_sell (Removed : Order -> bool) (srv : list Order)
    (clock : nat -> Time) (local : list Order) :
  forall (n : nat) (a : Tally),
    (exists o, o ∈ local /\ vanished Removed srv o /\ Type_ o = TradeTypeSell) ->
    exists os o',
      reconcile Removed srv clock n local a
      = (os, Failure (ErrSellOrderMissing (ID o')))
      /\ o' ∈ local /\ vanished Removed srv o' /\ Type_ o' = TradeTypeSell.
Proof.
  induction local as [|o rest IH]; intros n a (x & Hx & Hv & Hs).
  - inversion Hx.
  - assert (Hrest : forall n' a',
      (exists y, y ∈ rest /\ vanished Removed srv y /\ Type_ y = TradeTypeSell) ->
      forall hd, exists os o',
        (let '(rest', r) := reconcile Removed srv clock n' rest a' in
         (hd :: rest', r)) = (os, Failure (ErrSellOrderMissing (ID o')))
        /\ o' ∈ o :: rest /\ vanished Removed srv o' /\ Type_ o' = TradeTypeSell).
    { intros n' a' Hex hd.
      destruct (IH n' a' Hex) as (os & o' & -> & Hin & Hv' & Hs').
      exists (hd :: os), o'. repeat split; try assumption.
      - now apply list_elem_of_further.
      - apply Hv'.
      - apply Hv'. }
    cbn [reconcile].
    destruct (Removed o) eqn:HR.
    + apply Hrest. apply elem_of_cons in Hx as [->|Hx].
      * destruct Hv as [Hv _]. congruence.
      * exists x. repeat split; try assumption; apply Hv.
    + destruct (find_order srv o) as [order|] eqn:Hf.
      * apply Hrest. apply elem_of_cons in Hx as [->|Hx].
        -- destruct Hv as [_ Hv]. congruence.
        -- exists x. repeat split; try assumption; apply Hv.
      * destruct (String.eqb (Type_ o) TradeTypeSell) eqn:Ht.
        -- exists (o :: rest), o. apply String.eqb_eq in Ht.
           repeat split; try assumption. apply list_elem_of_here.
        -- apply Hrest. apply elem_of_cons in Hx as [->|Hx].
           ++ rewrite Hs, String.eqb_refl in Ht. discriminate.
           ++ exists x. repeat split; try assumption; apply Hv.
Qed.

(** When the merge loop runs to its end, every vanished order it met was
    not a sell and has been closed in place with a reading of the clock;
    the list keeps its length. *)
Lemma reconcile_vanished_buy (Removed : Order -> bool) (srv : list Order)
    (clock : nat -> Time) (local : list Order) :
  forall (n : nat) (a : Tally) (os : list Order) (a' : Tally),
    reconcile Removed srv clock n local a = (os, Return a') ->
    length os = length local
    /\ forall (j : nat) (o : Order),
         local !! j = Some o -> vanished Removed srv o ->
         Type_ o <> TradeTypeSell
         /\ exists m, os !! j = Some (set_ClosedAt o (Some (clock m))).
Proof.
  induction local as [|o rest IH]; intros n a os a' Hrec.
  - simpl in Hrec. injection Hrec as <- <-. split; [reflexivity|].
    intros j o Hj. destruct j; discriminate.
  - cbn [reconcile] in Hrec.
    destruct (Removed o) eqn:HR.
    + destruct (reconcile Removed srv clock n rest a) as [rest' r] eqn:Hr.
      injection Hrec as <- ->. destruct (IH _ _ _ _ Hr) as [Hlen Hall].
      split; [simpl; now rewrite Hlen|].
      intros [|j] x Hj Hv; simpl in Hj.
      * injection Hj as <-. destruct Hv as [Hv _]. congruence.
      * exact (Hall j x Hj Hv).
    + destruct (find_order srv o) as [order|] eqn:Hf.
      * destruct (reconcile Removed srv clock n rest (tally_order order a))
          as [rest' r] eqn:Hr.
        injection Hrec as <- ->. destruct (IH _ _ _ _ Hr) as [Hlen Hall].
        split; [simpl; now rewrite Hlen|].
        intros [|j] x Hj Hv; simpl in Hj.
        -- injection Hj as <-. destruct Hv as [_ Hv]. congruence.
        -- exact (Hall j x Hj Hv).
      * destruct (String.eqb (Type_ o) TradeTypeSell) eqn:Ht; [discriminate|].
        destruct (reconcile Removed srv clock (S n) rest a) as [rest' r] eqn:Hr.
        injection Hrec as <- ->. destruct (IH _ _ _ _ Hr) as [Hlen Hall].
        split; [simpl; now rewrite Hlen|].
        intros [|j] x Hj Hv; simpl in Hj.
        -- injection Hj as <-. split.
           ++ intros E. rewrite E, String.eqb_refl in Ht. discriminate.
           ++ exists n. reflexivity.
        -- exact (Hall j x Hj Hv).
Qed.

(** Outside the state of C9 (the server list is not empty, or the most
    recent local order is not a sell), a vanished sell order makes
    [UpdateOrders] fail with a consistency error. *)
Lemma UpdateOrders_vanished_sell_fails (Removed : Order -> bool)
    (srv : list Order) (clock : nat -> Time) (i : investorBase) :
  check_last_order (orders i) srv <> Panic ->
  (exists o, o ∈ orders i /\ vanished Removed srv o /\ Type_ o = TradeTypeSell) ->
  exists e i',
    UpdateOrders_body Removed (inr srv) clock i = (Failure e, i')
    /\ is_consistency_violation e = true.
Proof.
  intros Hnp Hex. unfold UpdateOrders_body.
  destruct (check_last_order (orders i) srv) as [[]|e|] eqn:Hc.
  - destruct (reconcile_vanished_sell Removed srv clock (orders i) 0 Tally0 Hex)
      as (os & o' & -> & _).
    eexists _, _. split; reflexivity.
  - exists e, i. split; [reflexivity|].
    unfold check_last_order in Hc.
    destruct (last (orders i)); [|discriminate].
    destruct (String.eqb (Type_ o) TradeTypeSell); [|discriminate].
    destruct (last srv); [|discriminate].
    destruct (negb (ID o =? ID o0)); [|discriminate].
    injection Hc as <-. reflexivity.
  - contradiction.
Qed.

(** A vanished order that is not a sell is closed with a reading of the
    clock by every successful reconciliation. *)
Lemma UpdateOrders_vanished_buy_closed (Removed : Order -> bool)
    (srv : list Order) (clock : nat -> Time) (i i' : investorBase) :
  UpdateOrders_body Removed (inr srv) clock i = (Return tt, i') ->
  forall (j : nat) (o : Order),
    orders i !! j = Some o -> vanished Removed srv o ->
    Type_ o <> TradeTypeSell
    /\ exists m, orders i' !! j = Some (set_ClosedAt o (Some (clock m))).
Proof.
  intros H j o Hj Hv.
  destruct (UpdateOrders_body_success _ _ _ _ _ H) as (os & a & _ & Hr & ->).
  destruct (reconcile_vanished_buy _ _ _ _ _ _ _ _ Hr) as [_ Hall].
  exact (Hall j o Hj Hv).
Qed.

(** C3 at the input on which the code departs from it: the investor's only
    order is an open sell, the server's list is empty, so the sell has no
    matching server order; the reconciliation does not return the
    consistency error, it panics in the check that precedes the merge. *)
Theorem UpdateOrders_vanished_sell_panics_on_empty_list :
  let o := open_order 1 TradeTypeSell 5 100 in
  orders investor_after_sell = [o]
  /\ vanished Removed_model [] o
  /\ Type_ o = TradeTypeSell
  /\ UpdateOrders_body Removed_model (inr []) (fun _ => 2000) investor_after_sell
     = (Panic, investor_after_sell)
  /\ forall e,
       fst (UpdateOrders_body Removed_model (inr []) (fun _ => 2000)
              investor_after_sell) <> Failure e.
Proof.
  repeat split; try reflexivity. intros e. vm_compute. discriminate.
Qed.

(** ** The guard in front of the rule ladder (C10) *)

(** With at least one recorded order and a last placement
    [OrderUpdateInterval] or more in the past, the policy returns before
    the ladder: no task, and the investor (its reference price included) is
    as before. *)
Lemma UpdateOrderTask_guard_closed (cfg : Config) (retired : bool) (now : Time)
    (r : Z) (i : RandomInvestor) :
  (0 < length (orders (base i)))%nat ->
  lastOrder (base i) + OrderUpdateInterval cfg <= now ->
  UpdateOrderTask cfg retired now r i = (Return None, i).
Proof.
  intros Hlen Hlate. unfold UpdateOrderTask.
  destruct retired; [reflexivity|].
  assert (H0 : (length (orders (base i)) =? 0)%nat = false)
    by (apply Nat.eqb_neq; lia).
  assert (H1 : Time_After (Time_Add (lastOrder (base i)) (OrderUpdateInterval cfg)) now
               = false)
    by (unfold Time_After, Time_Add; apply Z.ltb_ge; lia).
  rewrite H0, H1. reflexivity.
Qed.

(** A proposal is made only with the guard open. *)
Lemma UpdateOrderTask_proposal_needs_guard (cfg : Config) (retired : bool)
    (now : Time) (r : Z) (i i' : RandomInvestor) (task : Task) :
  UpdateOrderTask cfg retired now r i = (Return (Some task), i') ->
  orders (base i) = [] \/ now < lastOrder (base i) + OrderUpdateInterval cfg.
Proof.
  intros H.
  destruct (orders (base i)) as [|o os] eqn:Ho; [now left|right].
  destruct (Z.lt_ge_cases now (lastOrder (base i) + OrderUpdateInterval cfg))
    as [Hlt|Hge]; [exact Hlt|].
  rewrite UpdateOrderTask_guard_closed in H.
  - discriminate.
  - rewrite Ho. simpl. lia.
  - exact Hge.
Qed.

Lemma reconcile_length (Removed : Order -> bool) (srv : list Order)
    (clock : nat -> Time) (local : list Order) :
  forall (n : nat) (a : Tally),
    length (fst (reconcile Removed srv clock n local a)) = length local.
Proof.
  induction local as [|o rest IH]; intros n a; [reflexivity|].
  cbn [reconcile].
  destruct (Removed o).
  - specialize (IH n a).
    destruct (reconcile Removed srv clock n rest a) as [rest' r].
    simpl in *. now rewrite IH.
  - destruct (find_order srv o) as [order|].
    + specialize (IH n (tally_order order a)).
      destruct (reconcile Removed srv clock n rest (tally_order order a)) as [rest' r].
      simpl in *. now rewrite IH.
    + destruct (String.eqb (Type_ o) TradeTypeSell); [reflexivity|].
      specialize (IH (S n) a).
      destruct (reconcile Removed srv clock (S n) rest a) as [rest' r].
      simpl in *. now rewrite IH.
Qed.

Lemma close_by_id_length (id : Z) (ct : Time) (os : list Order) :
  length (fst (close_by_id id ct os)) = length os.
Proof.
  induction os as [|o rest IH]; [reflexivity|]. cbn [close_by_id].
  destruct (ID o =? id); [reflexivity|].
  destruct (close_by_id id ct rest) as [rest' found]. simpl in *. now rewrite IH.
Qed.

Lemma UpdateOrders_body_frame (Removed : Order -> bool)
    (resp : ClientError + list Order) (clock : nat -> Time) (b : investorBase) :
  same_placements b (snd (UpdateOrders_body Removed resp clock b))
  /\ taskStack (snd (UpdateOrders_body Removed resp clock b)) = taskStack b.
Proof.
  unfold UpdateOrders_body, same_placements.
  destruct resp as [err|srv]; [repeat split|].
  destruct (check_last_order (orders b) srv) as [[]| |]; [|repeat split..].
  pose proof (reconcile_length Removed srv clock (orders b) 0 Tally0) as Hlen.
  destruct (reconcile Removed srv clock 0 (orders b) Tally0) as [os [a| |]];
    simpl in *; repeat split; assumption.
Qed.

Lemma RemoveOrder_body_frame (cfg : Config) (Removed : Order -> bool)
    (order : option nat) (resp : option ClientError) (now : Time)
    (b : investorBase) :
  same_placements b (snd (RemoveOrder_body cfg Removed order resp now b))
  /\ taskStack (snd (RemoveOrder_body cfg Removed order resp now b)) = taskStack b.
Proof.
  unfold RemoveOrder_body, same_placements.
  destruct order as [k|]; [|repeat split].
  destruct (orders b !! k) as [o|]; [|repeat split].
  destruct (Removed o); [repeat split|].
  destruct resp as [err|].
  - destruct (StatusCode err) as [code|]; [|repeat split].
    destruct (code =? 404); repeat split.
  - simpl. rewrite close_by_id_length. repeat split.
Qed.

Lemma Info_body_frame (cfg : Config) (retired : bool) (now now2 : Time)
    (resp : ClientError + InfoResponse) (b : investorBase) :
  same_placements b (snd (Info_body cfg retired now resp now2 b))
  /\ (taskStack (snd (Info_body cfg retired now resp now2 b)) = taskStack b
      \/ taskStack (snd (Info_body cfg retired now resp now2 b))
         = taskStack b ++ [UpdateOrdersTask]).
Proof.
  unfold Info_body, same_placements.
  destruct retired; [repeat split; now left|].
  destruct (Time_Before now (pollingTime b)); [repeat split; now left|].
  destruct resp as [err|info]; [repeat split; now left|].
  destruct (last (ChartByHour info));
    destruct (0 <? length (TradedOrders info))%nat; simpl;
    repeat split; first [now left | now right].
Qed.

(** Induction on tasks that goes through the list of a composite. *)
Lemma Task_nested_ind (P : Task -> Prop) :
  (forall t, (forall cap ts, t <> SerialTask cap ts) -> P t) ->
  (forall cap ts, Forall P ts -> P (SerialTask cap ts)) ->
  forall t, P t.
Proof.
  intros Hleaf Hser. fix IH 1.
  intros [| | | | | ot amount price | o | | cap ts];
    try (apply Hleaf; intros; discriminate).
  apply Hser. induction ts as [|x rest IHrest]; constructor.
  - apply IH.
  - exact IHrest.
Qed.

Lemma idle_frame (cfg : Config) (now0 : Time) (len : nat) (t : Time)
    (i : RandomInvestor) (b' : investorBase) :
  idle cfg now0 len t i ->
  same_placements (base i) b' ->
  Forall (fun x => places_order x = false) (taskStack b') ->
  idle cfg now0 len t (set_base i b').
Proof.
  unfold idle, same_placements. intros (H1 & H2 & H3 & H4 & H5) [E1 E2] Hq.
  cbn [set_base base]. rewrite E1, E2. repeat split; assumption.
Qed.

Lemma no_placement_existsb (q : list Task) :
  Forall (fun x => places_order x = false) q -> existsb places_order q = false.
Proof.
  induction 1 as [|x q Hx _ IHq]; [reflexivity|].
  cbn [existsb]. now rewrite Hx, IHq.
Qed.

Section Idle.

Variable cfg : Config.
Variable Removed : Order -> bool.
Variable now0 : Time.
Variable len : nat.
Variable t : Time.
Variable envs : nat -> Env.
Hypothesis Hlate : not_before now0 envs.

(** A task that holds no placement keeps an idle investor idle. *)
Lemma run_task_idle (task : Task) :
  forall (n : nat) (i : RandomInvestor),
    places_order task = false ->
    idle cfg now0 len t i ->
    idle cfg now0 len t (snd (fst (run_task cfg Removed task envs n i))).
Proof using Hlate.
  induction task as [task Hleaf | cap ts IHts] using Task_nested_ind;
    intros n i Hno Hidle.
  - destruct task as [| | | | | ot amount price | o | | cap ts];
      cbn [run_task].
    + exact Hidle.
    + exact Hidle.
    + unfold Signin_body. destruct (e_signin (envs n)); cbn [fst snd].
      * now rewrite set_base_base.
      * apply idle_frame; [exact Hidle | split; reflexivity | apply Hidle].
    + unfold Info_task.
      destruct (Info_body_frame cfg (e_retired (envs n)) (e_now (envs n))
                  (e_now' (envs n)) (e_info (envs n)) (base i)) as [Hsp Hq].
      destruct (Info_body cfg (e_retired (envs n)) (e_now (envs n))
                  (e_info (envs n)) (e_now' (envs n)) (base i)) as [r b].
      cbn [fst snd] in *. apply idle_frame; [exact Hidle | exact Hsp |].
      destruct Hq as [-> | ->]; [apply Hidle|].
      apply Forall_app. split; [apply Hidle|]. repeat constructor.
    + unfold UpdateOrders_task.
      destruct (UpdateOrders_body_frame Removed (e_orders (envs n))
                  (e_clock (envs n)) (base i)) as [Hsp Hq].
      destruct (UpdateOrders_body Removed (e_orders (envs n))
                  (e_clock (envs n)) (base i)) as [r b].
      cbn [fst snd] in *. apply idle_frame; [exact Hidle | exact Hsp |].
      rewrite Hq. apply Hidle.
    + discriminate Hno.
    + destruct (RemoveOrder_body_frame cfg Removed o (e_delete (envs n))
                  (e_now (envs n)) (base i)) as [Hsp Hq].
      destruct (RemoveOrder_body cfg Removed o (e_delete (envs n))
                  (e_now (envs n)) (base i)) as [r b].
      cbn [fst snd] in *. apply idle_frame; [exact Hidle | exact Hsp |].
      rewrite Hq. apply Hidle.
    + unfold FixNextTask_body. rewrite UpdateOrderTask_guard_closed.
      * exact Hidle.
      * destruct Hidle as (-> & Hpos & _). exact Hpos.
      * destruct Hidle as (_ & _ & -> & Hint & _). specialize (Hlate n). lia.
    + exfalso. exact (Hleaf cap ts eq_refl).
  - cbn [run_task]. cbn [places_order] in Hno.
    generalize 0 as score. revert n i Hidle.
    induction IHts as [|x rest Hx _ IHrest]; intros n i Hidle score.
    + exact Hidle.
    + cbn [existsb] in Hno. apply orb_false_iff in Hno as [Hnx Hnrest].
      cbn [run_all]. specialize (Hx n i Hnx Hidle).
      destruct (run_task cfg Removed x envs n i) as [[r i'] n'].
      cbn [fst snd] in Hx. destruct r as [s| |]; cbn [fst snd].
      * apply IHrest; assumption.
      * exact Hx.
      * exact Hx.
Qed.

(** Over any number of ticks an idle investor stays idle, and none of the
    composites [Next] hands out holds a placement. *)
Lemma run_ticks_idle (m : nat) :
  forall (n : nat) (i : RandomInvestor),
    idle cfg now0 len t i ->
    Forall (fun x => places_order x = false)
      (fst (fst (run_ticks cfg Removed m envs n i)))
    /\ idle cfg now0 len t (snd (fst (run_ticks cfg Removed m envs n i))).
Proof using Hlate.
  induction m as [|m IH]; intros n i Hidle.
  - split; [constructor | exact Hidle].
  - cbn [run_ticks].
    destruct (e_retired (envs n)).
    + rewrite RandomInvestor_Next_retired by reflexivity. apply IH. exact Hidle.
    + destruct (e_retired' (envs n)).
      * rewrite RandomInvestor_Next_retired by reflexivity. apply IH. exact Hidle.
      * rewrite RandomInvestor_Next_live.
        set (c := SerialTask (2 + length (taskStack (base i)))
                    (InfoTask :: taskStack (base i) ++ [FixNextTaskT])).
        assert (Hc : places_order c = false).
        { unfold c. cbn [places_order existsb orb].
          rewrite existsb_app. cbn [existsb places_order orb].
          rewrite orb_false_r. apply no_placement_existsb. apply Hidle. }
        assert (Hi1 : idle cfg now0 len t
                        (set_base i (set_taskStack (base i) []))).
        { apply idle_frame; [exact Hidle | split; reflexivity | constructor]. }
        pose proof (run_task_idle c (S n) _ Hc Hi1) as Hrun.
        destruct (run_task cfg Removed c envs (S n)
                    (set_base i (set_taskStack (base i) []))) as [[r i2] n2].
        cbn [fst snd] in Hrun.
        destruct (IH n2 i2 Hrun) as [Hts Hi3].
        destruct (run_ticks cfg Removed m envs n2 i2) as [[ts i3] n3].
        cbn [fst snd] in *. split; [constructor; assumption | exact Hi3].
Qed.

End Idle.

(** C10, as stated, fails.  The investor whose only order was placed at
    time 1000 ran a tick at time 2900, when the guard of the policy was
    still open, and the policy queued a buy of 1 at the best ask of 90.  At
    time 5000 the investor has one recorded order and has been idle for
    4000, twice [OrderUpdateInterval]; [UpdateOrderTask] returns no task.
    Yet the tick at time 5000 hands out the queued placement, the server
    accepts it, and the investor ends with two recorded orders, the last
    one placed at 5000: the guard stops the policy, not a placement that
    is already queued. *)
Lemma idle_investor_places_queued_order :
  let i := investor_with_queued_placement in
  let res := run_ticks sample_cfg Removed_model 1 (fun _ => late_env) 0 i in
  (length (orders (base i)) = 1%nat
   /\ lastOrder (base i) = 1000
   /\ lastOrder (base i) + OrderUpdateInterval sample_cfg <= 5000
   /\ not_before 5000 (fun _ => late_env)
   /\ UpdateOrderTask sample_cfg false 5000 0 i = (Return None, i))
  /\ (fst (RandomInvestor_Next false false i)
      = Some (SerialTask 4 [InfoTask; AddOrderTask TradeTypeBuy 1 90;
                            UpdateOrdersTask; FixNextTaskT])
      /\ fst (fst res)
         = [SerialTask 4 [InfoTask; AddOrderTask TradeTypeBuy 1 90;
                          UpdateOrdersTask; FixNextTaskT]]
      /\ length (orders (base (snd (fst res)))) = 2%nat
      /\ lastOrder (base (snd (fst res))) = 5000)
  /\ ~ (forall (envs : nat -> Env) (m n : nat) (i : RandomInvestor),
          orders (base i) <> [] ->
          lastOrder (base i) + OrderUpdateInterval sample_cfg <= 5000 ->
          not_before 5000 envs ->
          length (orders (base (snd (fst (run_ticks sample_cfg Removed_model
                                            m envs n i)))))
          = length (orders (base i))).
Proof.
  assert (Hlate : not_before 5000 (fun _ => late_env)).
  { intros k. vm_compute. discriminate. }
  split; [|split].
  - split; [reflexivity|]. split; [reflexivity|].
    split; [vm_compute; discriminate|]. split; [exact Hlate | reflexivity].
  - vm_compute. repeat split.
  - intros H.
    specialize (H (fun _ => late_env) 1%nat 0%nat investor_with_queued_placement).
    assert (Hfalse : 2%nat = 1%nat); [|discriminate Hfalse].
    apply H; [discriminate | vm_compute; discriminate | exact Hlate].
Qed.

(** C10, amended. The policy produces a task only if the local order list
    is empty or the last successful placement is less than
    [OrderUpdateInterval] before now.  Otherwise [UpdateOrderTask] returns
    no task and leaves the investor as it was (no rung of the ladder runs,
    not even the last one, which would move the reference price).  As a
    consequence an investor with a recorded order, idle for
    [OrderUpdateInterval] or more and with no placement waiting in its
    queue, places no further order: whatever the server answers and
    however many ticks follow, while the clock does not go back, no
    composite handed out by [Next] holds a placement, the number of
    recorded orders stays the same and so does the time of the last
    placement. *)
Theorem UpdateOrderTask_guarded_by_last_placement (cfg : Config) :
  (forall (retired : bool) (now : Time) (r : Z) (i i' : RandomInvestor)
          (task : Task),
      UpdateOrderTask cfg retired now r i = (Return (Some task), i') ->
      orders (base i) = []
      \/ now < lastOrder (base i) + OrderUpdateInterval cfg)
  /\ (forall (retired : bool) (now : Time) (r : Z) (i : RandomInvestor),
        orders (base i) <> [] ->
        lastOrder (base i) + OrderUpdateInterval cfg <= now ->
        UpdateOrderTask cfg retired now r i = (Return None, i))
  /\ (forall (Removed : Order -> bool) (now0 : Time) (envs : nat -> Env)
             (m n : nat) (i : RandomInvestor),
        orders (base i) <> [] ->
        lastOrder (base i) + OrderUpdateInterval cfg <= now0 ->
        Forall (fun x => places_order x = false) (taskStack (base i)) ->
        not_before now0 envs ->
        let res := run_ticks cfg Removed m envs n i in
        Forall (fun x => places_order x = false) (fst (fst res))
        /\ length (orders (base (snd (fst res)))) = length (orders (base i))
        /\ lastOrder (base (snd (fst res))) = lastOrder (base i)).
Proof.
  split; [|split].
  - intros retired now r i i' task. apply UpdateOrderTask_proposal_needs_guard.
  - intros retired now r i Hne Hlate. apply UpdateOrderTask_guard_closed; [|exact Hlate].
    destruct (orders (base i)); [contradiction | simpl; lia].
  - intros Removed now0 envs m n i Hne Hlate Hq Henvs res.
    assert (Hidle : idle cfg now0 (length (orders (base i))) (lastOrder (base i)) i).
    { repeat split; try assumption.
      destruct (orders (base i)); [contradiction | simpl; lia]. }
    destruct (run_ticks_idle cfg Removed now0 _ _ envs Henvs m n i Hidle)
      as (Hts & Hlen & _ & Hlast & _).
    fold res in Hts, Hlen, Hlast. repeat split; assumption.
Qed.

Lemma UpdateOrderTask_guarded_witness :
  let res := run_ticks sample_cfg Removed_model 3 (fun _ => calm_env) 0
               investor_one_order in
  Forall (fun x => places_order x = false) (fst (fst res))
  /\ length (orders (base (snd (fst res)))) = 1%nat
  /\ lastOrder (base (snd (fst res))) = 1000.
Proof.
  apply (proj2 (proj2 (UpdateOrderTask_guarded_by_last_placement sample_cfg))
           Removed_model 5000 (fun _ => calm_env) 3%nat 0%nat investor_one_order).
  - discriminate.
  - vm_compute. discriminate.
  - constructor.
  - intros k. vm_compute. discriminate.
Defined.

(** With the guard open the same investor, offered the same best ask of 90,
    does place an order: the guard, not the market, is what keeps the idle
    investor from trading. *)
Lemma UpdateOrderTask_guard_open_example :
  let b := snd (Info_body sample_cfg false 1500 (e_info calm_env) 1500
                  (base investor_one_order)) in
  fst (UpdateOrderTask sample_cfg false 1500 0 (set_base investor_one_order b))
  = Return (Some (AddOrderTask TradeTypeBuy 1 90))
  /\ fst (UpdateOrderTask sample_cfg false 5000 0 (set_base investor_one_order b))
     = Return None.
Proof. split; reflexivity. Qed.

(** * Further properties of the investor *)

(** ** The rule ladder as a whole *)

Lemma rand_Int63n_Some (r n x : Z) :
  rand_Int63n r n = Some x -> 0 < n /\ 0 <= x < n.
Proof.
  unfold rand_Int63n. destruct (Z.leb_spec n 0); [discriminate|].
  intros [= <-]. split; [lia|]. apply Z.mod_pos_bound. lia.
Qed.

Lemma rand_Int63n_None (r n : Z) : rand_Int63n r n = None -> n <= 0.
Proof.
  unfold rand_Int63n. destruct (Z.leb_spec n 0); [intros _; lia | discriminate].
Qed.

(** The quotient the fourth rung draws from: with a positive price that
    the credit covers it is at least one, and that many units are
    affordable. *)
Lemma quot_affordable (c p : Z) :
  0 < p -> p <= c -> 0 < Z.quot c p <= c /\ Z.quot c p * p <= c.
Proof.
  intros Hp Hc. rewrite Z.quot_div_nonneg by lia.
  split; [split|].
  - apply Z.div_str_pos. lia.
  - apply Z.div_le_upper_bound; [lia|]. nia.
  - rewrite Z.mul_comm. apply Z.mul_div_le. lia.
Qed.

(** Go's [(a + b) / 2] lies between [a] and [b]. *)
Lemma quot2_between (a b : Z) :
  Z.min a b <= Z.quot (a + b) 2 <= Z.max a b.
Proof. Z.to_euclidean_division_equations. lia. Qed.

Ltac ladder_goal :=
  repeat match goal with
  | |- context [if ?c then _ else _] => destruct c eqn:?
  | |- context [let '(_, _) := ?p in _] => destruct p eqn:?
  | |- context [match rand_Int63n ?r ?n with _ => _ end] =>
      destruct (rand_Int63n r n) eqn:?
  end.

Ltac ladder_hyp H :=
  repeat match type of H with
  | context [if ?c then _ else _] => destruct c eqn:?
  | context [let '(_, _) := ?p in _] => destruct p eqn:?
  | context [match rand_Int63n ?r ?n with _ => _ end] =>
      destruct (rand_Int63n r n) eqn:?
  end.

Ltac bools :=
  repeat match goal with
  | H : (_ && _) = true |- _ => apply andb_prop in H as [? ?]
  | H : (_ <? _) = true |- _ => apply Z.ltb_lt in H
  | H : (_ <? _) = false |- _ => apply Z.ltb_ge in H
  | H : (_ <=? _) = true |- _ => apply Z.leb_le in H
  | H : (_ <=? _) = false |- _ => apply Z.leb_gt in H
  | H : (_ =? _) = true |- _ => apply Z.eqb_eq in H
  | H : (_ =? _) = false |- _ => apply Z.eqb_neq in H
  | H : rand_Int63n _ _ = Some _ |- _ => apply rand_Int63n_Some in H as [? ?]
  | H : rand_Int63n _ _ = None |- _ => apply rand_Int63n_None in H
  end.

(** X1. With a positive unit amount the policy never panics: every bound
    handed to [rand.Int63n] is positive, on the fourth and fifth rung by
    their own conditions, on the sixth and seventh because the bound is the
    unit amount.  With a unit amount that is not positive the sixth rung
    does panic. *)
Theorem UpdateOrderTask_never_panics (cfg : Config) (now : Time) (r : Z)
    (i : RandomInvestor) :
  (0 < unitamount i ->
   forall retired, exists res,
     fst (UpdateOrderTask cfg retired now r i) = Return res)
  /\ (unitamount i <= 0 ->
      (0 < length (orders (base i)) < OrderCap)%nat ->
      now < lastOrder (base i) + OrderUpdateInterval cfg ->
      lowestSellPrice (base i) = 0 ->
      highestBuyPrice (base i) = 0 ->
      unitamount i < logicalIsu (base i) ->
      UpdateOrderTask cfg false now r i = (Panic, i)).
Proof.
  split.
  - intros Hu retired. unfold UpdateOrderTask.
    ladder_goal; cbn [fst]; try (eexists; reflexivity); exfalso; bools;
      try lia.
    pose proof (quot_affordable (logicalCredit (base i)) (lowestSellPrice (base i))).
    unfold div64 in *. lia.
  - intros Hu [Hpos Hcap] Hfresh Hlow Hhigh Hisu. unfold UpdateOrderTask.
    assert (H0 : (length (orders (base i)) =? 0)%nat = false)
      by (apply Nat.eqb_neq; lia).
    assert (H1 : Time_After (Time_Add (lastOrder (base i)) (OrderUpdateInterval cfg)) now
                 = true)
      by (unfold Time_After, Time_Add; apply Z.ltb_lt; lia).
    assert (H2 : (OrderCap <=? length (orders (base i)))%nat = false)
      by (apply Nat.leb_gt; lia).
    assert (H3 : (unitamount i <? logicalIsu (base i)) = true)
      by (apply Z.ltb_lt; lia).
    rewrite H0, H1, H2, Hlow, Hhigh, H3. cbn.
    unfold rand_Int63n. destruct (Z.leb_spec (unitamount i) 0); [reflexivity | lia].
Qed.

Lemma UpdateOrderTask_never_panics_witness :
  (exists res,
     fst (UpdateOrderTask sample_cfg false 1500 7 investor_one_order) = Return res)
  /\ UpdateOrderTask sample_cfg false 1500 7
       (mkRandomInvestor (set_balances (base investor_one_order) 0 0 10000 10) 0 100)
     = (Panic,
        mkRandomInvestor (set_balances (base investor_one_order) 0 0 10000 10) 0 100).
Proof.
  split.
  - apply (proj1 (UpdateOrderTask_never_panics sample_cfg 1500 7 investor_one_order)).
    vm_compute. reflexivity.
  - apply (proj2 (UpdateOrderTask_never_panics sample_cfg 1500 7
             (mkRandomInvestor (set_balances (base investor_one_order) 0 0 10000 10)
                0 100))).
    + vm_compute. discriminate.
    + vm_compute. lia.
    + vm_compute. reflexivity.
    + reflexivity.
    + reflexivity.
    + vm_compute. reflexivity.
Defined.

(** X2. Every placement the policy proposes is a sell or a buy of at least
    one unit and at most the unit amount, and a proposed sell never exceeds
    the available inventory. *)
Theorem UpdateOrderTask_amount_bounds (cfg : Config) (retired : bool)
    (now : Time) (r : Z) (i i' : RandomInvestor) (ot : string)
    (amount price : Z) :
  0 < unitamount i < 2 ^ 63 ->
  UpdateOrderTask cfg retired now r i
  = (Return (Some (AddOrderTask ot amount price)), i') ->
  1 <= amount <= unitamount i
  /\ (ot = TradeTypeSell \/ ot = TradeTypeBuy)
  /\ (ot = TradeTypeSell -> amount <= logicalIsu (base i)).
Proof.
  intros Hu H. unfold UpdateOrderTask in H.
  pose proof (wrap64_range (credit (base i) - resvedCredit (base i))) as Hc.
  pose proof (wrap64_range (isu (base i) - resvedIsu (base i))) as Hi.
  fold (sub64 (credit (base i)) (resvedCredit (base i))) in Hc.
  fold (sub64 (isu (base i)) (resvedIsu (base i))) in Hi.
  fold (logicalCredit (base i)) in Hc. fold (logicalIsu (base i)) in Hi.
  unfold in_int64 in Hc, Hi.
  ladder_hyp H; try discriminate; injection H as <- <- <- <-; bools;
    unfold cap_amount, add64.
  - repeat split; [lia | lia | now left | lia].
  - repeat split; [lia | lia | now right | discriminate].
  - pose proof (quot_affordable (logicalCredit (base i)) (lowestSellPrice (base i))
                  ltac:(lia) ltac:(lia)) as [Hq _].
    unfold div64 in *. rewrite wrap64_small by (unfold in_int64; lia).
    destruct (Z.ltb_spec (unitamount i) (z + 1));
      (repeat split; [lia | lia | now right | discriminate]).
  - rewrite wrap64_small by (unfold in_int64; lia).
    destruct (Z.ltb_spec (unitamount i) (z + 1));
      (repeat split; [lia | lia | now left | lia]).
  - rewrite wrap64_small by (unfold in_int64; lia).
    repeat split; [lia | lia | now left | lia].
  - rewrite wrap64_small by (unfold in_int64; lia).
    repeat split; [lia | lia | now left | lia].
  - rewrite wrap64_small by (unfold in_int64; lia).
    repeat split; [lia | lia | now right | discriminate].
  - rewrite wrap64_small by (unfold in_int64; lia).
    repeat split; [lia | lia | now right | discriminate].
Qed.

Lemma UpdateOrderTask_amount_bounds_witness :
  1 <= 1 <= unitamount investor_after_settled_sell
  /\ (TradeTypeBuy = TradeTypeSell \/ TradeTypeBuy = TradeTypeBuy)
  /\ (TradeTypeBuy = TradeTypeSell ->
      1 <= logicalIsu (base investor_after_settled_sell)).
Proof.
  apply (UpdateOrderTask_amount_bounds sample_cfg false 2000 0
           investor_after_settled_sell investor_after_settled_sell
           TradeTypeBuy 1 50).
  - vm_compute. split; reflexivity.
  - reflexivity.
Defined.

(** X3. When the best ask is known, below the reference price and covered
    by the available credit, an investor with fewer than [OrderCap] recorded
    orders, at least one, and a fresh last placement buys at the best ask,
    whatever the best bid and the inventory are, and the whole order is
    affordable: amount × price does not exceed the available credit. *)
Theorem UpdateOrderTask_buys_at_best_ask (cfg : Config) (now : Time) (r : Z)
    (i : RandomInvestor) :
  (0 < length (orders (base i)) < OrderCap)%nat ->
  now < lastOrder (base i) + OrderUpdateInterval cfg ->
  0 < lowestSellPrice (base i) < unitprice i ->
  lowestSellPrice (base i) <= logicalCredit (base i) ->
  exists amount,
    UpdateOrderTask cfg false now r i
    = (Return (Some (AddOrderTask TradeTypeBuy amount (lowestSellPrice (base i)))), i)
    /\ amount <= Z.max 1 (unitamount i)
    /\ (0 < unitamount i -> 1 <= amount)
    /\ (0 <= amount -> amount * lowestSellPrice (base i) <= logicalCredit (base i)).
Proof.
  intros [Hpos Hcap] Hfresh [Hlow Hup] Hcred. unfold UpdateOrderTask.
  assert (H0 : (length (orders (base i)) =? 0)%nat = false)
    by (apply Nat.eqb_neq; lia).
  assert (H1 : Time_After (Time_Add (lastOrder (base i)) (OrderUpdateInterval cfg)) now
               = true)
    by (unfold Time_After, Time_Add; apply Z.ltb_lt; lia).
  assert (H2 : (OrderCap <=? length (orders (base i)))%nat = false)
    by (apply Nat.leb_gt; lia).
  assert (H3 : (0 <? lowestSellPrice (base i)) = true) by (apply Z.ltb_lt; lia).
  assert (H4 : (lowestSellPrice (base i) <? unitprice i) = true)
    by (apply Z.ltb_lt; lia).
  assert (H5 : (lowestSellPrice (base i) <=? logicalCredit (base i)) = true)
    by (apply Z.leb_le; lia).
  rewrite H0, H1, H2, H3, H4, H5. cbn [orb andb negb].
  pose proof (quot_affordable _ _ Hlow Hcred) as [[Hq1 Hq2] Hq3].
  pose proof (wrap64_range (credit (base i) - resvedCredit (base i))) as Hc.
  fold (sub64 (credit (base i)) (resvedCredit (base i))) in Hc.
  fold (logicalCredit (base i)) in Hc. unfold in_int64 in Hc.
  unfold div64.
  destruct (rand_Int63n r (Z.quot (logicalCredit (base i)) (lowestSellPrice (base i))))
    as [x|] eqn:Hr.
  - apply rand_Int63n_Some in Hr as [_ Hx].
    eexists. split; [reflexivity|].
    unfold cap_amount, add64. rewrite wrap64_small by (unfold in_int64; lia).
    destruct (Z.ltb_spec (unitamount i) (x + 1)); repeat split; try lia; intros; nia.
  - apply rand_Int63n_None in Hr. lia.
Qed.

Lemma UpdateOrderTask_buys_at_best_ask_witness :
  exists amount,
    UpdateOrderTask sample_cfg false 2000 0 investor_after_settled_sell
    = (Return (Some (AddOrderTask TradeTypeBuy amount 50)),
       investor_after_settled_sell)
    /\ amount * 50 <= 1500.
Proof.
  destruct (UpdateOrderTask_buys_at_best_ask sample_cfg 2000 0
              investor_after_settled_sell) as (amount & H & _ & Hone & Haff).
  - vm_compute. lia.
  - vm_compute. reflexivity.
  - vm_compute. split; reflexivity.
  - vm_compute. discriminate.
  - exists amount. split; [exact H|].
    change (amount * lowestSellPrice (base investor_after_settled_sell)
            <= logicalCredit (base investor_after_settled_sell)).
    apply Haff. specialize (Hone ltac:(vm_compute; reflexivity)). lia.
Defined.

Lemma UpdateOrderTask_keeps_base (cfg : Config) (retired : bool) (now : Time)
    (r : Z) (i : RandomInvestor) :
  base (snd (UpdateOrderTask cfg retired now r i)) = base i.
Proof. unfold UpdateOrderTask. ladder_goal; reflexivity. Qed.

(** X4. The policy only decides: it never changes the investor's base
    state (balances, orders, market view, queue) nor the unit amount, and
    whenever it proposes a task it changes nothing at all.  The reference
    price moves only on the last rung, when no task is proposed and a
    positive last trade price is known; it then becomes Go's
    [(latestPrice + unitprice) / 2], which lies between the two when their
    sum fits in an [int64]. *)
Theorem UpdateOrderTask_frame (cfg : Config) (retired : bool) (now : Time)
    (r : Z) (i : RandomInvestor) :
  let res := fst (UpdateOrderTask cfg retired now r i) in
  let i' := snd (UpdateOrderTask cfg retired now r i) in
  base i' = base i
  /\ unitamount i' = unitamount i
  /\ (forall t, res = Return (Some t) -> i' = i)
  /\ (unitprice i' <> unitprice i ->
      res = Return None
      /\ 0 < latestTradePrice (base i)
      /\ unitprice i' = div64 (add64 (latestTradePrice (base i)) (unitprice i)) 2
      /\ (in_int64 (latestTradePrice (base i) + unitprice i) ->
          Z.min (latestTradePrice (base i)) (unitprice i) <= unitprice i'
          <= Z.max (latestTradePrice (base i)) (unitprice i))).
Proof.
  unfold UpdateOrderTask.
  ladder_goal; cbn [fst snd set_unitprice base unitamount unitprice];
    (split; [reflexivity|]); (split; [reflexivity|]);
    (split; [first [ reflexivity | intros t; discriminate ] |]);
    try (intros Hne; exfalso; apply Hne; reflexivity).
  intros _. unfold LatestTradePrice in *. bools.
  repeat split; try assumption;
    unfold div64, add64; rewrite wrap64_small by assumption;
    apply quot2_between.
Qed.

(** X5. The task built by [FixNextTask] never fails, and what it queues
    is decided by the policy alone.  Whenever the policy proposes a task,
    the investor is left as it was except for its queue, at the end of
    which exactly two tasks have been added: the proposal, which is a
    placement or a cancellation, followed by a reconciliation.  Whenever
    the policy proposes nothing, the base state, queue included, is
    unchanged.  So the queue changes exactly when the policy proposes a
    task. *)
Theorem FixNextTask_queues_proposal_then_reconciliation (cfg : Config)
    (retired : bool) (now : Time) (r : Z) (i : RandomInvestor) :
  let res := fst (FixNextTask_body cfg retired now r i) in
  let i' := snd (FixNextTask_body cfg retired now r i) in
  (forall e, res <> Failure e)
  /\ (forall t,
        fst (UpdateOrderTask cfg retired now r i) = Return (Some t) ->
        FixNextTask_body cfg retired now r i
        = (Return tt,
           set_base i
             (set_taskStack (base i)
                (taskStack (base i) ++ [t; UpdateOrdersTask])))
        /\ ((exists ot amount price, t = AddOrderTask ot amount price)
            \/ exists o, t = RemoveOrderTask o))
  /\ ((forall t, fst (UpdateOrderTask cfg retired now r i) <> Return (Some t)) ->
      base i' = base i)
  /\ (taskStack (base i') <> taskStack (base i)
      <-> exists t, fst (UpdateOrderTask cfg retired now r i) = Return (Some t)).
Proof.
  unfold FixNextTask_body.
  pose proof (UpdateOrderTask_keeps_base cfg retired now r i) as Hb.
  assert (Hgrow : forall (q : list Task) (t : Task),
             q ++ [t; UpdateOrdersTask] <> q).
  { intros q t E. apply (f_equal (@length Task)) in E.
    rewrite length_app in E. simpl in E. lia. }
  destruct (UpdateOrderTask cfg retired now r i) as [[[t|]| |] i1] eqn:Hu;
    cbn [fst snd] in *.
  - split; [discriminate|]. split; [|split].
    + intros t' [= <-]. split.
      * f_equal. unfold UpdateOrderTask in Hu.
        ladder_hyp Hu; try discriminate; injection Hu as _ <-;
          unfold pushNextTask; cbn; rewrite <- app_assoc; reflexivity.
      * unfold UpdateOrderTask in Hu.
        ladder_hyp Hu; try discriminate; injection Hu as <- _;
          first [ left; eexists _, _, _; reflexivity
                | right; eexists; reflexivity ].
    + intros Hno. exfalso. exact (Hno t eq_refl).
    + cbn [set_base base]. rewrite pushNextTask_fifo, Hb. split.
      * intros _. exists t. reflexivity.
      * intros _. apply Hgrow.
  - split; [discriminate|]. split; [intros t; discriminate|].
    split; [intros _; exact Hb|]. rewrite Hb. split.
    + intros Hne. exfalso. apply Hne. reflexivity.
    + intros [t Ht]. discriminate Ht.
  - exfalso. unfold UpdateOrderTask in Hu. ladder_hyp Hu; discriminate.
  - split; [discriminate|]. split; [intros t; discriminate|].
    split; [intros _; exact Hb|]. rewrite Hb. split.
    + intros Hne. exfalso. apply Hne. reflexivity.
    + intros [t Ht]. discriminate Ht.
Qed.

(** X6. The first order is always placed: for an investor that is not
    retired and has no recorded order, whatever the time and the market
    view, the policy-decision task queues a placement of the unit amount at
    the reference price, a sell if the available inventory exceeds the unit
    amount and a buy otherwise, followed by a reconciliation. *)
Theorem FixNextTask_first_order (cfg : Config) (now : Time) (r : Z)
    (i : RandomInvestor) :
  orders (base i) = [] ->
  FixNextTask_body cfg false now r i
  = (Return tt,
     set_base i
       (set_taskStack (base i)
          (taskStack (base i)
           ++ [AddOrderTask
                 (if unitamount i <? logicalIsu (base i)
                  then TradeTypeSell else TradeTypeBuy)
                 (unitamount i) (unitprice i);
               UpdateOrdersTask]))).
Proof.
  intros Hnil. unfold FixNextTask_body, UpdateOrderTask. rewrite Hnil.
  cbn [length Nat.eqb orb negb Nat.leb OrderCap andb].
  destruct (unitamount i <? logicalIsu (base i));
    unfold pushNextTask; cbn; rewrite <- app_assoc; reflexivity.
Qed.

Lemma FixNextTask_first_order_witness :
  taskStack (base (snd (FixNextTask_body sample_cfg false 0 0
                          (NewRandomInvestor 10000 0 5 100))))
  = [AddOrderTask TradeTypeBuy 5 100; UpdateOrdersTask].
Proof.
  rewrite (FixNextTask_first_order sample_cfg 0 0 (NewRandomInvestor 10000 0 5 100));
    reflexivity.
Defined.

Lemma UpdateOrderTask_frame_witness :
  unitprice (snd (UpdateOrderTask sample_cfg false 1500 0 investor_repricing)) = 97
  /\ 95 <= unitprice (snd (UpdateOrderTask sample_cfg false 1500 0 investor_repricing))
     <= 100.
Proof.
  destruct (UpdateOrderTask_frame sample_cfg false 1500 0 investor_repricing)
    as (_ & _ & _ & H).
  destruct H as (_ & _ & E & Hb).
  - vm_compute. discriminate.
  - split; [rewrite E; reflexivity|].
    apply Hb. vm_compute. split; [discriminate | reflexivity].
Defined.

Lemma FixNextTask_queues_witness :
  taskStack (base (snd (FixNextTask_body sample_cfg false 2000 0
                          investor_after_settled_sell)))
  = taskStack (base investor_after_settled_sell)
    ++ [AddOrderTask TradeTypeBuy 1 50; UpdateOrdersTask].
Proof.
  pose proof (FixNextTask_queues_proposal_then_reconciliation sample_cfg false
                2000 0 investor_after_settled_sell) as H0.
  cbv zeta in H0. destruct H0 as (_ & H & _).
  destruct (H (AddOrderTask TradeTypeBuy 1 50)) as [E _].
  - vm_compute. reflexivity.
  - rewrite E. reflexivity.
Defined.

(** ** The queue and the composites *)

Lemma taskStack_push_all (ts : list Task) (i : investorBase) :
  taskStack (push_all ts i) = taskStack i ++ ts.
Proof.
  unfold push_all. revert i. induction ts as [|t ts IH]; intros i; simpl.
  - now rewrite app_nil_r.
  - rewrite IH. unfold pushNextTask. simpl. now rewrite <- app_assoc.
Qed.

(** X7. Every queued task is handed out exactly once: the tasks queued
    after a call of [Next] are what the following call returns, between a
    fresh poll and the policy decision and in the order queued; nothing
    queued before the first call comes back, and the queue is empty
    again. *)
Theorem Next_hands_out_each_task_once (ts : list Task) (i : RandomInvestor) :
  let i1 := snd (RandomInvestor_Next false false i) in
  let i2 := set_base i1 (push_all ts (base i1)) in
  RandomInvestor_Next false false i2
  = (Some (SerialTask (2 + length ts) (InfoTask :: ts ++ [FixNextTaskT])),
     set_base i2 (set_taskStack (base i2) []))
  /\ taskStack (base (snd (RandomInvestor_Next false false i2))) = [].
Proof.
  intros i1 i2.
  assert (Hq : taskStack (base i2) = ts).
  { unfold i2, i1. rewrite RandomInvestor_Next_live. cbn [snd set_base base].
    rewrite taskStack_push_all. reflexivity. }
  rewrite RandomInvestor_Next_live, Hq. split; reflexivity.
Qed.

(** X8. A composite is created with exactly the capacity it ends up using:
    the six tasks of [Start] (landing page, poll, sign-up, sign-in,
    reconciliation, policy decision) in a composite of capacity 6, and the
    [2 + len(taskStack)] tasks of [Next]. *)
Theorem composites_fill_their_capacity (i : RandomInvestor) :
  fst (RandomInvestor_Start i)
  = SerialTask 6 [TopTask; InfoTask; SignupTask; SigninTask; UpdateOrdersTask;
                  FixNextTaskT]
  /\ isStarted (base (snd (RandomInvestor_Start i))) = true
  /\ forall cap tasks,
       (fst (RandomInvestor_Start i) = SerialTask cap tasks
        \/ fst (RandomInvestor_Next false false i) = Some (SerialTask cap tasks)) ->
       length tasks = cap.
Proof.
  split; [reflexivity|]. split; [reflexivity|].
  intros cap tasks [H | H].
  - injection H as <- <-. reflexivity.
  - rewrite RandomInvestor_Next_live in H. injection H as <- <-.
    cbn [length]. rewrite length_app. simpl. lia.
Qed.

Lemma composites_fill_their_capacity_witness :
  length [InfoTask; UpdateOrdersTask; FixNextTaskT] = 3%nat.
Proof.
  apply (proj2 (proj2 (composites_fill_their_capacity
                         (set_base investor_one_order
                            (pushNextTask (base investor_one_order) UpdateOrdersTask))))).
  right. reflexivity.
Defined.

(** ** Recorded orders are never dropped, reordered or renumbered *)

Lemma find_order_ID (srv : list Order) (o ro : Order) :
  find_order srv o = Some ro -> ID ro = ID o.
Proof.
  unfold find_order. intros H. apply find_some in H as [_ H].
  now apply Z.eqb_eq in H.
Qed.

Lemma reconcile_ids (Removed : Order -> bool) (srv : list Order)
    (clock : nat -> Time) (local : list Order) :
  forall (n : nat) (a : Tally),
    map ID (fst (reconcile Removed srv clock n local a)) = map ID local.
Proof.
  induction local as [|o rest IH]; intros n a; [reflexivity|].
  cbn [reconcile].
  destruct (Removed o).
  - specialize (IH n a).
    destruct (reconcile Removed srv clock n rest a) as [rest' r].
    simpl in *. now rewrite IH.
  - destruct (find_order srv o) as [order|] eqn:Hf.
    + specialize (IH n (tally_order order a)).
      destruct (reconcile Removed srv clock n rest (tally_order order a)) as [rest' r].
      simpl in *. now rewrite IH, (find_order_ID _ _ _ Hf).
    + destruct (String.eqb (Type_ o) TradeTypeSell); [reflexivity|].
      specialize (IH (S n) a).
      destruct (reconcile Removed srv clock (S n) rest a) as [rest' r].
      simpl in *. now rewrite IH.
Qed.

Lemma close_by_id_ids (id : Z) (ct : Time) (os : list Order) :
  map ID (fst (close_by_id id ct os)) = map ID os.
Proof.
  induction os as [|o rest IH]; [reflexivity|]. cbn [close_by_id].
  destruct (ID o =? id); [reflexivity|].
  destruct (close_by_id id ct rest) as [rest' found]. simpl in *. now rewrite IH.
Qed.

(** X9. Whatever the server and the client answer, no task body drops,
    reorders or renumbers a recorded order: a reconciliation, a
    cancellation and a poll leave the sequence of order ids as it is (also
    when they fail half-way), and a placement leaves it as it is or appends
    the id of the order the server returned. *)
Theorem order_ids_only_grow (cfg : Config) (Removed : Order -> bool)
    (i : investorBase) :
  (forall resp clock,
      order_ids (snd (UpdateOrders_body Removed resp clock i)) = order_ids i)
  /\ (forall order resp now,
        order_ids (snd (RemoveOrder_body cfg Removed order resp now i))
        = order_ids i)
  /\ (forall retired now resp now2,
        order_ids (snd (Info_body cfg retired now resp now2 i)) = order_ids i)
  /\ (forall resp now,
        order_ids (snd (AddOrder_body resp now i))
        = order_ids i
          ++ match resp, fst (AddOrder_body resp now i) with
             | inr order, Return _ => [ID order]
             | _, _ => []
             end).
Proof.
  unfold order_ids. repeat split.
  - intros resp clock. unfold UpdateOrders_body.
    destruct resp as [err|srv]; [reflexivity|].
    destruct (check_last_order (orders i) srv) as [[]| |]; try reflexivity.
    pose proof (reconcile_ids Removed srv clock (orders i) 0 Tally0) as H.
    destruct (reconcile Removed srv clock 0 (orders i) Tally0) as [os [a| |]];
      exact H.
  - intros order resp now. unfold RemoveOrder_body.
    destruct order as [k|]; [|reflexivity].
    destruct (orders i !! k) as [o|]; [|reflexivity].
    destruct (Removed o); [reflexivity|].
    destruct resp as [err|].
    + destruct (StatusCode err) as [code|]; [|reflexivity].
      destruct (code =? 404); reflexivity.
    + cbn [snd set_orders orders]. apply close_by_id_ids.
  - intros retired now resp now2. unfold Info_body.
    destruct retired; [reflexivity|].
    destruct (Time_Before now (pollingTime i)); [reflexivity|].
    destruct resp as [err|info]; [reflexivity|].
    destruct (last (ChartByHour info));
      destruct (0 <? length (TradedOrders info))%nat; reflexivity.
  - intros resp now. unfold AddOrder_body.
    destruct resp as [err|order].
    + destruct (-1 <? strings_Index (Error_ err) insufficient_balance_msg);
        cbn; now rewrite app_nil_r.
    + cbn. now rewrite map_app.
Qed.

(** ** Cancellation *)

Lemma close_by_id_spec (id : Z) (ct : Time) (os : list Order) (k : nat)
    (o : Order) :
  os !! k = Some o -> ID o = id ->
  exists j oj,
    (j <= k)%nat /\ os !! j = Some oj /\ ID oj = id
    /\ (forall j' oj', (j' < j)%nat -> os !! j' = Some oj' -> ID oj' <> id)
    /\ close_by_id id ct os = (<[j := set_ClosedAt oj (Some ct)]> os, true).
Proof.
  revert k. induction os as [|x rest IH]; intros k Hk Hid; [discriminate|].
  cbn [close_by_id]. destruct (Z.eqb_spec (ID x) id) as [Hx|Hx].
  - exists 0%nat, x. repeat split; try assumption; try lia.
  - destruct k as [|k]; simpl in Hk.
    + injection Hk as ->. contradiction.
    + destruct (IH k Hk Hid) as (j & oj & Hle & Hj & Hoj & Hfirst & Hc).
      exists (S j), oj. rewrite Hc. repeat split; try assumption; try lia.
      intros [|j'] oj' Hlt Hj'; simpl in Hj'.
      * injection Hj' as <-. exact Hx.
      * apply (Hfirst j' oj'); [lia | exact Hj'].
Qed.

(** X10. A cancellation that the server accepts closes, with the current
    time, the first recorded order that has the id of the captured order;
    that order is found at or before the captured one, so the loop of
    [RemoveOrder] always finds it (its not-found warning cannot occur).
    Every other order and every other field is left as it was, and the
    task scores [DeleteOrdersScore]. *)
Theorem RemoveOrder_closes_first_order_with_id (cfg : Config)
    (Removed : Order -> bool) (k : nat) (o : Order) (now : Time)
    (i : investorBase) :
  orders i !! k = Some o ->
  Removed o = false ->
  exists j oj,
    (j <= k)%nat /\ orders i !! j = Some oj /\ ID oj = ID o
    /\ (forall j' oj', (j' < j)%nat -> orders i !! j' = Some oj' -> ID oj' <> ID o)
    /\ snd (close_by_id (ID o) now (orders i)) = true
    /\ RemoveOrder_body cfg Removed (Some k) None now i
       = (Return (DeleteOrdersScore cfg),
          set_orders i (<[j := set_ClosedAt oj (Some now)]> (orders i))).
Proof.
  intros Hk HR.
  destruct (close_by_id_spec (ID o) now (orders i) k o Hk eq_refl)
    as (j & oj & Hle & Hj & Hoj & Hfirst & Hc).
  exists j, oj. repeat split; try assumption.
  - now rewrite Hc.
  - unfold RemoveOrder_body. rewrite Hk, HR, Hc. reflexivity.
Qed.

Lemma RemoveOrder_closes_witness :
  exists j oj,
    orders (base investor_with_five_orders) !! j = Some oj
    /\ RemoveOrder_body sample_cfg Removed_model (Some 4%nat) None 2500
         (base investor_with_five_orders)
       = (Return 5,
          set_orders (base investor_with_five_orders)
            (<[j := set_ClosedAt oj (Some 2500)]>
               (orders (base investor_with_five_orders)))).
Proof.
  destruct (RemoveOrder_closes_first_order_with_id sample_cfg Removed_model
              4%nat (open_order 5 TradeTypeBuy 1 96) 2500
              (base investor_with_five_orders))
    as (j & oj & _ & Hj & _ & _ & _ & H).
  - reflexivity.
  - reflexivity.
  - exists j, oj. split; assumption.
Defined.

(** X11. A cancellation changes the investor only when the server accepted
    it.  For an order that is already removed the client is not asked at
    all and the score is 0; a 404 from the server is no error and scores 0;
    any other error of the client is returned as it is.  In all these cases
    the investor is left untouched, and a nil pointer is a panic. *)
Theorem RemoveOrder_without_effect (cfg : Config) (Removed : Order -> bool)
    (k : nat) (o : Order) (now : Time) (i : investorBase) :
  orders i !! k = Some o ->
  (Removed o = true ->
   forall resp, RemoveOrder_body cfg Removed (Some k) resp now i = (Return 0, i))
  /\ (Removed o = false ->
      forall err,
        RemoveOrder_body cfg Removed (Some k) (Some err) now i
        = (if match StatusCode err with
              | Some code => code =? 404
              | None => false
              end
           then Return 0 else Failure (ErrClient err), i))
  /\ (forall resp, RemoveOrder_body cfg Removed None resp now i = (Panic, i)).
Proof.
  intros Hk. unfold RemoveOrder_body. rewrite Hk. split; [|split].
  - intros -> resp. reflexivity.
  - intros -> err. destruct (StatusCode err) as [code|]; [|reflexivity].
    destruct (code =? 404); reflexivity.
  - intros resp. reflexivity.
Qed.

Lemma RemoveOrder_without_effect_witness :
  RemoveOrder_body sample_cfg Removed_model (Some 0%nat)
    (Some (mkClientError "not found" (Some 404))) 2500
    (base investor_with_five_orders)
  = (Return 0, base investor_with_five_orders).
Proof.
  apply (proj1 (proj2 (RemoveOrder_without_effect sample_cfg Removed_model 0%nat
                         (open_order 1 TradeTypeBuy 1 100) 2500
                         (base investor_with_five_orders) eq_refl))
           eq_refl (mkClientError "not found" (Some 404))).
Defined.

(** ** Polling *)

(** X12. A poll that is due (the investor is not retired and now is not
    before [pollingTime]) and that the server answers scores
    [GetInfoScore], takes the best ask, the best bid and the cursor from
    the answer, takes the last trade price from the last hourly candle if
    there is one and keeps it otherwise, queues one reconciliation exactly
    when the answer reports traded orders, and sets the next poll to
    [PollingInterval] after its second reading of the clock.  Until then
    every further poll is a no-op.  A poll the client fails is returned as
    a failure and changes nothing, so it is due again at once. *)
Theorem Info_success_then_rate_limited (cfg : Config) (now now2 : Time)
    (info : InfoResponse) (i : investorBase) :
  pollingTime i <= now ->
  let i' := snd (Info_body cfg false now (inr info) now2 i) in
  fst (Info_body cfg false now (inr info) now2 i) = Return (GetInfoScore cfg)
  /\ lowestSellPrice i' = LowestSellPrice info
  /\ highestBuyPrice i' = HighestBuyPrice info
  /\ lastCursor i' = Cursor info
  /\ latestTradePrice i'
     = match last (ChartByHour info) with
       | Some c => Close c
       | None => latestTradePrice i
       end
  /\ taskStack i'
     = taskStack i
       ++ match TradedOrders info with [] => [] | _ :: _ => [UpdateOrdersTask] end
  /\ pollingTime i' = now2 + PollingInterval cfg
  /\ (forall retired t resp t2,
        t < now2 + PollingInterval cfg ->
        Info_body cfg retired t resp t2 i' = (Return 0, i'))
  /\ (forall err,
        Info_body cfg false now (inl err) now2 i = (Failure (ErrClient err), i)).
Proof.
  intros Hdue i'.
  assert (Hb : Time_Before now (pollingTime i) = false)
    by (unfold Time_Before; apply Z.ltb_ge; lia).
  assert (Hp : pollingTime i' = now2 + PollingInterval cfg).
  { unfold i', Info_body. rewrite Hb.
    destruct (last (ChartByHour info));
      destruct (0 <? length (TradedOrders info))%nat; reflexivity. }
  unfold i', Info_body in *. rewrite Hb in *.
  repeat split.
  - destruct (last (ChartByHour info));
      destruct (0 <? length (TradedOrders info))%nat; reflexivity.
  - destruct (last (ChartByHour info));
      destruct (0 <? length (TradedOrders info))%nat; reflexivity.
  - destruct (last (ChartByHour info));
      destruct (0 <? length (TradedOrders info))%nat; reflexivity.
  - destruct (last (ChartByHour info));
      destruct (0 <? length (TradedOrders info))%nat; reflexivity.
  - destruct (last (ChartByHour info)); destruct (TradedOrders info);
      cbn; rewrite ?app_nil_r; reflexivity.
  - exact Hp.
  - intros retired t resp t2 Ht. cbn [snd] in *.
    destruct retired; [reflexivity|].
    unfold Time_Before. rewrite Hp.
    destruct (Z.ltb_spec t (now2 + PollingInterval cfg)); [reflexivity | lia].
Qed.

Lemma Info_success_then_rate_limited_witness :
  let i' := snd (Info_body sample_cfg false 1700
                   (inr (mkInfoResponse 50 40 3 [mkCandle 45]
                           [open_order 1 TradeTypeBuy 5 100]))
                   1701 (newInvestorBase 10000 0)) in
  lowestSellPrice i' = 50 /\ latestTradePrice i' = 45
  /\ taskStack i' = [UpdateOrdersTask] /\ pollingTime i' = 2201.
Proof.
  pose proof (Info_success_then_rate_limited sample_cfg 1700 1701
                (mkInfoResponse 50 40 3 [mkCandle 45]
                   [open_order 1 TradeTypeBuy 5 100])
                (newInvestorBase 10000 0)) as H.
  cbv zeta in H.
  destruct H as (_ & H1 & _ & _ & H2 & H3 & H4 & _).
  - vm_compute. discriminate.
  - cbv zeta. rewrite H1, H2, H3, H4. repeat split.
Defined.

(** ** Reconciliation: failures and edge cases *)

Lemma reconcile_failure_is_consistency (Removed : Order -> bool)
    (srv : list Order) (clock : nat -> Time) (local : list Order) :
  forall (n : nat) (a : Tally) (os : list Order) (e : error),
    reconcile Removed srv clock n local a = (os, Failure e) ->
    is_consistency_violation e = true.
Proof.
  induction local as [|o rest IH]; intros n a os e Hr;
    cbn [reconcile] in Hr; [discriminate|].
  destruct (Removed o).
  - destruct (reconcile Removed srv clock n rest a) as [rest' r] eqn:Hr'.
    injection Hr as _ ->. exact (IH _ _ _ _ Hr').
  - destruct (find_order srv o) as [order|].
    + destruct (reconcile Removed srv clock n rest (tally_order order a))
        as [rest' r] eqn:Hr'.
      injection Hr as _ ->. exact (IH _ _ _ _ Hr').
    + destruct (String.eqb (Type_ o) TradeTypeSell).
      * injection Hr as _ <-. reflexivity.
      * destruct (reconcile Removed srv clock (S n) rest a) as [rest' r] eqn:Hr'.
        injection Hr as _ ->. exact (IH _ _ _ _ Hr').
Qed.

(** X13. A reconciliation that does not succeed leaves the four balances
    (credit, inventory and the two reserved amounts) and every field other
    than the order list as they were: the balances are assigned only after
    the merge loop has run to its end.  The investor is entirely untouched
    when [GetOrders] fails (the client's error is passed on) or when the
    check on the most recent order stops the task. *)
Theorem UpdateOrders_failure_keeps_balances (Removed : Order -> bool)
    (resp : ClientError + list Order) (clock : nat -> Time)
    (i : investorBase) :
  fst (UpdateOrders_body Removed resp clock i) <> Return tt ->
  set_orders (snd (UpdateOrders_body Removed resp clock i)) (orders i) = i
  /\ (forall err, resp = inl err ->
        UpdateOrders_body Removed resp clock i = (Failure (ErrClient err), i))
  /\ (forall srv, resp = inr srv ->
        check_last_order (orders i) srv <> Return tt ->
        snd (UpdateOrders_body Removed resp clock i) = i)
  /\ (forall srv e, resp = inr srv ->
        fst (UpdateOrders_body Removed resp clock i) = Failure e ->
        is_consistency_violation e = true).
Proof.
  intros Hfail. unfold UpdateOrders_body in *.
  destruct resp as [err|srv].
  - split; [now destruct i|]. split; [intros err' [= <-]; reflexivity|].
    split; intros; discriminate.
  - destruct (check_last_order (orders i) srv) as [[]|e|] eqn:Hc.
    + destruct (reconcile Removed srv clock 0 (orders i) Tally0)
        as [os [a|e|]] eqn:Hr; cbn [fst snd] in *.
      * contradiction.
      * split; [now destruct i|]. split; [intros; discriminate|].
        split; [intros srv' [= <-] Hne; contradiction|].
        intros srv' e' _ [= <-]. exact (reconcile_failure_is_consistency _ _ _ _ _ _ _ _ Hr).
      * split; [now destruct i|]. split; [intros; discriminate|].
        split; [intros srv' [= <-] Hne; contradiction|]. intros; discriminate.
    + split; [now destruct i|]. split; [intros; discriminate|].
      split; [reflexivity|]. intros srv' e' _ [= <-].
      unfold check_last_order in Hc.
      destruct (last (orders i)) as [lo|]; [|discriminate].
      destruct (String.eqb (Type_ lo) TradeTypeSell); [|discriminate].
      destruct (last srv) as [glo|]; [|discriminate].
      destruct (negb (ID lo =? ID glo)); [|discriminate].
      injection Hc as <-. reflexivity.
    + split; [now destruct i|]. split; [intros; discriminate|].
      split; [reflexivity|]. intros; discriminate.
Qed.

Lemma UpdateOrders_failure_keeps_balances_witness :
  snd (UpdateOrders_body Removed_model
         (inr [open_order 7 TradeTypeSell 5 100]) (fun _ => 2000)
         investor_after_sell)
  = investor_after_sell.
Proof.
  apply (proj1 (proj2 (proj2
           (UpdateOrders_failure_keeps_balances Removed_model
              (inr [open_order 7 TradeTypeSell 5 100]) (fun _ => 2000)
              investor_after_sell ltac:(vm_compute; discriminate))))
           [open_order 7 TradeTypeSell 5 100] eq_refl).
  vm_compute. discriminate.
Defined.

Lemma last_snoc_order (os : list Order) (o : Order) : last (os ++ [o]) = Some o.
Proof. apply last_snoc. Qed.

(** X14. A successful placement records the order at the end of the list
    and stamps [lastOrder].  When the order is a sell, the next
    reconciliation looks only at the last element of the server's list: if
    that element has another id the task fails with the not-reflected error
    and changes nothing, even if the server lists the order elsewhere; so a
    reconciliation that succeeds after a sell was placed was given a list
    that ends with that order's id. *)
Theorem AddOrder_sell_then_UpdateOrders (Removed : Order -> bool)
    (order : Order) (now : Time) (srv : list Order) (clock : nat -> Time)
    (i : investorBase) :
  Type_ order = TradeTypeSell ->
  let i1 := snd (AddOrder_body (inr order) now i) in
  AddOrder_body (inr order) now i = (Return tt, i1)
  /\ orders i1 = orders i ++ [order]
  /\ lastOrder i1 = now
  /\ (forall glo, last srv = Some glo -> ID glo <> ID order ->
        UpdateOrders_body Removed (inr srv) clock i1
        = (Failure ErrOrdersNotReflected, i1))
  /\ (fst (UpdateOrders_body Removed (inr srv) clock i1) = Return tt ->
      exists glo, last srv = Some glo /\ ID glo = ID order).
Proof.
  intros Hsell i1.
  assert (Ho : orders i1 = orders i ++ [order]) by reflexivity.
  split; [reflexivity|]. split; [exact Ho|]. split; [reflexivity|].
  assert (Hc : check_last_order (orders i1) srv
               = match last srv with
                 | None => Panic
                 | Some glo =>
                     if negb (ID order =? ID glo)
                     then Failure ErrOrdersNotReflected else Return tt
                 end).
  { unfold check_last_order. rewrite Ho, last_snoc_order, Hsell. reflexivity. }
  split.
  - intros glo Hlast Hne. unfold UpdateOrders_body. rewrite Hc, Hlast.
    destruct (Z.eqb_spec (ID order) (ID glo)); [congruence | reflexivity].
  - unfold UpdateOrders_body. rewrite Hc.
    destruct (last srv) as [glo|]; [|discriminate].
    destruct (Z.eqb_spec (ID order) (ID glo)) as [E|E]; [|discriminate].
    intros _. exists glo. split; [reflexivity | now symmetry].
Qed.

Lemma AddOrder_sell_then_UpdateOrders_witness :
  UpdateOrders_body Removed_model
    (inr [open_order 1 TradeTypeSell 5 100; open_order 7 TradeTypeBuy 1 90])
    (fun _ => 2000) investor_after_sell
  = (Failure ErrOrdersNotReflected, investor_after_sell).
Proof.
  apply (proj1 (proj2 (proj2 (proj2
           (AddOrder_sell_then_UpdateOrders Removed_model
              (open_order 1 TradeTypeSell 5 100) 1000
              [open_order 1 TradeTypeSell 5 100; open_order 7 TradeTypeBuy 1 90]
              (fun _ => 2000) (newInvestorBase 10000 10) eq_refl))))
           (open_order 7 TradeTypeBuy 1 90) eq_refl).
  vm_compute. discriminate.
Defined.

(** X15. An investor without recorded orders reconciles successfully
    against any server list: the orders the server lists are not taken
    over, the reserved amounts become zero and the balances return to the
    starting endowment. *)
Theorem UpdateOrders_without_local_orders (Removed : Order -> bool)
    (srv : list Order) (clock : nat -> Time) (i : investorBase) :
  orders i = [] ->
  in_int64 (defcredit i) -> in_int64 (defisu i) ->
  UpdateOrders_body Removed (inr srv) clock i
  = (Return tt, set_balances i 0 0 (defcredit i) (defisu i))
  /\ orders (snd (UpdateOrders_body Removed (inr srv) clock i)) = [].
Proof.
  intros Hnil Hc Hi. unfold UpdateOrders_body, check_last_order.
  rewrite Hnil. cbn. unfold add64.
  rewrite !Z.add_0_r, !wrap64_small by assumption.
  split; [|reflexivity]. f_equal. destruct i. cbn in *. now subst.
Qed.

Lemma UpdateOrders_without_local_orders_witness :
  UpdateOrders_body Removed_model (inr three_buys) (fun _ => 2000)
    (newInvestorBase 10000 7)
  = (Return tt, newInvestorBase 10000 7).
Proof.
  apply (UpdateOrders_without_local_orders Removed_model three_buys
           (fun _ => 2000) (newInvestorBase 10000 7)).
  - reflexivity.
  - vm_compute. split; [discriminate | reflexivity].
  - vm_compute. split; [discriminate | reflexivity].
Defined.

(** The orders a reconciliation has merged are accounted for in the same
    way by the next one, when the server lists no order that counts as
    removed. *)
Lemma reconcile_reported_again (Removed : Order -> bool) (srv : list Order)
    (clock : nat -> Time) (local : list Order) :
  (forall ro, In ro srv -> Removed ro = false) ->
  forall (n : nat) (a : Tally) (os : list Order) (a' : Tally),
    reconcile Removed srv clock n local a = (os, Return a') ->
    reported Removed srv os = reported Removed srv local.
Proof.
  intros Hsrv. induction local as [|o rest IH]; intros n a os a' Hrec.
  - simpl in Hrec. injection Hrec as <- _. reflexivity.
  - cbn [reconcile] in Hrec. rewrite (reported_cons Removed srv o rest).
    destruct (Removed o) eqn:HR.
    + destruct (reconcile Removed srv clock n rest a) as [rest' r] eqn:Hr.
      injection Hrec as <- ->. rewrite reported_cons, HR. exact (IH _ _ _ _ Hr).
    + destruct (find_order srv o) as [order|] eqn:Hf.
      * destruct (reconcile Removed srv clock n rest (tally_order order a))
          as [rest' r] eqn:Hr.
        injection Hrec as <- ->. rewrite reported_cons.
        assert (Hin : In order srv) by (apply find_some in Hf; tauto).
        rewrite (Hsrv order Hin).
        assert (Hf' : find_order srv order = Some order).
        { unfold find_order in *. rewrite (find_order_ID _ _ _ Hf). exact Hf. }
        rewrite Hf'. f_equal. exact (IH _ _ _ _ Hr).
      * destruct (String.eqb (Type_ o) TradeTypeSell); [discriminate|].
        destruct (reconcile Removed srv clock (S n) rest a) as [rest' r] eqn:Hr.
        injection Hrec as <- ->. rewrite reported_cons.
        assert (Hf' : find_order srv (set_ClosedAt o (Some (clock n))) = None)
          by exact Hf.
        rewrite Hf'.
        destruct (Removed (set_ClosedAt o (Some (clock n)))); exact (IH _ _ _ _ Hr).
Qed.

(** X16. Reconciling twice against the same server list gives the same
    balances: when the server lists no order that counts as removed, a
    second successful reconciliation, at whatever time, leaves credit,
    inventory and the two reserved amounts as the first one set them. *)
Theorem UpdateOrders_twice_same_balances (Removed : Order -> bool)
    (srv : list Order) (clock clock' : nat -> Time) (i i1 i2 : investorBase) :
  (forall ro, In ro srv -> Removed ro = false) ->
  UpdateOrders_body Removed (inr srv) clock i = (Return tt, i1) ->
  UpdateOrders_body Removed (inr srv) clock' i1 = (Return tt, i2) ->
  credit i2 = credit i1 /\ isu i2 = isu i1
  /\ resvedCredit i2 = resvedCredit i1 /\ resvedIsu i2 = resvedIsu i1.
Proof.
  intros Hsrv H1 H2.
  destruct (UpdateOrders_totals _ _ _ _ _ H1) as (A1 & A2 & A3 & A4 & D1 & D2).
  destruct (UpdateOrders_totals _ _ _ _ _ H2) as (B1 & B2 & B3 & B4 & _).
  destruct (UpdateOrders_body_success _ _ _ _ _ H1) as (os & a & _ & Hr & E).
  assert (Ho : orders i1 = os) by (rewrite E; reflexivity).
  pose proof (reconcile_reported_again Removed srv clock (orders i) Hsrv _ _ _ _ Hr)
    as Hrep.
  rewrite Ho, Hrep, D1, D2 in *.
  rewrite A1, A2, A3, A4, B1, B2, B3, B4. repeat split.
Qed.

Lemma UpdateOrders_twice_same_balances_witness :
  let i1 := snd (UpdateOrders_body Removed_model (inr server_sell_settled)
                   (fun _ => 1600) investor_sell_and_buy) in
  let i2 := snd (UpdateOrders_body Removed_model (inr server_sell_settled)
                   (fun _ => 1900) i1) in
  credit i2 = credit i1 /\ isu i2 = isu i1
  /\ resvedCredit i2 = resvedCredit i1 /\ resvedIsu i2 = resvedIsu i1.
Proof.
  intros i1 i2.
  apply (UpdateOrders_twice_same_balances Removed_model server_sell_settled
           (fun _ => 1600) (fun _ => 1900) investor_sell_and_buy i1 i2).
  - intros ro [<- | [<- | []]]; reflexivity.
  - reflexivity.
  - reflexivity.
Defined.

(** ** Signing up and signing in *)

(** X17. Sign-up never changes the investor and asks the server only while
    the investor is not signed in.  Once a sign-in has succeeded (the only
    thing that sets [isSignin]), a sign-up scores 0 whatever the server
    would answer.  Before that, an answer whose message contains
    "bank_id already exists" counts as a success with the full
    [SignupScore], and any other error is returned as it is.  A sign-in
    that fails leaves the investor not signed in. *)
Theorem Signup_and_Signin (cfg : Config) (i : investorBase) :
  (forall resp i', Signin_body resp i = (Return tt, i') ->
     resp = None /\ isSignin i' = true
     /\ forall resp', Signup_body cfg resp' i' = Return 0)
  /\ (forall err, Signin_body (Some err) i = (Failure (ErrClient err), i))
  /\ (isSignin i = false ->
      Signup_body cfg None i = Return (SignupScore cfg)
      /\ forall err,
           Signup_body cfg (Some err) i
           = if -1 <? strings_Index (Error_ err) "bank_id already exists"
             then Return (SignupScore cfg) else Failure (ErrClient err)).
Proof.
  split; [|split].
  - intros resp i' H. unfold Signin_body in H.
    destruct resp as [err|]; [discriminate|]. injection H as <-.
    repeat split.
  - reflexivity.
  - intros Hs. unfold Signup_body. rewrite Hs. split; reflexivity.
Qed.

Lemma Signup_and_Signin_witness :
  Signup_body sample_cfg
    (Some (mkClientError "bank_id already exists" (Some 409)))
    (newInvestorBase 10000 0)
  = Return 3.
Proof.
  rewrite (proj2 (proj2 (proj2 (Signup_and_Signin sample_cfg (newInvestorBase 10000 0)))
                   eq_refl)).
  reflexivity.
Defined.

(** ** The pointers captured by cancellations stay valid *)

Lemma task_ptr_ok_mono (t : Task) :
  forall n n', (n <= n')%nat -> task_ptr_ok n t = true -> task_ptr_ok n' t = true.
Proof.
  induction t as [t Hleaf | cap ts IHts] using Task_nested_ind; intros n n' Hle H.
  - destruct t as [| | | | | ot amount price | [k|] | | cap ts];
      try reflexivity; try discriminate.
    + simpl in *. apply Nat.ltb_lt in H. apply Nat.ltb_lt. lia.
    + exfalso. exact (Hleaf cap ts eq_refl).
  - simpl in *. induction IHts as [|x rest Hx _ IHrest]; [reflexivity|].
    simpl in *. apply andb_prop in H as [H1 H2].
    rewrite (Hx n n' Hle H1), (IHrest H2). reflexivity.
Qed.

Lemma ptrs_ok_frame (i : RandomInvestor) (b' : investorBase) :
  ptrs_ok i ->
  (length (orders (base i)) <= length (orders b'))%nat ->
  (exists extra, taskStack b' = taskStack (base i) ++ extra
     /\ Forall (fun t => task_ptr_ok (length (orders b')) t = true) extra) ->
  ptrs_ok (set_base i b').
Proof.
  unfold ptrs_ok. intros Hq Hle (extra & E & He). cbn [set_base base].
  rewrite E. apply Forall_app. split; [|exact He].
  eapply Forall_impl; [exact Hq|]. intros t Ht. cbn beta in *.
  exact (task_ptr_ok_mono t _ _ Hle Ht).
Qed.

(** Whatever the policy proposes points into the current list. *)
Lemma UpdateOrderTask_proposal_ptr_ok (cfg : Config) (retired : bool)
    (now : Time) (r : Z) (i i' : RandomInvestor) (t : Task) :
  UpdateOrderTask cfg retired now r i = (Return (Some t), i') ->
  task_ptr_ok (length (orders (base i))) t = true.
Proof.
  intros H. unfold UpdateOrderTask in H.
  pose proof (pick_release_inv (base i) (orders (base i)) [] None 0 eq_refl) as Hinv.
  cbn [app length] in Hinv.
  ladder_hyp H; try discriminate; injection H as <- _; try reflexivity.
  cbn [fst snd] in Hinv.
  match goal with
  | |- task_ptr_ok _ (RemoveOrderTask ?o) = true => destruct o as [k|]
  end.
  - destruct Hinv as (ok & Hk & _). apply lookup_lt_Some in Hk.
    simpl. apply Nat.ltb_lt. exact Hk.
  - simpl in Hinv.
    match goal with
    | Hc : (OrderCap <=? _)%nat = true |- _ =>
        rewrite Hinv in Hc; discriminate Hc
    end.
Qed.

Section Pointers.

Variable cfg : Config.
Variable Removed : Order -> bool.
Variable envs : nat -> Env.

Lemma run_task_ptrs (task : Task) :
  forall (n : nat) (i : RandomInvestor),
    task_ptr_ok (length (orders (base i))) task = true ->
    ptrs_ok i ->
    ptrs_ok (snd (fst (run_task cfg Removed task envs n i)))
    /\ (length (orders (base i))
        <= length (orders (base (snd (fst (run_task cfg Removed task envs n i))))))%nat.
Proof.
  induction task as [task Hleaf | cap ts IHts] using Task_nested_ind;
    intros n i Hok Hq.
  - destruct task as [| | | | | ot amount price | o | | cap ts];
      cbn [run_task].
    + cbn [fst snd]. split; [exact Hq | lia].
    + cbn [fst snd]. split; [exact Hq | lia].
    + unfold Signin_body. destruct (e_signin (envs n)); cbn [fst snd].
      * rewrite set_base_base. split; [exact Hq | lia].
      * split; [|cbn; lia].
        apply ptrs_ok_frame; [exact Hq | cbn; lia |].
        exists []. rewrite app_nil_r. split; [reflexivity | constructor].
    + unfold Info_task.
      destruct (Info_body_frame cfg (e_retired (envs n)) (e_now (envs n))
                  (e_now' (envs n)) (e_info (envs n)) (base i)) as [[Hl _] Hs].
      destruct (Info_body cfg (e_retired (envs n)) (e_now (envs n))
                  (e_info (envs n)) (e_now' (envs n)) (base i)) as [r b].
      cbn [fst snd set_base base] in *. split; [|lia].
      apply ptrs_ok_frame; [exact Hq | lia |].
      destruct Hs as [-> | ->].
      * exists []. rewrite app_nil_r. split; [reflexivity | constructor].
      * exists [UpdateOrdersTask]. split; [reflexivity | repeat constructor].
    + unfold UpdateOrders_task.
      destruct (UpdateOrders_body_frame Removed (e_orders (envs n))
                  (e_clock (envs n)) (base i)) as [[Hl _] Hs].
      destruct (UpdateOrders_body Removed (e_orders (envs n))
                  (e_clock (envs n)) (base i)) as [r b].
      cbn [fst snd set_base base] in *. split; [|lia].
      apply ptrs_ok_frame; [exact Hq | lia |].
      exists []. rewrite app_nil_r. split; [now symmetry | constructor].
    + unfold AddOrder_task, AddOrder_body.
      destruct (e_add (envs n)) as [err|order].
      * destruct (-1 <? strings_Index (Error_ err) insufficient_balance_msg);
          cbn [fst snd]; rewrite set_base_base; (split; [exact Hq | lia]).
      * cbn [fst snd set_base base set_lastOrder set_orders orders].
        rewrite length_app. split; [|simpl; lia].
        apply ptrs_ok_frame; [exact Hq | cbn; rewrite length_app; lia |].
        exists []. rewrite app_nil_r. split; [reflexivity | constructor].
    + destruct (RemoveOrder_body_frame cfg Removed o (e_delete (envs n))
                  (e_now (envs n)) (base i)) as [[Hl _] Hs].
      destruct (RemoveOrder_body cfg Removed o (e_delete (envs n))
                  (e_now (envs n)) (base i)) as [r b].
      cbn [fst snd set_base base] in *. split; [|lia].
      apply ptrs_ok_frame; [exact Hq | lia |].
      exists []. rewrite app_nil_r. split; [now symmetry | constructor].
    + unfold FixNextTask_body.
      pose proof (UpdateOrderTask_keeps_base cfg (e_retired (envs n))
                    (e_now (envs n)) (e_rand (envs n)) i) as Hb.
      destruct (UpdateOrderTask cfg (e_retired (envs n)) (e_now (envs n))
                  (e_rand (envs n)) i) as [[[t|]| |] i1] eqn:Hu;
        cbn [fst snd] in *.
      * split.
        -- unfold ptrs_ok.
           cbn [set_base base pushNextTask set_taskStack taskStack orders].
           rewrite ?Hb. rewrite <- app_assoc. apply Forall_app. split; [exact Hq|].
           constructor; [|repeat constructor].
           exact (UpdateOrderTask_proposal_ptr_ok _ _ _ _ _ _ _ Hu).
        -- cbn [set_base base pushNextTask set_taskStack taskStack orders].
           rewrite ?Hb. lia.
      * unfold ptrs_ok. rewrite Hb. split; [exact Hq | lia].
      * unfold ptrs_ok. rewrite Hb. split; [exact Hq | lia].
      * unfold ptrs_ok. rewrite Hb. split; [exact Hq | lia].
    + exfalso. exact (Hleaf cap ts eq_refl).
  - cbn [run_task]. cbn [task_ptr_ok] in Hok.
    generalize 0 as score. revert n i Hok Hq.
    induction IHts as [|x rest Hx _ IHrest]; intros n i Hok Hq score.
    + split; [exact Hq | cbn; lia].
    + cbn [forallb] in Hok. apply andb_prop in Hok as [Hx1 Hrest1].
      cbn [run_all]. destruct (Hx n i Hx1 Hq) as [Hq' Hle].
      destruct (run_task cfg Removed x envs n i) as [[r i'] n'].
      cbn [fst snd] in *. destruct r as [s| |]; cbn [fst snd].
      * assert (Hrest2 : forallb (task_ptr_ok (length (orders (base i')))) rest = true).
        { apply forallb_forall. intros y Hy.
          apply (task_ptr_ok_mono y _ _ Hle).
          exact (proj1 (forallb_forall _ _) Hrest1 y Hy). }
        destruct (IHrest n' i' Hrest2 Hq' (score + s)) as [Hq'' Hle'].
        split; [exact Hq'' | lia].
      * split; [exact Hq' | exact Hle].
      * split; [exact Hq' | exact Hle].
Qed.

Lemma run_ticks_ptrs (m : nat) :
  forall (n : nat) (i : RandomInvestor),
    ptrs_ok i ->
    let res := run_ticks cfg Removed m envs n i in
    ptrs_ok (snd (fst res))
    /\ (length (orders (base i)) <= length (orders (base (snd (fst res)))))%nat
    /\ Forall (fun t => task_ptr_ok (length (orders (base (snd (fst res))))) t = true)
         (fst (fst res)).
Proof.
  induction m as [|m IH]; intros n i Hq; cbn zeta.
  - cbn [run_ticks fst snd]. split; [exact Hq|]. split; [lia | constructor].
  - cbn [run_ticks].
    destruct (e_retired (envs n)).
    + rewrite RandomInvestor_Next_retired by reflexivity. apply (IH (S n) i Hq).
    + destruct (e_retired' (envs n)).
      * rewrite RandomInvestor_Next_retired by reflexivity. apply (IH (S n) i Hq).
      * rewrite RandomInvestor_Next_live.
        set (c := SerialTask (2 + length (taskStack (base i)))
                    (InfoTask :: taskStack (base i) ++ [FixNextTaskT])).
        set (i1 := set_base i (set_taskStack (base i) [])).
        assert (Hc : task_ptr_ok (length (orders (base i1))) c = true).
        { unfold c, i1. cbn [task_ptr_ok forallb andb set_base base set_taskStack orders].
          rewrite forallb_app. cbn [forallb task_ptr_ok]. rewrite andb_true_r.
          apply forallb_forall. intros y Hy.
          unfold ptrs_ok in Hq. rewrite Forall_forall in Hq.
          apply Hq. now apply list_elem_of_In. }
        assert (Hq1 : ptrs_ok i1) by (unfold i1, ptrs_ok; cbn; constructor).
        destruct (run_task_ptrs c (S n) i1 Hc Hq1) as [Hq2 Hle2].
        destruct (run_task cfg Removed c envs (S n) i1) as [[r i2] n2].
        cbn [fst snd] in *.
        destruct (IH n2 i2 Hq2) as (Hq3 & Hle3 & Hts).
        destruct (run_ticks cfg Removed m envs n2 i2) as [[ts i3] n3].
        cbn [fst snd] in *. split; [exact Hq3|].
        split; [unfold i1 in Hle2; cbn in Hle2; lia|].
        constructor; [|exact Hts].
        apply (task_ptr_ok_mono c (length (orders (base i1)))); [lia | exact Hc].
Qed.

End Pointers.

(** X18. The pointers captured by cancellations never dangle.  Starting
    from a fresh investor and over any number of ticks, whatever the
    server answers, every cancellation in a composite handed out by [Next]
    or still waiting in the queue holds a pointer into the investor's order
    list (never nil, never past the end); the list never shrinks, so it is
    still valid when the task runs, and a cancellation with a valid pointer
    does not panic. *)
Theorem RemoveOrder_pointers_stay_valid (cfg : Config)
    (Removed : Order -> bool) (envs : nat -> Env) (m n : nat)
    (credit0 isu0 unitamount0 unitprice0 : Z) :
  let res := run_ticks cfg Removed m envs n
               (NewRandomInvestor credit0 isu0 unitamount0 unitprice0) in
  let final := snd (fst res) in
  Forall (fun t => task_ptr_ok (length (orders (base final))) t = true)
    (fst (fst res))
  /\ ptrs_ok final
  /\ forall k resp now b,
       task_ptr_ok (length (orders b)) (RemoveOrderTask (Some k)) = true ->
       fst (RemoveOrder_body cfg Removed (Some k) resp now b) <> Panic.
Proof.
  intros res final.
  destruct (run_ticks_ptrs cfg Removed envs m n
              (NewRandomInvestor credit0 isu0 unitamount0 unitprice0))
    as (Hq & _ & Hts); [constructor|].
  split; [exact Hts|]. split; [exact Hq|].
  intros k resp now b Hk. simpl in Hk. apply Nat.ltb_lt in Hk.
  apply lookup_lt_is_Some_2 in Hk as [o Ho].
  unfold RemoveOrder_body. rewrite Ho.
  destruct (Removed o); [discriminate|].
  destruct resp as [err|]; [|discriminate].
  destruct (StatusCode err) as [code|]; [|discriminate].
  destruct (code =? 404); discriminate.
Qed.

Lemma RemoveOrder_pointers_witness :
  fst (RemoveOrder_body sample_cfg Removed_model (Some 4%nat) None 2500
         (base investor_with_five_orders)) <> Panic.
Proof.
  apply (proj2 (proj2 (RemoveOrder_pointers_stay_valid sample_cfg Removed_model
                         (fun _ => calm_env) 3 0 10000 0 5 100))).
  reflexivity.
Defined.

(** * Properties of the order handlers *)

Section HandlerFacts.

Import Handler.

Lemma strconv_ParseInt_range (s : string) (v : Z) :
  strconv_ParseInt s = Some v -> in_int64 v.
Proof.
  unfold strconv_ParseInt. destruct s as [|c rest]; [discriminate|].
  destruct (if Ascii.eqb c "+" then (false, rest)
            else if Ascii.eqb c "-" then (true, rest) else (false, String c rest))
    as [neg digits].
  destruct digits; [discriminate|].
  destruct (parse_digits _ 0) as [un|]; [|discriminate].
  destruct ((- 2 ^ 63 <=? (if neg then - un else un))
            && ((if neg then - un else un) <? 2 ^ 63)) eqn:E; [|discriminate].
  intros [= <-]. apply andb_prop in E as [E1 E2].
  apply Z.leb_le in E1. apply Z.ltb_lt in E2. split; assumption.
Qed.

Lemma formvalInt64_inr (v key : string) (z : Z) :
  formvalInt64 v key = inr z ->
  v <> "" /\ strconv_ParseInt v = Some z /\ in_int64 z.
Proof.
  unfold formvalInt64. destruct (String.eqb_spec v ""); [discriminate|].
  destruct (strconv_ParseInt v) as [i|] eqn:E; [|discriminate].
  intros [= <-]. split; [assumption|]. split; [reflexivity|].
  exact (strconv_ParseInt_range _ _ E).
Qed.

Ltac tx_hyp H :=
  repeat match type of H with
  | context [match ?x with _ => _ end] =>
      lazymatch x with
      | context [match _ with _ => _ end] => fail
      | _ => destruct x eqn:?
      end
  end.

Ltac tx_goal :=
  repeat match goal with
  | |- context [match ?x with _ => _ end] =>
      lazymatch x with
      | context [match _ with _ => _ end] => fail
      | _ => destruct x eqn:?
      end
  end.

Ltac tx_facts :=
  repeat match goal with
  | E : formvalInt64 _ _ = inr _ |- _ =>
      apply formvalInt64_inr in E as (? & ? & [? ?])
  | E : (_ <=? _) = false |- _ => apply Z.leb_gt in E
  | E : (_ <=? _) = true |- _ => apply Z.leb_le in E
  | E : (_ =? _) = true |- _ => apply Z.eqb_eq in E
  | E : (_ =? _) = false |- _ => apply Z.eqb_neq in E
  | E : negb _ = true |- _ => apply negb_true_iff in E
  | E : negb _ = false |- _ => apply negb_false_iff in E
  | E : String.eqb _ _ = true |- _ => apply String.eqb_eq in E
  end.

(** X19. [AddOrders] inserts an order only for an authenticated user, with
    the amount and the price read from the form, both positive and within
    [int64], and a type that is buy or sell; for a buy the bank has accepted
    the check of the total [price * amount], computed in [int64]
    arithmetic. *)
Theorem AddOrders_inserts_only_valid_orders (w : AddOrdersWorld)
    (ot : string) (uid amount price : Z) :
  In (EvInsertOrder ot uid amount price) (fst (AddOrders w)) ->
  (exists user, userByRequest (a_session w) (a_lookup w) = inr user
                /\ uid = UserID user)
  /\ formvalInt64 (a_amount w) "amount" = inr amount
  /\ formvalInt64 (a_price w) "price" = inr price
  /\ 0 < amount < 2 ^ 63 /\ 0 < price < 2 ^ 63
  /\ ot = a_type w
  /\ (ot = OrderTypeBuy /\ a_check w (mul64 price amount) = None
      \/ ot = OrderTypeSell).
Proof.
  intros H. unfold AddOrders, AddOrders_tx, txScorp, errcode, errcodeWrap in H.
  cbv zeta in H.
  tx_hyp H; cbn in H;
    repeat (destruct H as [H|H]; try discriminate H); try contradiction;
    injection H as <- <- <- <-; tx_facts;
    (split; [eexists; split; reflexivity|]);
    (split; [reflexivity|]); (split; [reflexivity|]);
    (split; [lia|]); (split; [lia|]); (split; [reflexivity|]);
    first [ left; split; assumption | right; assumption ].
Qed.

Lemma AddOrders_inserts_only_valid_orders_witness :
  0 < 5 < 2 ^ 63 /\ 0 < 100 < 2 ^ 63.
Proof.
  destruct (AddOrders_inserts_only_valid_orders (order_request "buy" "5" "100")
              "buy" 7 5 100) as (_ & _ & _ & Ha & Hp & _).
  - vm_compute. left. reflexivity.
  - split; assumption.
Defined.

(** X20. A request [AddOrders] answers with 400 has no effect: no order is
    inserted, nothing is committed, the trade engine is not run; the
    transaction is rolled back.  A request without a signed-in user is
    answered 401 before a transaction is begun. *)
Theorem AddOrders_rejection_has_no_effect (w : AddOrdersWorld) :
  (status (snd (AddOrders w)) = 400 -> no_effect (fst (AddOrders w)))
  /\ (a_session w = None ->
      AddOrders w
      = ([], mkResponse 401 (BodyErr 401 (ErrNew "Not authenticated" [])))).
Proof.
  split.
  - unfold AddOrders, AddOrders_tx, txScorp, errcode, errcodeWrap, no_effect,
      userByRequest, handleError.
    cbv zeta. destruct (a_commit w); cbn [fmap option_fmap option_map].
    all: tx_goal; cbn; intros H; try discriminate H;
      (split; [reflexivity | repeat constructor]).
  - intros Hs. unfold AddOrders, userByRequest. rewrite Hs. reflexivity.
Qed.

Lemma AddOrders_rejection_witness :
  no_effect (fst (AddOrders (order_request "hold" "5" "100"))).
Proof.
  apply (proj1 (AddOrders_rejection_has_no_effect (order_request "hold" "5" "100"))).
  reflexivity.
Defined.

(** X21. A buy that the bank turns down for insufficient credit is logged
    as "buy.error", rolled back and answered 400 with the message
    "銀行残高が足りません"; no order is inserted.  That message is the one
    the benchmarker's [AddOrder] recognises: given as a client error, it
    makes the placement task return no error and leave the investor as it
    was. *)
Theorem AddOrders_insufficient_credit (w : AddOrdersWorld) (user : User)
    (amount price : Z) :
  userByRequest (a_session w) (a_lookup w) = inr user ->
  a_begin w = None -> a_lock w = None -> a_logger w = None -> a_bank w = None ->
  formvalInt64 (a_amount w) "amount" = inr amount -> 0 < amount ->
  formvalInt64 (a_price w) "price" = inr price -> 0 < price ->
  a_type w = OrderTypeBuy ->
  a_check w (mul64 price amount) = Some ErrCreditInsufficient ->
  AddOrders w
  = ([EvLog "buy.error"
        [("error", AErr ErrCreditInsufficient); ("user_id", AInt (UserID user));
         ("amount", AInt amount); ("price", AInt price)];
      EvRollback],
     mkResponse 400 (BodyErr 400 (ErrNew "銀行残高が足りません" [])))
  /\ forall code now i,
       AddOrder_body (inl (mkClientError "銀行残高が足りません" code)) now i
       = (Return tt, i).
Proof.
  intros Hu Hb Hl Hlg Hbk Ha Hapos Hp Hppos Ht Hc. split.
  - unfold AddOrders, AddOrders_tx, txScorp. cbv zeta.
    rewrite Hu, Hb, Hl, Hlg, Hbk, Ha, Hp, Ht, Hc.
    destruct (Z.leb_spec amount 0); [lia|].
    destruct (Z.leb_spec price 0); [lia|]. reflexivity.
  - intros code now i. reflexivity.
Qed.

Lemma AddOrders_insufficient_credit_witness :
  status (snd (AddOrders (order_request "buy" "50" "100"))) = 400.
Proof.
  rewrite (proj1 (AddOrders_insufficient_credit (order_request "buy" "50" "100")
                    sample_user 50 100 eq_refl eq_refl eq_refl eq_refl eq_refl
                    eq_refl eq_refl eq_refl eq_refl eq_refl eq_refl)).
  reflexivity.
Defined.

(** X22. With a signed-in user, the database working and a positive
    amount and price, a sell is inserted without the bank being asked
    (whatever the bank would answer), and a buy is inserted exactly when
    the bank accepts the total computed in [int64] arithmetic, that is
    [price * amount] modulo [2^64]: a total that wraps around is checked as
    the small number it wraps to.  An accepted order is inserted, logged
    and committed, and the new id is answered with 200.  A buy the bank
    does not accept is logged as "buy.error" and rolled back, nothing is
    inserted, and the answer is 400 for insufficient credit and 500 for
    any other error of the bank. *)
Theorem AddOrders_accepts (w : AddOrdersWorld) (user : User)
    (amount price id : Z) (tradeChance : bool) :
  userByRequest (a_session w) (a_lookup w) = inr user ->
  a_begin w = None -> a_lock w = None -> a_logger w = None -> a_bank w = None ->
  formvalInt64 (a_amount w) "amount" = inr amount -> 0 < amount ->
  formvalInt64 (a_price w) "price" = inr price -> 0 < price ->
  a_insert w = None -> a_lastid w = inr id -> a_commit w = None ->
  a_chance w = inr tradeChance ->
  let accepted :=
    ([EvInsertOrder (a_type w) (UserID user) amount price;
      EvLog (a_type w ++ ".order")
        [("order_id", AInt id); ("user_id", AInt (UserID user));
         ("amount", AInt amount); ("price", AInt price)];
      EvCommit] ++ (if tradeChance then [EvRunTrade] else []),
     mkResponse 200 (BodyId id)) in
  (a_type w = OrderTypeSell -> AddOrders w = accepted)
  /\ (a_type w = OrderTypeBuy ->
      (a_check w (wrap64 (price * amount)) = None -> AddOrders w = accepted)
      /\ (forall e, a_check w (wrap64 (price * amount)) = Some e ->
            fst (AddOrders w)
            = [EvLog "buy.error"
                 [("error", AErr e); ("user_id", AInt (UserID user));
                  ("amount", AInt amount); ("price", AInt price)];
               EvRollback]
            /\ status (snd (AddOrders w))
               = (if is_ErrCreditInsufficient (ErrExt e) then 400 else 500))
      /\ ((exists ot uid a p, In (EvInsertOrder ot uid a p) (fst (AddOrders w)))
          <-> a_check w (wrap64 (price * amount)) = None)).
Proof.
  intros Hu Hb Hl Hlg Hbk Ha Hapos Hp Hppos Hi Hid Hcm Hch accepted.
  subst accepted.
  unfold AddOrders, AddOrders_tx, txScorp. cbv zeta.
  rewrite Hu, Hb, Hl, Hlg, Hbk, Ha, Hp, Hi, Hid, Hcm, Hch.
  destruct (Z.leb_spec amount 0); [lia|].
  destruct (Z.leb_spec price 0); [lia|].
  split.
  - intros Ht. rewrite Ht. reflexivity.
  - intros Ht. rewrite Ht. cbn [String.eqb Ascii.eqb Bool.eqb OrderTypeBuy].
    unfold mul64.
    destruct (a_check w (wrap64 (price * amount))) as [e|].
    + split; [discriminate|]. split.
      * intros e' [= <-].
        destruct (is_ErrCreditInsufficient (ErrExt e)); split; reflexivity.
      * split; [|discriminate].
        intros (ot & uid & a & p & Hin). exfalso.
        destruct (is_ErrCreditInsufficient (ErrExt e)); cbn in Hin;
          repeat (destruct Hin as [Hin|Hin]; try discriminate Hin);
          contradiction.
    + split; [reflexivity|]. split; [discriminate|].
      split; [intros _; reflexivity|].
      intros _. exists OrderTypeBuy, (UserID user), amount, price.
      cbn. left. reflexivity.
Qed.

(** A buy of 2^32 units at a price of 2^32 costs 2^64, which wraps to 0:
    the bank, holding 1000, accepts the check and the order is inserted. *)
Lemma AddOrders_accepts_witness :
  AddOrders (order_request "buy" "4294967296" "4294967296")
  = ([EvInsertOrder "buy" 7 4294967296 4294967296;
      EvLog "buy.order"
        [("order_id", AInt 42); ("user_id", AInt 7);
         ("amount", AInt 4294967296); ("price", AInt 4294967296)];
      EvCommit],
     mkResponse 200 (BodyId 42)).
Proof.
  pose proof (AddOrders_accepts (order_request "buy" "4294967296" "4294967296")
                sample_user 4294967296 4294967296 42 false
                eq_refl eq_refl eq_refl eq_refl eq_refl eq_refl eq_refl
                eq_refl eq_refl eq_refl eq_refl eq_refl eq_refl) as H0.
  cbv zeta in H0. destruct H0 as [_ Hbuy].
  destruct (Hbuy eq_refl) as (Hacc & _).
  apply Hacc. reflexivity.
Defined.

(** X23. [DeleteOrders] closes an order only if it was found, belongs to
    the signed-in user and is not closed yet.  An order of another user
    and an order that is already closed are answered 404, and the
    transaction is rolled back without any change.  For a 404 the
    benchmarker's [RemoveOrder] returns score 0 without an error. *)
Theorem DeleteOrders_closes_only_own_open_orders (w : DeleteOrdersWorld)
    (user : User) :
  userByRequest (d_session w) (d_lookup w) = inr user ->
  (forall oid, In (EvCloseOrder oid) (fst (DeleteOrders w)) ->
     exists order,
       d_order w = inr order /\ s_ID order = oid
       /\ s_UserID order = UserID user /\ s_ClosedAt order = None
       /\ exists id, strconv_ParseInt (d_id w) = Some id)
  /\ (forall order id,
        d_begin w = None -> d_lock w = None -> d_logger w = None ->
        strconv_ParseInt (d_id w) = Some id ->
        d_order w = inr order ->
        s_UserID order <> UserID user \/ s_ClosedAt order <> None ->
        fst (DeleteOrders w) = [EvRollback]
        /\ status (snd (DeleteOrders w)) = 404)
  /\ (forall cfg Removed k o msg now i,
        orders i !! k = Some o ->
        fst (RemoveOrder_body cfg Removed (Some k)
               (Some (mkClientError msg (Some 404))) now i) = Return 0).
Proof.
  intros Hu. split; [|split].
  - intros oid H. unfold DeleteOrders, DeleteOrders_tx, txScorp, errcodeWrap in H.
    rewrite Hu in H.
    tx_hyp H; cbn in H;
      repeat (destruct H as [H|H]; try discriminate H); try contradiction;
      injection H as <-; tx_facts;
      (eexists; split; [reflexivity|]; split; [reflexivity|];
       split; [assumption|]; split; [assumption|]; eexists; reflexivity).
  - intros order id Hb Hl Hlg Hid Ho Hne.
    unfold DeleteOrders, DeleteOrders_tx, txScorp, errcodeWrap.
    rewrite Hu, Hb, Hl, Hlg, Hid, Ho.
    assert (Hnonempty : String.eqb (d_id w) "" = false).
    { destruct (String.eqb_spec (d_id w) "") as [E|E]; [|reflexivity].
      rewrite E in Hid. discriminate Hid. }
    rewrite Hnonempty.
    destruct (Z.eqb_spec (s_UserID order) (UserID user)) as [E|E]; cbn.
    + destruct (s_ClosedAt order); [split; reflexivity|].
      destruct Hne as [Hne|Hne]; contradiction.
    + split; reflexivity.
  - intros cfg Removed k o msg now i Hk. unfold RemoveOrder_body. rewrite Hk.
    destruct (Removed o); reflexivity.
Qed.

Lemma DeleteOrders_closes_only_own_witness :
  status (snd (DeleteOrders
                 (delete_request "12" (inr (mkSOrder 12 8 "buy" None))))) = 404.
Proof.
  apply (proj1 (proj2 (DeleteOrders_closes_only_own_open_orders
                         (delete_request "12" (inr (mkSOrder 12 8 "buy" None)))
                         sample_user eq_refl))
           (mkSOrder 12 8 "buy" None) 12 eq_refl eq_refl eq_refl eq_refl eq_refl).
  left. vm_compute. discriminate.
Defined.

(** X24. An order id that cannot be found is answered 500, not 404: the
    error of the lookup is wrapped before it is compared with
    [sql.ErrNoRows], so the comparison never holds and the 404 branch
    cannot be taken, whatever error the lookup returns.  The benchmarker's
    [RemoveOrder] passes a 500 on as a failure of the task. *)
Theorem DeleteOrders_lookup_error_is_500 (w : DeleteOrdersWorld) (user : User)
    (id : Z) (e : ext_error) :
  userByRequest (d_session w) (d_lookup w) = inr user ->
  d_begin w = None -> d_lock w = None -> d_logger w = None ->
  strconv_ParseInt (d_id w) = Some id ->
  d_order w = inl e ->
  DeleteOrders w
  = ([EvRollback],
     mkResponse 500
       (BodyErr 500 (ErrWrap (ErrExt e) "model.GetOrderByIDWithLock failed. id" [])))
  /\ forall cfg Removed k o msg now i,
       orders i !! k = Some o -> Removed o = false ->
       RemoveOrder_body cfg Removed (Some k)
         (Some (mkClientError msg (Some 500))) now i
       = (Failure (ErrClient (mkClientError msg (Some 500))), i).
Proof.
  intros Hu Hb Hl Hlg Hid Ho. split.
  - unfold DeleteOrders, DeleteOrders_tx, txScorp, errcodeWrap.
    rewrite Hu, Hb, Hl, Hlg, Hid, Ho.
    assert (Hnonempty : String.eqb (d_id w) "" = false).
    { destruct (String.eqb_spec (d_id w) "") as [E|E]; [|reflexivity].
      rewrite E in Hid. discriminate Hid. }
    rewrite Hnonempty. reflexivity.
  - intros cfg Removed k o msg now i Hk HR.
    unfold RemoveOrder_body. rewrite Hk, HR. reflexivity.
Qed.

Lemma DeleteOrders_lookup_error_witness :
  status (snd (DeleteOrders (delete_request "12" (inl ErrNoRows)))) = 500.
Proof.
  rewrite (proj1 (DeleteOrders_lookup_error_is_500
                    (delete_request "12" (inl ErrNoRows)) sample_user 12 ErrNoRows
                    eq_refl eq_refl eq_refl eq_refl eq_refl eq_refl)).
  reflexivity.
Defined.

End HandlerFacts.
